(** * Hillside Hidden Resort: escrow settlement and reconciliation core

    A shallow embedding of the Python modules
      - [app/core/chains.py]                         (chain registry),
      - [app/integrations/escrow_chain.py]           (settlement client, record reader),
      - [app/integrations/supabase_client.py]        (escrow accessors of the booking store),
      - [app/observability/escrow_reconciliation_monitor.py] (engine and monitor),
      - [app/api/v2/routes/escrow.py]                (operator reconciliation listing),
    followed by the properties of the written specification, each settled
    against these definitions.

    Conventions.  Python [int] is [Z]; [str] is [string] (ASCII code units,
    which is all that chain keys, hex digests and state names contain);
    [bytes] is [list Byte.byte]; [None] is the [None] of [option].  A call that
    may raise returns a [result]; [try]/[except] is [try_except].  The RPC node
    (web3) and the booking table are explicit values handed to every function
    that touches them. *)

From Stdlib Require Import ZArith List String Ascii Bool Lia DecimalString.
From Stdlib Require Import Permutation.
Import ListNotations.

Local Open Scope string_scope.
Local Open Scope Z_scope.

(* ===================================================================== *)
(** ** Python runtime: strings, truthiness, exceptions *)
(* ===================================================================== *)

Module Py.

(** [str.isspace] on one ASCII code unit: TAB..CR, FS..US and SPACE. *)
Definition is_space (c : ascii) : bool :=
  let n := nat_of_ascii c in
  ((9 <=? n)%nat && (n <=? 13)%nat) || ((28 <=? n)%nat && (n <=? 32)%nat).

Fixpoint lstrip (s : string) : string :=
  match s with
  | EmptyString => EmptyString
  | String c r => if is_space c then lstrip r else s
  end.

Fixpoint rstrip (s : string) : string :=
  match s with
  | EmptyString => EmptyString
  | String c r =>
      match rstrip r with
      | EmptyString => if is_space c then EmptyString else String c EmptyString
      | r' => String c r'
      end
  end.

(** [s.strip()] *)
Definition strip (s : string) : string := rstrip (lstrip s).

Definition lower_ascii (c : ascii) : ascii :=
  let n := nat_of_ascii c in
  if ((65 <=? n)%nat && (n <=? 90)%nat)%bool then ascii_of_nat (n + 32) else c.

(** [s.lower()] *)
Fixpoint lower (s : string) : string :=
  match s with
  | EmptyString => EmptyString
  | String c r => String (lower_ascii c) (lower r)
  end.

(** [s.split(sep)] for a one-character separator: never the empty list. *)
Fixpoint split (sep : ascii) (s : string) : list string :=
  match s with
  | EmptyString => [EmptyString]
  | String c r =>
      if Ascii.eqb c sep then EmptyString :: split sep r
      else match split sep r with
           | h :: t => String c h :: t
           | [] => [String c EmptyString]
           end
  end.

(** [s.startswith(p)] *)
Definition startswith (s p : string) : bool := String.prefix p s.

(** [bool(s)] for a string. *)
Definition truthy (s : string) : bool := negb (s =? "")%string.

(** [a or b] on two strings. *)
Definition or_str (a b : string) : string := if truthy a then a else b.

(** [x or d] where [x] is a nullable text column. *)
Definition opt_or (x : option string) (d : string) : string :=
  match x with
  | Some s => or_str s d
  | None => d
  end.

(** [a or b] on two integers. *)
Definition or_int (a b : Z) : Z := if a =? 0 then b else a.

(** [str(n)] for an integer. *)
Definition str_of_int (n : Z) : string := NilZero.string_of_int (Z.to_int n).

(** [k in xs] for a container of strings. *)
Definition str_in (k : string) (xs : list string) : bool :=
  existsb (String.eqb k) xs.

(** Exceptions, by what the handlers of this code base tell apart:
    [RuntimeError] (the uniform error kind of the integrations),
    FastAPI's [HTTPException], and every other [Exception] subclass
    ([ValueError], web3 and transport exceptions, ...), kept with its class
    name and message. *)
Inductive exn : Type :=
| RuntimeError (msg : string)
| HTTPException (status_code : Z) (detail : string)
| OtherException (cls msg : string).

(** [str(exc)] *)
Definition str_of_exn (e : exn) : string :=
  match e with
  | RuntimeError m => m
  | HTTPException _ d => d
  | OtherException _ m => m
  end.

Definition is_RuntimeError (e : exn) : bool :=
  match e with RuntimeError _ => true | _ => false end.

Inductive result (A : Type) : Type :=
| Ok (a : A)
| Raise (e : exn).
Arguments Ok {A} a.
Arguments Raise {A} e.

Definition bind {A B} (m : result A) (k : A -> result B) : result B :=
  match m with
  | Ok a => k a
  | Raise e => Raise e
  end.

(** [try: body  except <filter>: handler]: an exception the filter does
    not select propagates. *)
Definition try_except {A} (body : result A) (select : exn -> bool)
    (handler : exn -> result A) : result A :=
  match body with
  | Ok a => Ok a
  | Raise e => if select e then handler e else Raise e
  end.

(** [except Exception]: every exception of this model. *)
Definition any_Exception (_ : exn) : bool := true.

Definition is_Ok {A} (r : result A) : bool :=
  match r with Ok _ => true | Raise _ => false end.

End Py.

Import Py.

Notation "x <- m ;; k" := (bind m (fun x => k))
  (at level 61, m at next level, right associativity).
Notation "'check' c 'else_raise' e ;; k" := (if c then k else Raise e)
  (at level 61, c at next level, e at next level, right associativity).

(* ===================================================================== *)
(** ** app/core/config.py: the settings the core reads *)
(* ===================================================================== *)

Module Config.

Record Settings : Type := {
supabase_url : string;
supabase_service_role_key : string;
chain_active_key : string;
chain_allowed_keys : string;
evm_rpc_url_sepolia : string;
evm_rpc_url_amoy : string;
chain_id_sepolia : Z;
chain_id_amoy : Z;
escrow_contract_address_sepolia : string;
escrow_contract_address_amoy : string;
guest_pass_contract_address_sepolia : string;
guest_pass_contract_address_amoy : string;
escrow_signer_private_key_sepolia : string;
escrow_signer_private_key_amoy : string;
escrow_lock_amount_wei : Z;
escrow_tx_receipt_timeout_sec : Z;
feature_escrow_reconciliation_scheduler : bool;
escrow_reconciliation_interval_sec : Z;
escrow_reconciliation_limit : Z;
escrow_reconciliation_chain_key : string;
escrow_reconciliation_alert_mismatch_threshold : Z;
escrow_reconciliation_alert_missing_onchain_threshold : Z;
escrow_reconciliation_alert_skipped_threshold : Z;
explorer_base_url_sepolia : string;
explorer_base_url_amoy : string;
polygon_rpc_url_amoy : string;
chain_id : Z;
escrow_contract_address : string;
escrow_signer_private_key : string
}.

(** The defaults of [class Settings]. *)
Definition default_settings : Settings := {|
supabase_url := "";
supabase_service_role_key := "";
chain_active_key := "sepolia";
chain_allowed_keys := "sepolia,amoy";
evm_rpc_url_sepolia := "";
evm_rpc_url_amoy := "";
chain_id_sepolia := 11155111;
chain_id_amoy := 80002;
escrow_contract_address_sepolia := "";
escrow_contract_address_amoy := "";
guest_pass_contract_address_sepolia := "";
guest_pass_contract_address_amoy := "";
escrow_signer_private_key_sepolia := "";
escrow_signer_private_key_amoy := "";
escrow_lock_amount_wei := 1;
escrow_tx_receipt_timeout_sec := 90;
feature_escrow_reconciliation_scheduler := false;
escrow_reconciliation_interval_sec := 300;
escrow_reconciliation_limit := 200;
escrow_reconciliation_chain_key := "";
escrow_reconciliation_alert_mismatch_threshold := 1;
escrow_reconciliation_alert_missing_onchain_threshold := 1;
escrow_reconciliation_alert_skipped_threshold := 1;
explorer_base_url_sepolia := "https://sepolia.etherscan.io/tx/";
explorer_base_url_amoy := "https://amoy.polygonscan.com/tx/";
polygon_rpc_url_amoy := "";
chain_id := 80002;
escrow_contract_address := "";
escrow_signer_private_key := ""
|}.

End Config.

Import Config.

(* ===================================================================== *)
(** ** app/core/chains.py *)
(* ===================================================================== *)

Module Chains.

Record ChainConfig : Type := {
  key : string;
  chain_id : Z;
  rpc_url : string;
  escrow_contract_address : string;
  guest_pass_contract_address : string;
  signer_private_key : string;
  explorer_base_url : string;
  enabled : bool
}.

(** A [dict[str, ChainConfig]] in insertion order. *)
Definition Registry : Type := list (string * ChainConfig).

Fixpoint dict_get (k : string) (d : Registry) : option ChainConfig :=
  match d with
  | [] => None
  | (k', v) :: rest => if (k =? k')%string then Some v else dict_get k rest
  end.

(** [k in d] *)
Definition dict_mem (k : string) (d : Registry) : bool :=
  match dict_get k d with Some _ => true | None => false end.

(** [d.values()] *)
Definition dict_values (d : Registry) : list ChainConfig := map snd d.

(** [_normalize_keys]: the set is kept as the list of its elements; only
    membership is ever asked of it. *)
Definition _normalize_keys (raw : string) : list string :=
  map (fun value => lower (strip value))
      (filter (fun value => truthy (strip value)) (split "," raw)).

Definition get_chain_registry (settings : Settings) : Registry :=
  let allowed_keys := _normalize_keys settings.(chain_allowed_keys) in
  let sepolia_rpc := strip (or_str settings.(evm_rpc_url_sepolia) "") in
  let amoy_rpc :=
    strip (or_str settings.(evm_rpc_url_amoy)
             (or_str settings.(polygon_rpc_url_amoy) "")) in
  let sepolia_contract := strip (or_str settings.(escrow_contract_address_sepolia) "") in
  let amoy_contract :=
    strip (or_str settings.(escrow_contract_address_amoy)
             (if (lower settings.(chain_active_key) =? "amoy")%string
              then settings.(Config.escrow_contract_address) else "")) in
  let sepolia_guest_pass := strip (or_str settings.(guest_pass_contract_address_sepolia) "") in
  let amoy_guest_pass := strip (or_str settings.(guest_pass_contract_address_amoy) "") in
  let sepolia_signer :=
    strip (or_str settings.(escrow_signer_private_key_sepolia)
             settings.(escrow_signer_private_key)) in
  let amoy_signer :=
    strip (or_str settings.(escrow_signer_private_key_amoy)
             settings.(escrow_signer_private_key)) in
  [ ("sepolia",
     {| key := "sepolia";
        chain_id := settings.(chain_id_sepolia);
        rpc_url := sepolia_rpc;
        escrow_contract_address := sepolia_contract;
        guest_pass_contract_address := sepolia_guest_pass;
        signer_private_key := sepolia_signer;
        explorer_base_url := strip (or_str settings.(explorer_base_url_sepolia) "");
        enabled := str_in "sepolia" allowed_keys |});
    ("amoy",
     {| key := "amoy";
        chain_id := or_int settings.(chain_id_amoy) settings.(Config.chain_id);
        rpc_url := amoy_rpc;
        escrow_contract_address := amoy_contract;
        guest_pass_contract_address := amoy_guest_pass;
        signer_private_key := amoy_signer;
        explorer_base_url := strip (or_str settings.(explorer_base_url_amoy) "");
        enabled := str_in "amoy" allowed_keys |}) ].

(** [next(iter(xs))]: [StopIteration] on an empty iterable. *)
Definition next_iter {A} (xs : list A) : result A :=
  match xs with
  | x :: _ => Ok x
  | [] => Raise (OtherException "StopIteration" "")
  end.

Definition get_active_chain (settings : Settings) : result ChainConfig :=
  let registry := get_chain_registry settings in
  let active_key := lower (strip (or_str settings.(chain_active_key) "")) in
  match dict_get active_key registry with
  | Some c => Ok c
  | None =>
      (* Safe fallback keeps API running even if env is misconfigured. *)
      match dict_get "sepolia" registry with
      | Some c => Ok c
      | None => next_iter (dict_values registry)
      end
  end.

End Chains.

Import Chains.

(* ===================================================================== *)
(** ** app/integrations/escrow_chain.py *)
(* ===================================================================== *)

Module EscrowChain.

Definition bytes : Type := list Byte.byte.

(** A contract function bound to its arguments ([contract.functions.f(..)]). *)
Inductive ContractCall : Type :=
| CallLock (booking_id : bytes) (recipient : string)
| CallRelease (booking_id : bytes)
| CallRefund (booking_id : bytes).

(** The dictionary given to [build_transaction]; ["value"] is only present
    for the payable [lock]. *)
Record TxParams : Type := {
  tx_chainId : Z;
  tx_nonce : Z;
  tx_from : string;
  tx_value : option Z;
  tx_gas : Z;
  tx_maxFeePerGas : Z;
  tx_maxPriorityFeePerGas : Z
}.

Record Tx : Type := {
  tx_to : string;
  tx_call : ContractCall;
  tx_params : TxParams
}.

(** A decoded log entry: ["logIndex"] is [None] when the key is absent or
    does not hold an integer, in which case [int(ev["logIndex"])] raises. *)
Record EventData : Type := { logIndex : option Z }.

(** A transaction receipt.  [status] is the value of its [status]
    attribute, [None] when that value is Python's [None]; a receipt that
    lacks the attribute is not represented. *)
Record Receipt : Type := {
  status : option Z;
  transactionHash : bytes;
  logs : list bytes
}.

(** The web3 / eth_account surface the module calls, as seen from one
    process at one moment.  Every call that can raise returns a [result];
    the hash and hex helpers are total.  Endpoints are named by RPC URL. *)
Record Web3 : Type := {
  importable : bool;
  is_connected : string -> bool;
  account_from_key : string -> result string;
  to_checksum_address : string -> result string;
  keccak_text : string -> bytes;
  to_hex : bytes -> string;
  to_bytes_hexstr : string -> result bytes;
  get_transaction_count : string -> string -> result Z;
  max_priority_fee : string -> result Z;
  gas_price : string -> result Z;
  build_transaction : string -> ContractCall -> TxParams -> result Tx;
  sign_transaction : string -> Tx -> result bytes;
  send_raw_transaction : string -> bytes -> result bytes;
  wait_for_transaction_receipt : string -> bytes -> Z -> result Receipt;
  process_receipt : string -> Receipt -> result (list EventData);
  (** [contract.functions.escrows(id).call()]: the returned tuple
      (payer, recipient, asset, amount, state, createdAt), addresses given
      by their numeric value. *)
  escrows_call : string -> string -> bytes -> result (list Z)
}.

Record EscrowLockResult : Type := {
  lock_tx_hash : string;
  lock_onchain_booking_id : string;
  lock_event_index : Z
}.

Record EscrowSettlementResult : Type := {
  tx_hash : string;
  onchain_booking_id : string;
  event_index : Z
}.

Record OnchainEscrowRecord : Type := {
  booking_id : string;
  state : string;
  amount_wei : Z
}.

(** [int(receipt.status or 0)] *)
Definition receipt_status (r : Receipt) : Z :=
  match r.(status) with
  | Some s => or_int s 0
  | None => 0
  end.

(** [int(events[0]["logIndex"])] *)
Definition int_logIndex (ev : EventData) : result Z :=
  match ev.(logIndex) with
  | Some i => Ok i
  | None => Raise (OtherException "KeyError" "logIndex")
  end.

(** The body of the [try] of the shared decoding block:
<<
    event_index = 0
    try:
        events = contract.events.<Event>().process_receipt(receipt)
        if events:
            event_index = int(events[0]["logIndex"])
    except Exception:
        event_index = 0
>> *)
Definition decode_body (w3 : Web3) (event : string) (receipt : Receipt)
  : result Z :=
  events <- w3.(process_receipt) event receipt ;;
  match events with
  | ev :: _ => int_logIndex ev
  | [] => Ok 0
  end.

Definition decode_event_index (w3 : Web3) (event : string) (receipt : Receipt)
  : result Z :=
  try_except (decode_body w3 event receipt) any_Exception (fun _ => Ok 0).

Definition lock_reservation_escrow_onchain (settings : Settings) (w3 : Web3)
    (chain : ChainConfig) (reservation_id : string) : result EscrowLockResult :=
  check w3.(importable) else_raise
    RuntimeError "Missing web3 dependencies. Install/refresh hillside-api dependencies to enable on-chain escrow lock." ;;
  check truthy chain.(rpc_url) else_raise
    RuntimeError "Active chain RPC URL is not configured." ;;
  check truthy chain.(escrow_contract_address) else_raise
    RuntimeError "Active chain contract address is not configured." ;;
  check truthy chain.(signer_private_key) else_raise
    RuntimeError "Active chain signer private key is not configured." ;;
  check w3.(is_connected) chain.(rpc_url) else_raise
    RuntimeError ("Unable to connect to " ++ chain.(key) ++ " RPC.") ;;
  account <- w3.(account_from_key) chain.(signer_private_key) ;;
  recipient <- w3.(to_checksum_address) account ;;
  contract_address <- w3.(to_checksum_address) chain.(escrow_contract_address) ;;
  let booking_id := w3.(keccak_text) reservation_id in
  nonce <- w3.(get_transaction_count) chain.(rpc_url) account ;;
  max_priority_fee <- w3.(max_priority_fee) chain.(rpc_url) ;;
  base_fee <- w3.(gas_price) chain.(rpc_url) ;;
  tx <- w3.(build_transaction) contract_address (CallLock booking_id recipient)
          {| tx_chainId := chain.(chain_id);
             tx_nonce := nonce;
             tx_from := account;
             tx_value := Some settings.(escrow_lock_amount_wei);
             tx_gas := 280000;
             tx_maxFeePerGas := base_fee + max_priority_fee;
             tx_maxPriorityFeePerGas := max_priority_fee |} ;;
  signed <- w3.(sign_transaction) chain.(signer_private_key) tx ;;
  tx_hash_bytes <- w3.(send_raw_transaction) chain.(rpc_url) signed ;;
  receipt <- w3.(wait_for_transaction_receipt) chain.(rpc_url) tx_hash_bytes
               settings.(escrow_tx_receipt_timeout_sec) ;;
  check (receipt_status receipt =? 1) else_raise
    RuntimeError "On-chain escrow lock transaction reverted." ;;
  event_index <- decode_event_index w3 "EscrowLocked" receipt ;;
  Ok {| lock_tx_hash := w3.(to_hex) tx_hash_bytes;
        lock_onchain_booking_id := w3.(to_hex) booking_id;
        lock_event_index := event_index |}.

Definition _resolve_booking_id_bytes (w3 : Web3) (reservation_id : string)
    (onchain_booking_id : option string) : result (bytes * string) :=
  let hashed :=
    let booking_id_bytes32 := w3.(keccak_text) reservation_id in
    Ok (booking_id_bytes32, w3.(to_hex) booking_id_bytes32) in
  match onchain_booking_id with
  | Some supplied =>
      if truthy supplied && startswith supplied "0x" then
        booking_id_bytes32 <- w3.(to_bytes_hexstr) supplied ;;
        Ok (booking_id_bytes32, lower supplied)
      else hashed
  | None => hashed
  end.

Definition release_reservation_escrow_onchain (settings : Settings) (w3 : Web3)
    (chain : ChainConfig) (reservation_id : string)
    (onchain_booking_id : option string) : result EscrowSettlementResult :=
  check w3.(importable) else_raise
    RuntimeError "Missing web3 dependencies. Install/refresh hillside-api dependencies to release escrow on-chain." ;;
  check truthy chain.(rpc_url) else_raise
    RuntimeError "Active chain RPC URL is not configured." ;;
  check truthy chain.(escrow_contract_address) else_raise
    RuntimeError "Active chain contract address is not configured." ;;
  check truthy chain.(signer_private_key) else_raise
    RuntimeError "Active chain signer private key is not configured." ;;
  check w3.(is_connected) chain.(rpc_url) else_raise
    RuntimeError ("Unable to connect to " ++ chain.(key) ++ " RPC.") ;;
  account <- w3.(account_from_key) chain.(signer_private_key) ;;
  contract_address <- w3.(to_checksum_address) chain.(escrow_contract_address) ;;
  resolved <- _resolve_booking_id_bytes w3 reservation_id onchain_booking_id ;;
  let '(booking_id_bytes32, booking_id_hex) := resolved in
  nonce <- w3.(get_transaction_count) chain.(rpc_url) account ;;
  max_priority_fee <- w3.(max_priority_fee) chain.(rpc_url) ;;
  base_fee <- w3.(gas_price) chain.(rpc_url) ;;
  tx <- w3.(build_transaction) contract_address (CallRelease booking_id_bytes32)
          {| tx_chainId := chain.(chain_id);
             tx_nonce := nonce;
             tx_from := account;
             tx_value := None;
             tx_gas := 220000;
             tx_maxFeePerGas := base_fee + max_priority_fee;
             tx_maxPriorityFeePerGas := max_priority_fee |} ;;
  signed <- w3.(sign_transaction) chain.(signer_private_key) tx ;;
  tx_hash_bytes <- w3.(send_raw_transaction) chain.(rpc_url) signed ;;
  receipt <- w3.(wait_for_transaction_receipt) chain.(rpc_url) tx_hash_bytes
               settings.(escrow_tx_receipt_timeout_sec) ;;
  check (receipt_status receipt =? 1) else_raise
    RuntimeError "On-chain escrow release transaction reverted." ;;
  event_index <- decode_event_index w3 "EscrowReleased" receipt ;;
  Ok {| tx_hash := w3.(to_hex) tx_hash_bytes;
        onchain_booking_id := booking_id_hex;
        event_index := event_index |}.

Definition refund_reservation_escrow_onchain (settings : Settings) (w3 : Web3)
    (chain : ChainConfig) (reservation_id : string)
    (onchain_booking_id : option string) : result EscrowSettlementResult :=
  check w3.(importable) else_raise
    RuntimeError "Missing web3 dependencies. Install/refresh hillside-api dependencies to refund escrow on-chain." ;;
  check truthy chain.(rpc_url) else_raise
    RuntimeError "Active chain RPC URL is not configured." ;;
  check truthy chain.(escrow_contract_address) else_raise
    RuntimeError "Active chain contract address is not configured." ;;
  check truthy chain.(signer_private_key) else_raise
    RuntimeError "Active chain signer private key is not configured." ;;
  check w3.(is_connected) chain.(rpc_url) else_raise
    RuntimeError ("Unable to connect to " ++ chain.(key) ++ " RPC.") ;;
  account <- w3.(account_from_key) chain.(signer_private_key) ;;
  contract_address <- w3.(to_checksum_address) chain.(escrow_contract_address) ;;
  resolved <- _resolve_booking_id_bytes w3 reservation_id onchain_booking_id ;;
  let '(booking_id_bytes32, booking_id_hex) := resolved in
  nonce <- w3.(get_transaction_count) chain.(rpc_url) account ;;
  max_priority_fee <- w3.(max_priority_fee) chain.(rpc_url) ;;
  base_fee <- w3.(gas_price) chain.(rpc_url) ;;
  tx <- w3.(build_transaction) contract_address (CallRefund booking_id_bytes32)
          {| tx_chainId := chain.(chain_id);
             tx_nonce := nonce;
             tx_from := account;
             tx_value := None;
             tx_gas := 220000;
             tx_maxFeePerGas := base_fee + max_priority_fee;
             tx_maxPriorityFeePerGas := max_priority_fee |} ;;
  signed <- w3.(sign_transaction) chain.(signer_private_key) tx ;;
  tx_hash_bytes <- w3.(send_raw_transaction) chain.(rpc_url) signed ;;
  receipt <- w3.(wait_for_transaction_receipt) chain.(rpc_url) tx_hash_bytes
               settings.(escrow_tx_receipt_timeout_sec) ;;
  check (receipt_status receipt =? 1) else_raise
    RuntimeError "On-chain escrow refund transaction reverted." ;;
  event_index <- decode_event_index w3 "EscrowRefunded" receipt ;;
  Ok {| tx_hash := w3.(to_hex) tx_hash_bytes;
        onchain_booking_id := booking_id_hex;
        event_index := event_index |}.

(** [state_map.get(state_index, "none")] *)
Definition state_map_get (state_index : Z) : string :=
  if state_index =? 0 then "none"
  else if state_index =? 1 then "locked"
  else if state_index =? 2 then "released"
  else if state_index =? 3 then "refunded"
  else "none".

(** [row[i] if len(row) > i else 0] *)
Definition tuple_item_or_0 (row : list Z) (i : nat) : Z :=
  if (i <? List.length row)%nat then nth i row 0 else 0.

Definition read_escrow_record_onchain (w3 : Web3) (chain : ChainConfig)
    (reservation_id : string) (onchain_booking_id : option string)
  : result OnchainEscrowRecord :=
  check w3.(importable) else_raise
    RuntimeError "Missing web3 dependencies. Install/refresh hillside-api dependencies to read on-chain escrow." ;;
  check truthy chain.(rpc_url) else_raise
    RuntimeError "Active chain RPC URL is not configured." ;;
  check truthy chain.(escrow_contract_address) else_raise
    RuntimeError "Active chain contract address is not configured." ;;
  check w3.(is_connected) chain.(rpc_url) else_raise
    RuntimeError ("Unable to connect to " ++ chain.(key) ++ " RPC.") ;;
  contract_address <- w3.(to_checksum_address) chain.(escrow_contract_address) ;;
  resolved <- _resolve_booking_id_bytes w3 reservation_id onchain_booking_id ;;
  let '(booking_id_bytes32, booking_id_hex) := resolved in
  row <- w3.(escrows_call) chain.(rpc_url) contract_address booking_id_bytes32 ;;
  let state_index := tuple_item_or_0 row 4 in
  Ok {| booking_id := booking_id_hex;
        state := state_map_get state_index;
        amount_wei := tuple_item_or_0 row 3 |}.

End EscrowChain.

Import EscrowChain.

(* ===================================================================== *)
(** ** app/integrations/supabase_client.py: escrow accessors *)
(* ===================================================================== *)

Module Supabase.

(** The escrow columns of one row of the [reservations] table.  Nullable
    columns are [option]s; [created_at] is the instant as a number. *)
Record ReservationRow : Type := {
  reservation_id : string;
  reservation_code : option string;
  escrow_state : option string;
  chain_key : option string;
  chain_id : option Z;
  escrow_contract_address : option string;
  chain_tx_hash : option string;
  onchain_booking_id : option string;
  escrow_event_index : option Z;
  created_at : Z
}.

(** The booking record store as one request sees it: the table, and the
    exception every request raises while the service is failing.  The
    timing wrapper [_timed_execute] only adds a wall-clock sample to the
    metrics store, which nothing below reads; it is not represented. *)
Record Store : Type := {
  reservations : list ReservationRow;
  outage : option exn
}.

Definition _can_connect (settings : Settings) : bool :=
  truthy settings.(supabase_url) && truthy settings.(supabase_service_role_key).

(** [_runtime_error_from_exception] for an exception without [message],
    [details] and [hint] attributes. *)
Definition _runtime_error_from_exception (exc : exn) : exn :=
  let message := or_str (str_of_exn exc) "Supabase request failed." in
  RuntimeError (strip message).

(** [get_supabase_client()] followed by one request: [k] is what the
    request answers from the table. *)
Definition request {A} (settings : Settings) (db : Store)
    (k : list ReservationRow -> A) : result A :=
  check _can_connect settings else_raise
    RuntimeError "Supabase integration not configured." ;;
  match db.(outage) with
  | Some e => Raise e
  | None => Ok (k db.(reservations))
  end.

(** The module-wide wrapper [except Exception as exc: raise
    _runtime_error_from_exception(exc)]. *)
Definition as_runtime_error {A} (body : result A) : result A :=
  try_except body any_Exception
    (fun exc => Raise (_runtime_error_from_exception exc)).

(** SQL [col = v]: never true of NULL. *)
Definition eq_ (col : option string) (v : string) : bool :=
  match col with
  | Some s => (s =? v)%string
  | None => false
  end.

(** SQL [col IN (vs)] *)
Definition in_ (col : option string) (vs : list string) : bool :=
  match col with
  | Some s => str_in s vs
  | None => false
  end.

(** SQL [col LIKE 'p%'] *)
Definition like_prefix (col : option string) (p : string) : bool :=
  match col with
  | Some s => String.prefix p s
  | None => false
  end.

(** [ORDER BY created_at DESC], ties in table order. *)
Fixpoint insert_desc (r : ReservationRow) (sorted : list ReservationRow)
  : list ReservationRow :=
  match sorted with
  | [] => [r]
  | x :: rest =>
      if x.(created_at) <? r.(created_at) then r :: sorted
      else x :: insert_desc r rest
  end.

Definition order_created_at_desc (rows : list ReservationRow)
  : list ReservationRow :=
  fold_right insert_desc [] rows.

(** [.range(first, last)]: rows [first..last] of the ordered result. *)
Definition range {A} (first last : Z) (rows : list A) : list A :=
  firstn (Z.to_nat (last - first + 1)) (skipn (Z.to_nat first) rows).

Definition escrow_candidate (chain_key0 : string) (r : ReservationRow) : bool :=
  eq_ r.(chain_key) chain_key0
  && in_ r.(escrow_state) ["pending_lock"; "locked"; "released"; "refunded"; "failed"].

(** Returns [(response.data or [], int(response.count or 0))]; the count
    is the exact number of rows the filters select, whatever the page. *)
Definition list_reservations_for_escrow_reconciliation (settings : Settings)
    (db : Store) (chain_key0 : string) (limit offset : Z)
  : result (list ReservationRow * Z) :=
  as_runtime_error
    (response <- request settings db (fun table =>
        let query := order_created_at_desc (filter (escrow_candidate chain_key0) table) in
        (range offset (offset + limit - 1) query, Z.of_nat (List.length query))) ;;
     Ok response).

Definition shadow_candidate (chain_key0 : string) (r : ReservationRow) : bool :=
  eq_ r.(chain_key) chain_key0
  && eq_ r.(escrow_state) "pending_lock"
  && like_prefix r.(chain_tx_hash) "shadow-".

Definition list_reservations_for_shadow_cleanup (settings : Settings)
    (db : Store) (chain_key0 : string) (limit : Z)
  : result (list ReservationRow) :=
  as_runtime_error
    (request settings db (fun table =>
        firstn (Z.to_nat limit)
          (order_created_at_desc (filter (shadow_candidate chain_key0) table)))).

(** The guard of the clearing [UPDATE]. *)
Definition clear_guard (reservation_id0 chain_key0 expected_tx_hash : string)
    (r : ReservationRow) : bool :=
  (r.(reservation_id) =? reservation_id0)%string
  && eq_ r.(chain_key) chain_key0
  && eq_ r.(escrow_state) "pending_lock"
  && eq_ r.(chain_tx_hash) expected_tx_hash.

(** The assignment list of the clearing [UPDATE]. *)
Definition cleared (r : ReservationRow) : ReservationRow :=
  {| reservation_id := r.(reservation_id);
     reservation_code := r.(reservation_code);
     escrow_state := Some "none";
     chain_key := None;
     chain_id := None;
     escrow_contract_address := None;
     chain_tx_hash := None;
     onchain_booking_id := None;
     escrow_event_index := None;
     created_at := r.(created_at) |}.

Definition update_where (guard : ReservationRow -> bool)
    (set : ReservationRow -> ReservationRow) (table : list ReservationRow)
  : list ReservationRow :=
  map (fun r => if guard r then set r else r) table.

Definition is_none {A} (x : option A) : bool :=
  match x with None => true | Some _ => false end.

(** The boolean computed from the row read back. *)
Definition shadow_cleared (row : ReservationRow) : bool :=
  (lower (opt_or row.(escrow_state) "") =? "none")%string
  && is_none row.(chain_key)
  && is_none row.(chain_tx_hash)
  && is_none row.(onchain_booking_id).

(** Returns the boolean (or the exception) together with the store the
    call leaves behind. *)
Definition clear_reservation_shadow_escrow_metadata (settings : Settings)
    (db : Store) (reservation_id0 chain_key0 expected_tx_hash : string)
  : result bool * Store :=
  let guard := clear_guard reservation_id0 chain_key0 expected_tx_hash in
  match request settings db (update_where guard cleared) with
  | Raise exc => (Raise (_runtime_error_from_exception exc), db)
  | Ok table' =>
      let db' := {| reservations := table'; outage := db.(outage) |} in
      (as_runtime_error
         (verify <- request settings db' (fun table =>
             firstn 1 (filter (fun r => (r.(reservation_id) =? reservation_id0)%string) table)) ;;
          match verify with
          | row :: _ => Ok (shadow_cleared row)
          | [] => Ok false
          end),
       db')
  end.

End Supabase.

(* ===================================================================== *)
(** ** app/schemas/common.py: the reconciliation models *)
(* ===================================================================== *)

Module Schemas.

(** [EscrowReconciliationSummary]; the field [match] is spelled [match_]. *)
Record EscrowReconciliationSummary : Type := {
  total : Z;
  match_ : Z;
  mismatch : Z;
  missing_onchain : Z;
  skipped : Z;
  alert : bool
}.

(** [EscrowReconciliationSummary(total=total)] *)
Definition new_summary (total0 : Z) : EscrowReconciliationSummary :=
  {| total := total0; match_ := 0; mismatch := 0; missing_onchain := 0;
     skipped := 0; alert := false |}.

Definition incr_match (s : EscrowReconciliationSummary) :=
  {| total := s.(total); match_ := s.(match_) + 1; mismatch := s.(mismatch);
     missing_onchain := s.(missing_onchain); skipped := s.(skipped);
     alert := s.(alert) |}.

Definition incr_mismatch (s : EscrowReconciliationSummary) :=
  {| total := s.(total); match_ := s.(match_); mismatch := s.(mismatch) + 1;
     missing_onchain := s.(missing_onchain); skipped := s.(skipped);
     alert := s.(alert) |}.

Definition incr_missing_onchain (s : EscrowReconciliationSummary) :=
  {| total := s.(total); match_ := s.(match_); mismatch := s.(mismatch);
     missing_onchain := s.(missing_onchain) + 1; skipped := s.(skipped);
     alert := s.(alert) |}.

Definition incr_skipped (s : EscrowReconciliationSummary) :=
  {| total := s.(total); match_ := s.(match_); mismatch := s.(mismatch);
     missing_onchain := s.(missing_onchain); skipped := s.(skipped) + 1;
     alert := s.(alert) |}.

Definition set_alert (a : bool) (s : EscrowReconciliationSummary) :=
  {| total := s.(total); match_ := s.(match_); mismatch := s.(mismatch);
     missing_onchain := s.(missing_onchain); skipped := s.(skipped);
     alert := a |}.

(** The number of rows a summary has classified:
    [match + mismatch + missing_onchain + skipped]. *)
Definition classified (s : EscrowReconciliationSummary) : Z :=
  s.(match_) + s.(mismatch) + s.(missing_onchain) + s.(skipped).

Record EscrowReconciliationItem : Type := {
  item_reservation_id : string;
  item_reservation_code : string;
  item_db_escrow_state : string;
  item_chain_key : option string;
  item_chain_id : option Z;
  item_chain_tx_hash : option string;
  item_onchain_booking_id : option string;
  item_onchain_state : option string;
  item_onchain_amount_wei : option string;
  item_result : string;
  item_reason : option string
}.

Record EscrowReconciliationResponse : Type := {
  items : list EscrowReconciliationItem;
  count : Z;
  resp_limit : Z;
  resp_offset : Z;
  has_more : bool;
  summary : EscrowReconciliationSummary
}.

End Schemas.

Import Schemas.

(* ===================================================================== *)
(** ** app/observability/escrow_reconciliation_monitor.py *)
(* ===================================================================== *)

Module Monitor.

Record AlertThresholds : Type := {
  th_mismatch : Z;
  th_missing_onchain : Z;
  th_skipped : Z
}.

(** The dictionary [_MonitorState._state].  Durations are carried already
    rounded, in hundredths of a millisecond. *)
Record MonitorState : Type := {
  enabled : bool;
  running : bool;
  interval_sec : Z;
  limit : Z;
  chain_key : option string;
  last_started_at : option string;
  last_finished_at : option string;
  last_success_at : option string;
  last_duration_ms : option Z;
  runs_total : Z;
  consecutive_failures : Z;
  last_error : option string;
  last_summary : option EscrowReconciliationSummary;
  alert_thresholds : AlertThresholds;
  alert_active : bool
}.

(** [_MonitorState.__init__] *)
Definition init (settings : Settings) : MonitorState :=
  {| enabled := settings.(feature_escrow_reconciliation_scheduler);
     running := false;
     interval_sec := settings.(escrow_reconciliation_interval_sec);
     limit := settings.(escrow_reconciliation_limit);
     chain_key := None;
     last_started_at := None;
     last_finished_at := None;
     last_success_at := None;
     last_duration_ms := None;
     runs_total := 0;
     consecutive_failures := 0;
     last_error := None;
     last_summary := None;
     alert_thresholds :=
       {| th_mismatch := settings.(escrow_reconciliation_alert_mismatch_threshold);
          th_missing_onchain := settings.(escrow_reconciliation_alert_missing_onchain_threshold);
          th_skipped := settings.(escrow_reconciliation_alert_skipped_threshold) |};
     alert_active := false |}.

Definition begin_run (now : string) (chain_key0 : string) (st : MonitorState)
  : MonitorState :=
  {| enabled := st.(enabled);
     running := true;
     interval_sec := st.(interval_sec);
     limit := st.(limit);
     chain_key := Some chain_key0;
     last_started_at := Some now;
     last_finished_at := st.(last_finished_at);
     last_success_at := st.(last_success_at);
     last_duration_ms := st.(last_duration_ms);
     runs_total := st.(runs_total);
     consecutive_failures := st.(consecutive_failures);
     last_error := None;
     last_summary := st.(last_summary);
     alert_thresholds := st.(alert_thresholds);
     alert_active := st.(alert_active) |}.

Definition complete_success (now : string) (duration_ms : Z)
    (summary0 : EscrowReconciliationSummary) (st : MonitorState) : MonitorState :=
  let thresholds := st.(alert_thresholds) in
  let alert_active0 :=
    (thresholds.(th_mismatch) <=? summary0.(mismatch))
    || (thresholds.(th_missing_onchain) <=? summary0.(missing_onchain))
    || (thresholds.(th_skipped) <=? summary0.(skipped)) in
  {| enabled := st.(enabled);
     running := false;
     interval_sec := st.(interval_sec);
     limit := st.(limit);
     chain_key := st.(chain_key);
     last_started_at := st.(last_started_at);
     last_finished_at := Some now;
     last_success_at := Some now;
     last_duration_ms := Some duration_ms;
     runs_total := st.(runs_total) + 1;
     consecutive_failures := 0;
     last_error := None;
     last_summary := Some summary0;
     alert_thresholds := st.(alert_thresholds);
     alert_active := alert_active0 |}.

Definition complete_failure (now : string) (duration_ms : Z) (error : string)
    (st : MonitorState) : MonitorState :=
  {| enabled := st.(enabled);
     running := false;
     interval_sec := st.(interval_sec);
     limit := st.(limit);
     chain_key := st.(chain_key);
     last_started_at := st.(last_started_at);
     last_finished_at := Some now;
     last_success_at := st.(last_success_at);
     last_duration_ms := Some duration_ms;
     runs_total := st.(runs_total) + 1;
     consecutive_failures := st.(consecutive_failures) + 1;
     last_error := Some error;
     last_summary := st.(last_summary);
     alert_thresholds := st.(alert_thresholds);
     alert_active := true |}.

(** [dict(self._state)] *)
Definition snapshot (st : MonitorState) : MonitorState := st.

Definition _resolve_chain_key (settings : Settings) : result string :=
  let configured := lower (strip (or_str settings.(escrow_reconciliation_chain_key) "")) in
  if truthy configured then Ok configured
  else (active <- get_active_chain settings ;; Ok active.(key)).

(** The [try] block of the loop body: [Some state] when the reader
    answered, [None] after [except RuntimeError] (the row is skipped). *)
Definition read_state (w3 : Web3) (chain : ChainConfig)
    (row : Supabase.ReservationRow) : result (option string) :=
  let reservation_id := or_str row.(Supabase.reservation_id) "" in
  try_except
    (onchain <- read_escrow_record_onchain w3 chain reservation_id
                  row.(Supabase.onchain_booking_id) ;;
     Ok (Some onchain.(state)))
    is_RuntimeError
    (fun _ => Ok None).

(** One iteration of [for row in rows] on the summary being built. *)
Definition reconcile_row (w3 : Web3) (chain : ChainConfig)
    (row : Supabase.ReservationRow) (summary0 : EscrowReconciliationSummary)
  : result EscrowReconciliationSummary :=
  outcome <- read_state w3 chain row ;;
  match outcome with
  | None => Ok (incr_skipped summary0)
  | Some onchain_state =>
      let db_state := opt_or row.(Supabase.escrow_state) "none" in
      if (onchain_state =? "none")%string then Ok (incr_missing_onchain summary0)
      else if (db_state =? onchain_state)%string then Ok (incr_match summary0)
      else Ok (incr_mismatch summary0)
  end.

Fixpoint for_rows (w3 : Web3) (chain : ChainConfig)
    (rows : list Supabase.ReservationRow) (summary0 : EscrowReconciliationSummary)
  : result EscrowReconciliationSummary :=
  match rows with
  | [] => Ok summary0
  | row :: rest =>
      summary1 <- reconcile_row w3 chain row summary0 ;;
      for_rows w3 chain rest summary1
  end.

Definition _build_summary (settings : Settings) (db : Supabase.Store) (w3 : Web3)
    (chain_key0 : string) (limit0 : Z) : result EscrowReconciliationSummary :=
  let registry := get_chain_registry settings in
  match dict_get chain_key0 registry with
  | None =>
      Raise (RuntimeError ("Unsupported chain_key '" ++ chain_key0
                             ++ "' for reconciliation scheduler."))
  | Some chain =>
      check chain.(Chains.enabled) else_raise
        RuntimeError ("Chain '" ++ chain_key0 ++ "' is disabled.") ;;
      page <- Supabase.list_reservations_for_escrow_reconciliation
                settings db chain_key0 limit0 0 ;;
      let '(rows, total0) := page in
      summary1 <- for_rows w3 chain rows (new_summary total0) ;;
      Ok (set_alert (0 <? summary1.(mismatch) + summary1.(missing_onchain)) summary1)
  end.

(** What the wall clock and [perf_counter] show during one run. *)
Record Clock : Type := {
  started_at : string;
  finished_at : string;
  elapsed_ms : Z
}.

Inductive LogLevel : Type := INFO | WARNING | ERROR.

(** The module globals a run touches: [_monitor_state] and the records
    handed to [logger]. *)
Record Process : Type := {
  _monitor_state : MonitorState;
  log : list (LogLevel * string)
}.

Definition run_escrow_reconciliation_once_now (settings : Settings)
    (db : Supabase.Store) (w3 : Web3) (clock : Clock) (p : Process)
  : result (MonitorState * Process) :=
  chain_key0 <- _resolve_chain_key settings ;;
  let limit0 := settings.(escrow_reconciliation_limit) in
  let st1 := begin_run clock.(started_at) chain_key0 p.(_monitor_state) in
  try_except
    (summary0 <- _build_summary settings db w3 chain_key0 limit0 ;;
     let st2 := complete_success clock.(finished_at) clock.(elapsed_ms) summary0 st1 in
     let snapshot0 := snapshot st2 in
     let record :=
       if snapshot0.(alert_active)
       then (WARNING, "Escrow reconciliation alert active: chain=%s summary=%s")
       else (INFO, "Escrow reconciliation run ok: chain=%s summary=%s") in
     Ok (snapshot0, {| _monitor_state := st2; log := (p.(log) ++ [record])%list |}))
    any_Exception
    (fun exc =>
       let st2 := complete_failure clock.(finished_at) clock.(elapsed_ms)
                    (str_of_exn exc) st1 in
       Ok (snapshot st2,
           {| _monitor_state := st2;
              log := (p.(log) ++ [(ERROR, "Escrow reconciliation run failed: chain=%s")])%list |})).

Definition get_escrow_reconciliation_monitor_snapshot (p : Process) : MonitorState :=
  snapshot p.(_monitor_state).

End Monitor.

(* ===================================================================== *)
(** ** app/api/v2/routes/escrow.py: GET /reconciliation *)
(* ===================================================================== *)

Module EscrowRoutes.

(** The loop state: the items appended so far and the running summary. *)
Definition Acc : Type := (list EscrowReconciliationItem * EscrowReconciliationSummary)%type.

(** [str(x) if x else None] on the stored booking id. *)
Definition str_if_truthy (x : option string) : option string :=
  match x with
  | Some s => if truthy s then Some s else None
  | None => None
  end.

(** The [try] block of the loop body: the record read, or the message of
    the [RuntimeError] caught. *)
Definition read_onchain (w3 : Web3) (chain : ChainConfig)
    (row : Supabase.ReservationRow) : result (OnchainEscrowRecord + string) :=
  let reservation_id := or_str row.(Supabase.reservation_id) "" in
  try_except
    (onchain <- read_escrow_record_onchain w3 chain reservation_id
                  row.(Supabase.onchain_booking_id) ;;
     Ok (inl onchain))
    is_RuntimeError
    (fun exc => Ok (inr (str_of_exn exc))).

Definition reconcile_row (w3 : Web3) (chain : ChainConfig)
    (row : Supabase.ReservationRow) (acc : Acc) : result Acc :=
  let '(items0, summary0) := acc in
  let reservation_id := or_str row.(Supabase.reservation_id) "" in
  let reservation_code := opt_or row.(Supabase.reservation_code) "" in
  let db_state := opt_or row.(Supabase.escrow_state) "none" in
  let db_onchain_booking_id := row.(Supabase.onchain_booking_id) in
  let db_chain_tx_hash := row.(Supabase.chain_tx_hash) in
  outcome <- read_onchain w3 chain row ;;
  match outcome with
  | inr message =>
      Ok ((items0 ++
            [ {| item_reservation_id := reservation_id;
                 item_reservation_code := reservation_code;
                 item_db_escrow_state := db_state;
                 item_chain_key := row.(Supabase.chain_key);
                 item_chain_id := row.(Supabase.chain_id);
                 item_chain_tx_hash := db_chain_tx_hash;
                 item_onchain_booking_id := str_if_truthy db_onchain_booking_id;
                 item_onchain_state := None;
                 item_onchain_amount_wei := None;
                 item_result := "skipped";
                 item_reason := Some message |} ])%list,
          incr_skipped summary0)
  | inl onchain =>
      let onchain_state := onchain.(state) in
      let onchain_amount_wei := str_of_int onchain.(amount_wei) in
      let '(result0, reason, summary1) :=
        if (onchain_state =? "none")%string then
          ("missing_onchain", Some "No escrow record found on-chain for booking id.",
           incr_missing_onchain summary0)
        else if (db_state =? onchain_state)%string then
          ("match", None, incr_match summary0)
        else
          ("mismatch",
           Some ("DB escrow_state='" ++ db_state ++ "' differs from on-chain state='"
                   ++ onchain_state ++ "'."),
           incr_mismatch summary0) in
      Ok ((items0 ++
            [ {| item_reservation_id := reservation_id;
                 item_reservation_code := reservation_code;
                 item_db_escrow_state := db_state;
                 item_chain_key := row.(Supabase.chain_key);
                 item_chain_id := row.(Supabase.chain_id);
                 item_chain_tx_hash := db_chain_tx_hash;
                 item_onchain_booking_id :=
                   match str_if_truthy db_onchain_booking_id with
                   | Some s => Some s
                   | None => Some onchain.(booking_id)
                   end;
                 item_onchain_state := Some onchain_state;
                 item_onchain_amount_wei := Some onchain_amount_wei;
                 item_result := result0;
                 item_reason := reason |} ])%list,
          summary1)
  end.

Fixpoint for_rows (w3 : Web3) (chain : ChainConfig)
    (rows : list Supabase.ReservationRow) (acc : Acc) : result Acc :=
  match rows with
  | [] => Ok acc
  | row :: rest =>
      acc1 <- reconcile_row w3 chain row acc ;;
      for_rows w3 chain rest acc1
  end.

(** The declared bounds [limit: ge=1, le=200] and [offset: ge=0]; the
    framework rejects the request before the handler runs. *)
Definition valid_query (limit0 offset0 : Z) : bool :=
  (1 <=? limit0) && (limit0 <=? 200) && (0 <=? offset0).

Definition get_escrow_reconciliation (settings : Settings) (db : Supabase.Store)
    (w3 : Web3) (chain_key0 : option string) (limit0 offset0 : Z)
  : result EscrowReconciliationResponse :=
  check valid_query limit0 offset0 else_raise
    HTTPException 422 "Unprocessable Entity" ;;
  let registry := get_chain_registry settings in
  active_chain <- get_active_chain settings ;;
  let resolved_key := lower (opt_or chain_key0 active_chain.(key)) in
  match dict_get resolved_key registry with
  | None =>
      Raise (HTTPException 400 ("Unsupported chain_key '" ++ resolved_key ++ "'."))
  | Some chain =>
      check chain.(Chains.enabled) else_raise
        HTTPException 400 ("Chain '" ++ resolved_key ++ "' is disabled.") ;;
      page <- try_except
                (Supabase.list_reservations_for_escrow_reconciliation
                   settings db resolved_key limit0 offset0)
                is_RuntimeError
                (fun exc => Raise (HTTPException 503 (str_of_exn exc))) ;;
      let '(rows, total0) := page in
      acc <- for_rows w3 chain rows ([], new_summary total0) ;;
      let '(items0, summary0) := acc in
      Ok {| items := items0;
            count := total0;
            resp_limit := limit0;
            resp_offset := offset0;
            has_more := offset0 + Z.of_nat (List.length items0) <? total0;
            summary :=
              {| total := summary0.(total);
                 match_ := summary0.(match_);
                 mismatch := summary0.(mismatch);
                 missing_onchain := summary0.(missing_onchain);
                 skipped := summary0.(skipped);
                 alert := 0 <? summary0.(mismatch) + summary0.(missing_onchain) |} |}
  end.

End EscrowRoutes.

(* ===================================================================== *)
(** ** Notions the statements below are phrased with *)
(* ===================================================================== *)

(** The Record Reader call that both loops make for a row. *)
Definition reader_call (w3 : Web3) (chain : ChainConfig)
    (row : Supabase.ReservationRow) : result OnchainEscrowRecord :=
  read_escrow_record_onchain w3 chain
    (or_str row.(Supabase.reservation_id) "") row.(Supabase.onchain_booking_id).

(** The reader failed on the row, and with a [RuntimeError]. *)
Definition reader_runtime_error (w3 : Web3) (chain : ChainConfig)
    (row : Supabase.ReservationRow) : bool :=
  match reader_call w3 chain row with
  | Raise e => is_RuntimeError e
  | Ok _ => false
  end.

(** The checks and the account and address resolution that open a
    settlement operation all passed. *)
Definition signer_ready (w3 : Web3) (chain : ChainConfig)
    (account contract_address : string) : Prop :=
  w3.(importable) = true
  /\ truthy chain.(rpc_url) = true
  /\ truthy chain.(Chains.escrow_contract_address) = true
  /\ truthy chain.(signer_private_key) = true
  /\ w3.(is_connected) chain.(rpc_url) = true
  /\ w3.(account_from_key) chain.(signer_private_key) = Ok account
  /\ w3.(to_checksum_address) chain.(Chains.escrow_contract_address)
     = Ok contract_address.

(** The transaction for [call] was built, signed and sent as
    [tx_hash_bytes], and the wait ended with [receipt]. *)
Definition submitted (settings : Settings) (w3 : Web3) (chain : ChainConfig)
    (account contract_address : string) (call : ContractCall)
    (value : option Z) (gas : Z) (tx_hash_bytes : bytes) (receipt : Receipt)
  : Prop :=
  exists nonce max_priority_fee0 base_fee tx signed,
    w3.(get_transaction_count) chain.(rpc_url) account = Ok nonce
    /\ w3.(max_priority_fee) chain.(rpc_url) = Ok max_priority_fee0
    /\ w3.(gas_price) chain.(rpc_url) = Ok base_fee
    /\ w3.(build_transaction) contract_address call
         {| tx_chainId := chain.(Chains.chain_id);
            tx_nonce := nonce;
            tx_from := account;
            tx_value := value;
            tx_gas := gas;
            tx_maxFeePerGas := base_fee + max_priority_fee0;
            tx_maxPriorityFeePerGas := max_priority_fee0 |} = Ok tx
    /\ w3.(sign_transaction) chain.(signer_private_key) tx = Ok signed
    /\ w3.(send_raw_transaction) chain.(rpc_url) signed = Ok tx_hash_bytes
    /\ w3.(wait_for_transaction_receipt) chain.(rpc_url) tx_hash_bytes
         settings.(escrow_tx_receipt_timeout_sec) = Ok receipt.

(** The identifier an operation reports for a reservation, by the rule of
    the specification: the supplied one, lower-cased, when it starts with
    ["0x"]; the hex of the hash of the reservation id otherwise. *)
Definition expected_booking_id_hex (w3 : Web3) (reservation_id : string)
    (supplied : option string) : string :=
  match supplied with
  | Some s =>
      if startswith s "0x" then lower s
      else w3.(to_hex) (w3.(keccak_text) reservation_id)
  | None => w3.(to_hex) (w3.(keccak_text) reservation_id)
  end.

(** The row is the one the clearing write is meant for: same reservation,
    same chain key, state [pending_lock], and exactly the expected
    transaction hash. *)
Definition guard_matches (reservation_id0 chain_key0 expected_tx_hash : string)
    (r : Supabase.ReservationRow) : Prop :=
  r.(Supabase.reservation_id) = reservation_id0
  /\ r.(Supabase.chain_key) = Some chain_key0
  /\ r.(Supabase.escrow_state) = Some "pending_lock"
  /\ r.(Supabase.chain_tx_hash) = Some expected_tx_hash.

(** What the read-back checks: state [none] (in any letter case) and no
    chain key, transaction hash or on-chain booking identifier left. *)
Definition read_back_cleared (r : Supabase.ReservationRow) : Prop :=
  lower (opt_or r.(Supabase.escrow_state) "") = "none"
  /\ r.(Supabase.chain_key) = None
  /\ r.(Supabase.chain_tx_hash) = None
  /\ r.(Supabase.onchain_booking_id) = None.

(** The row of the table that carries the reservation id. *)
Definition row_of (reservation_id0 : string) (db : Supabase.Store)
  : option Supabase.ReservationRow :=
  find (fun r => (r.(Supabase.reservation_id) =? reservation_id0)%string)
       db.(Supabase.reservations).

(** Two nodes give the reader the same view of a chain: the same
    availability of the library and of the endpoint, the same address and
    identifier conversions, and the same ledger entries. *)
Definition same_ledger_view (w3a w3b : Web3) (chain : ChainConfig) : Prop :=
  w3a.(importable) = w3b.(importable)
  /\ w3a.(is_connected) chain.(rpc_url) = w3b.(is_connected) chain.(rpc_url)
  /\ w3a.(to_checksum_address) chain.(Chains.escrow_contract_address)
     = w3b.(to_checksum_address) chain.(Chains.escrow_contract_address)
  /\ (forall text, w3a.(keccak_text) text = w3b.(keccak_text) text)
  /\ (forall hexstr, w3a.(to_bytes_hexstr) hexstr = w3b.(to_bytes_hexstr) hexstr)
  /\ (forall address id,
        w3a.(escrows_call) chain.(rpc_url) address id
        = w3b.(escrows_call) chain.(rpc_url) address id).

(** Every failure of the reader over the rows is a [RuntimeError]. *)
Definition only_runtime_errors (w3 : Web3) (chain : ChainConfig)
    (rows : list Supabase.ReservationRow) : Prop :=
  forall row e, In row rows -> reader_call w3 chain row = Raise e ->
    is_RuntimeError e = true.

(* ===================================================================== *)
(** ** Concrete configurations, nodes and tables used in the examples *)
(* ===================================================================== *)

Module Fixtures.

(** A deployment with the store configured and both networks given an
    endpoint and a contract; [active] and [allowed] are the two chain
    selection variables. *)
Definition configure (active allowed : string) (limit0 : Z) : Settings := {|
  supabase_url := "https://db.example";
  supabase_service_role_key := "service-role-key";
  chain_active_key := active;
  chain_allowed_keys := allowed;
  evm_rpc_url_sepolia := "https://rpc-sepolia.example";
  evm_rpc_url_amoy := "https://rpc-amoy.example";
  chain_id_sepolia := 11155111;
  chain_id_amoy := 80002;
  escrow_contract_address_sepolia := "0x1111111111111111111111111111111111111111";
  escrow_contract_address_amoy := "0x2222222222222222222222222222222222222222";
  guest_pass_contract_address_sepolia := "";
  guest_pass_contract_address_amoy := "";
  escrow_signer_private_key_sepolia := "0x123";
  escrow_signer_private_key_amoy := "";
  escrow_lock_amount_wei := 1;
  escrow_tx_receipt_timeout_sec := 90;
  feature_escrow_reconciliation_scheduler := true;
  escrow_reconciliation_interval_sec := 300;
  escrow_reconciliation_limit := limit0;
  escrow_reconciliation_chain_key := "";
  escrow_reconciliation_alert_mismatch_threshold := 1;
  escrow_reconciliation_alert_missing_onchain_threshold := 1;
  escrow_reconciliation_alert_skipped_threshold := 1;
  explorer_base_url_sepolia := "https://sepolia.etherscan.io/tx/";
  explorer_base_url_amoy := "https://amoy.polygonscan.com/tx/";
  polygon_rpc_url_amoy := "";
  Config.chain_id := 80002;
  Config.escrow_contract_address := "";
  escrow_signer_private_key := ""
|}.

Definition settings0 : Settings := configure "sepolia" "sepolia,amoy" 200.

(** The [sepolia] entry of the registry of [settings0]. *)
Definition sepolia0 : ChainConfig := {|
  key := "sepolia";
  chain_id := 11155111;
  rpc_url := "https://rpc-sepolia.example";
  escrow_contract_address := "0x1111111111111111111111111111111111111111";
  guest_pass_contract_address := "";
  signer_private_key := "0x123";
  explorer_base_url := "https://sepolia.etherscan.io/tx/";
  enabled := true
|}.

(** A node whose hash and hex helpers are stand-ins, whose transaction
    path always succeeds with the given receipt status, and whose reads
    and log decoding are the two parameters. *)
Definition node (escrows : bytes -> result (list Z))
    (decode : string -> Receipt -> result (list EventData))
    (receipt_status0 : option Z) : Web3 := {|
  importable := true;
  is_connected := fun _ => true;
  account_from_key := fun _ => Ok "0xSigner";
  to_checksum_address := fun a => Ok a;
  keccak_text := fun text => list_byte_of_string ("keccak:" ++ text);
  to_hex := fun b => "0x" ++ string_of_list_byte b;
  to_bytes_hexstr := fun hexstr => Ok (list_byte_of_string hexstr);
  get_transaction_count := fun _ _ => Ok 7;
  max_priority_fee := fun _ => Ok 2;
  gas_price := fun _ => Ok 30;
  build_transaction := fun to call params =>
    Ok {| tx_to := to; tx_call := call; tx_params := params |};
  sign_transaction := fun _ _ => Ok (list_byte_of_string "signed");
  send_raw_transaction := fun _ _ => Ok (list_byte_of_string "txhash");
  wait_for_transaction_receipt := fun _ h _ =>
    Ok {| status := receipt_status0; transactionHash := h; logs := [] |};
  process_receipt := decode;
  escrows_call := fun _ _ id => escrows id
|}.

(** The ledger holds a locked escrow for ["res-1"] and nothing else. *)
Definition ledger1 (id : bytes) : result (list Z) :=
  if (string_of_list_byte id =? "keccak:res-1")%string
  then Ok [10; 10; 0; 1; 1; 1700000000]
  else Ok [0; 0; 0; 0; 0; 0].

(** As [ledger1], but the read for ["res-2"] times out in the transport
    layer (an exception that is not a [RuntimeError]). *)
Definition ledger_timeout (id : bytes) : result (list Z) :=
  if (string_of_list_byte id =? "keccak:res-2")%string
  then Raise (OtherException "ReadTimeout" "HTTPSConnectionPool: Read timed out.")
  else ledger1 id.

(** The same node with its RPC endpoint unreachable. *)
Definition offline (w3 : Web3) : Web3 := {|
  importable := w3.(importable);
  is_connected := fun _ => false;
  account_from_key := w3.(account_from_key);
  to_checksum_address := w3.(to_checksum_address);
  keccak_text := w3.(keccak_text);
  to_hex := w3.(to_hex);
  to_bytes_hexstr := w3.(to_bytes_hexstr);
  get_transaction_count := w3.(get_transaction_count);
  max_priority_fee := w3.(max_priority_fee);
  gas_price := w3.(gas_price);
  build_transaction := w3.(build_transaction);
  sign_transaction := w3.(sign_transaction);
  send_raw_transaction := w3.(send_raw_transaction);
  wait_for_transaction_receipt := w3.(wait_for_transaction_receipt);
  process_receipt := w3.(process_receipt);
  escrows_call := w3.(escrows_call)
|}.

Definition no_events (_ : string) (_ : Receipt) : result (list EventData) := Ok [].

Definition decode_raises (_ : string) (_ : Receipt) : result (list EventData) :=
  Raise (OtherException "MismatchedABI" "The event signature did not match the provided ABI").

Definition booking (id : string) (state0 : string) (tx : option string)
    (bid : option string) (at_ : Z) : Supabase.ReservationRow := {|
  Supabase.reservation_id := id;
  Supabase.reservation_code := Some ("HR-" ++ id);
  Supabase.escrow_state := Some state0;
  Supabase.chain_key := Some "sepolia";
  Supabase.chain_id := Some 11155111;
  Supabase.escrow_contract_address := Some "0x1111111111111111111111111111111111111111";
  Supabase.chain_tx_hash := tx;
  Supabase.onchain_booking_id := bid;
  Supabase.escrow_event_index := Some 0;
  Supabase.created_at := at_
|}.

Definition table (rows : list Supabase.ReservationRow) : Supabase.Store :=
  {| Supabase.reservations := rows; Supabase.outage := None |}.

(** Two locked bookings on sepolia, the newer one first in the listing. *)
Definition two_bookings : Supabase.Store :=
  table [ booking "res-1" "locked" (Some "0xhash1") None 100;
          booking "res-2" "locked" (Some "0xhash2") None 200 ].

(** The same two bookings created at the same instant, and the same table
    with its rows stored in the other order. *)
Definition tied_bookings : Supabase.Store :=
  table [ booking "res-1" "locked" (Some "0xhash1") None 100;
          booking "res-2" "locked" (Some "0xhash2") None 100 ].

Definition tied_bookings_swapped : Supabase.Store :=
  table (rev tied_bookings.(Supabase.reservations)).

(** A stale shadow row as candidate discovery sees it. *)
Definition shadow_row : Supabase.ReservationRow :=
  booking "res-a" "pending_lock" (Some "shadow-a") (Some "0xa") 100.

(** The same reservation after a genuine lock was recorded for it. *)
Definition settled_row : Supabase.ReservationRow :=
  booking "res-a" "locked" (Some "0xrealhash") (Some "0xa") 100.

(** The same reservation with state, chain key, hash and booking id
    cleared but the chain id and contract address still set. *)
Definition half_cleared_row : Supabase.ReservationRow := {|
  Supabase.reservation_id := "res-a";
  Supabase.reservation_code := Some "HR-res-a";
  Supabase.escrow_state := Some "none";
  Supabase.chain_key := None;
  Supabase.chain_id := Some 11155111;
  Supabase.escrow_contract_address := Some "0x1111111111111111111111111111111111111111";
  Supabase.chain_tx_hash := None;
  Supabase.onchain_booking_id := None;
  Supabase.escrow_event_index := Some 0;
  Supabase.created_at := 100
|}.

Definition clock0 : Monitor.Clock :=
  {| Monitor.started_at := "2026-02-21T10:00:00+00:00";
     Monitor.finished_at := "2026-02-21T10:00:01+00:00";
     Monitor.elapsed_ms := 100000 |}.

Definition process0 (settings : Settings) : Monitor.Process :=
  {| Monitor._monitor_state := Monitor.init settings; Monitor.log := [] |}.

(** The process after one more run against [two_bookings] and a node
    answering from [ledger1]. *)
Definition run_again (p : Monitor.Process) : Monitor.Process :=
  match Monitor.run_escrow_reconciliation_once_now settings0 two_bookings
          (node ledger1 no_events (Some 1)) clock0 p with
  | Ok (_, p') => p'
  | Raise _ => p
  end.

End Fixtures.

(* ===================================================================== *)
(** ** app/core/config.py: the rollout flags *)
(* ===================================================================== *)

Module Features.

(** Two more fields of [class Settings], read by the booking lifecycle
    helpers only. *)
Record FeatureFlags : Type := {
  feature_escrow_shadow_write : bool;
  feature_escrow_onchain_lock : bool
}.

End Features.

Import Features.

(* ===================================================================== *)
(** ** app/integrations/supabase_client.py: the shadow write *)
(* ===================================================================== *)

Module ShadowWrite.

(** The columns the read-back selects. *)
Record EscrowColumns : Type := {
  reservation_id : string;
  escrow_state : option string;
  chain_key : option string;
  chain_id : option Z;
  escrow_contract_address : option string;
  chain_tx_hash : option string;
  onchain_booking_id : option string;
  escrow_event_index : option Z
}.

Definition select_escrow_columns (r : Supabase.ReservationRow) : EscrowColumns :=
  {| reservation_id := r.(Supabase.reservation_id);
     escrow_state := r.(Supabase.escrow_state);
     chain_key := r.(Supabase.chain_key);
     chain_id := r.(Supabase.chain_id);
     escrow_contract_address := r.(Supabase.escrow_contract_address);
     chain_tx_hash := r.(Supabase.chain_tx_hash);
     onchain_booking_id := r.(Supabase.onchain_booking_id);
     escrow_event_index := r.(Supabase.escrow_event_index) |}.

(** The assignment list of the shadow [UPDATE]. *)
Definition assign (chain_key0 : string) (chain_id0 : Z)
    (contract_address tx_hash onchain_booking_id0 : string)
    (escrow_event_index0 : Z) (escrow_state0 : string)
    (r : Supabase.ReservationRow) : Supabase.ReservationRow :=
  {| Supabase.reservation_id := r.(Supabase.reservation_id);
     Supabase.reservation_code := r.(Supabase.reservation_code);
     Supabase.escrow_state := Some escrow_state0;
     Supabase.chain_key := Some chain_key0;
     Supabase.chain_id := Some chain_id0;
     Supabase.escrow_contract_address := Some contract_address;
     Supabase.chain_tx_hash := Some tx_hash;
     Supabase.onchain_booking_id := Some onchain_booking_id0;
     Supabase.escrow_event_index := Some escrow_event_index0;
     Supabase.created_at := r.(Supabase.created_at) |}.

Definition has_id (reservation_id0 : string) (r : Supabase.ReservationRow) : bool :=
  (r.(Supabase.reservation_id) =? reservation_id0)%string.

(** Returns [rows[0] if rows else None] (or the exception) together with
    the store the call leaves behind. *)
Definition write_reservation_escrow_shadow_metadata (settings : Settings)
    (db : Supabase.Store) (reservation_id0 chain_key0 : string) (chain_id0 : Z)
    (contract_address tx_hash onchain_booking_id0 : string)
    (escrow_event_index0 : Z) (escrow_state0 : string)
  : result (option EscrowColumns) * Supabase.Store :=
  let set := assign chain_key0 chain_id0 contract_address tx_hash
               onchain_booking_id0 escrow_event_index0 escrow_state0 in
  match Supabase.request settings db
          (Supabase.update_where (has_id reservation_id0) set) with
  | Raise exc => (Raise (Supabase._runtime_error_from_exception exc), db)
  | Ok table' =>
      let db' := {| Supabase.reservations := table';
                    Supabase.outage := db.(Supabase.outage) |} in
      (Supabase.as_runtime_error
         (rows <- Supabase.request settings db' (fun table =>
             firstn 1 (filter (has_id reservation_id0) table)) ;;
          match rows with
          | row :: _ => Ok (Some (select_escrow_columns row))
          | [] => Ok None
          end),
       db')
  end.

End ShadowWrite.

(* ===================================================================== *)
(** ** app/api/v2/routes/reservations.py and operations.py: settlement
       side effects of the booking lifecycle *)
(* ===================================================================== *)

Module Lifecycle.

(** [EscrowRef] of app/schemas/common.py. *)
Record EscrowRef : Type := {
  ref_chain_key : option string;
  ref_chain_id : Z;
  ref_contract_address : string;
  ref_tx_hash : string;
  ref_event_index : Z;
  ref_state : string
}.

(** What a helper leaves: its return value or exception, the store, and
    the records handed to [logger]. *)
Definition Effect (A : Type) : Type :=
  (result A * Supabase.Store * list (Monitor.LogLevel * string))%type.

(** [_maybe_apply_escrow_shadow_write] of reservations.py; [uuid4_hex] is
    what [uuid4().hex] returns when it is called. *)
Definition _maybe_apply_escrow_shadow_write (settings : Settings)
    (flags : FeatureFlags) (db : Supabase.Store) (w3 : Web3)
    (uuid4_hex : string) (reservation_id : string) : Effect (option EscrowRef) :=
  if negb flags.(feature_escrow_shadow_write) then
    (Ok None, db,
     [(Monitor.INFO, "Escrow shadow-write skipped: feature disabled (reservation_id=%s)")])
  else
  match get_active_chain settings with
  | Raise e => (Raise e, db, [])
  | Ok active_chain =>
  if negb active_chain.(Chains.enabled) then
    (Ok None, db,
     [(Monitor.WARNING,
       "Escrow shadow-write skipped: active chain disabled (reservation_id=%s, chain=%s)")])
  else if negb (truthy active_chain.(rpc_url))
          || negb (truthy active_chain.(Chains.escrow_contract_address)) then
    (Ok None, db,
     [(Monitor.WARNING,
       "Escrow shadow-write skipped: chain not fully configured (reservation_id=%s, chain=%s, rpc=%s, contract=%s)")])
  else if flags.(feature_escrow_onchain_lock)
          && negb (truthy active_chain.(signer_private_key)) then
    (Ok None, db,
     [(Monitor.WARNING,
       "Escrow lock skipped: signer key missing (reservation_id=%s, chain=%s)")])
  else if flags.(feature_escrow_onchain_lock) then
    let failed := (Monitor.ERROR,
                   "Escrow on-chain lock failed (reservation_id=%s, chain=%s)") in
    match lock_reservation_escrow_onchain settings w3 active_chain reservation_id with
    | Raise e =>
        if is_RuntimeError e then (Ok None, db, [failed]) else (Raise e, db, [])
    | Ok lock_result =>
        let '(written, db') :=
          ShadowWrite.write_reservation_escrow_shadow_metadata settings db
            reservation_id active_chain.(key) active_chain.(Chains.chain_id)
            active_chain.(Chains.escrow_contract_address)
            lock_result.(lock_tx_hash) lock_result.(lock_onchain_booking_id)
            lock_result.(lock_event_index) "locked" in
        match written with
        | Raise e =>
            if is_RuntimeError e then (Ok None, db', [failed]) else (Raise e, db', [])
        | Ok _ =>
            (Ok (Some {| ref_chain_key := Some active_chain.(key);
                         ref_chain_id := active_chain.(Chains.chain_id);
                         ref_contract_address := active_chain.(Chains.escrow_contract_address);
                         ref_tx_hash := lock_result.(lock_tx_hash);
                         ref_event_index := lock_result.(lock_event_index);
                         ref_state := "locked" |}),
             db',
             [(Monitor.INFO,
               "Escrow on-chain lock applied (reservation_id=%s, chain=%s, tx_hash=%s)")])
        end
    end
  else
    let tx_hash := "shadow-" ++ uuid4_hex in
    let '(written, db') :=
      ShadowWrite.write_reservation_escrow_shadow_metadata settings db
        reservation_id active_chain.(key) active_chain.(Chains.chain_id)
        active_chain.(Chains.escrow_contract_address)
        tx_hash reservation_id 0 "pending_lock" in
    match written with
    | Raise e =>
        if is_RuntimeError e then
          (Ok None, db',
           [(Monitor.ERROR,
             "Escrow shadow-write failed (reservation_id=%s, chain=%s, tx_hash=%s)")])
        else (Raise e, db', [])
    | Ok _ =>
        (Ok (Some {| ref_chain_key := Some active_chain.(key);
                     ref_chain_id := active_chain.(Chains.chain_id);
                     ref_contract_address := active_chain.(Chains.escrow_contract_address);
                     ref_tx_hash := tx_hash;
                     ref_event_index := 0;
                     ref_state := "pending" |}),
         db',
         [(Monitor.INFO,
           "Escrow shadow-write applied (reservation_id=%s, chain=%s, tx_hash=%s)")])
    end
  end.

(** [_maybe_refund_escrow_on_cancel] of reservations.py. *)
Definition _maybe_refund_escrow_on_cancel (settings : Settings)
    (flags : FeatureFlags) (db : Supabase.Store) (w3 : Web3)
    (reservation_row : Supabase.ReservationRow) : Effect unit :=
  if negb flags.(feature_escrow_onchain_lock) then (Ok tt, db, []) else
  let reservation_id := or_str reservation_row.(Supabase.reservation_id) "" in
  if negb (truthy reservation_id) then (Ok tt, db, []) else
  let escrow_state := lower (opt_or reservation_row.(Supabase.escrow_state) "none") in
  if negb (escrow_state =? "locked")%string then
    (Ok tt, db, [(Monitor.INFO, "Escrow refund skipped: reservation not locked (reservation_id=%s, escrow_state=%s)")])
  else
  let registry := get_chain_registry settings in
  match
    (chain_key0 <-
       match reservation_row.(Supabase.chain_key) with
       | Some k => if truthy k then Ok k
                   else (active <- get_active_chain settings ;; Ok active.(key))
       | None => active <- get_active_chain settings ;; Ok active.(key)
       end ;;
     fallback <- get_active_chain settings ;;
     Ok match dict_get (lower chain_key0) registry with
        | Some c => c
        | None => fallback
        end)
  with
  | Raise e => (Raise e, db, [])
  | Ok chain =>
  if negb chain.(Chains.enabled)
     || negb (truthy chain.(rpc_url))
     || negb (truthy chain.(Chains.escrow_contract_address))
     || negb (truthy chain.(signer_private_key)) then
    (Ok tt, db, [(Monitor.WARNING, "Escrow refund skipped: chain not fully configured (reservation_id=%s, chain=%s)")])
  else
  match refund_reservation_escrow_onchain settings w3 chain reservation_id
          reservation_row.(Supabase.onchain_booking_id) with
  | Raise e =>
      if is_RuntimeError e then (Ok tt, db, [(Monitor.ERROR, "Escrow refund failed (reservation_id=%s, chain=%s)")])
      else (Raise e, db, [])
  | Ok settlement =>
      let '(written, db') :=
        ShadowWrite.write_reservation_escrow_shadow_metadata settings db
          reservation_id chain.(key) chain.(Chains.chain_id)
          chain.(Chains.escrow_contract_address)
          settlement.(tx_hash) settlement.(onchain_booking_id)
          settlement.(event_index) "refunded" in
      match written with
      | Raise e =>
          if is_RuntimeError e then (Ok tt, db', [(Monitor.ERROR, "Escrow refund failed (reservation_id=%s, chain=%s)")])
          else (Raise e, db', [])
      | Ok _ => (Ok tt, db', [(Monitor.INFO, "Escrow refund applied (reservation_id=%s, chain=%s, tx_hash=%s)")])
      end
  end
  end.

(** [_maybe_release_escrow_on_checkin] of operations.py. *)
Definition _maybe_release_escrow_on_checkin (settings : Settings)
    (flags : FeatureFlags) (db : Supabase.Store) (w3 : Web3)
    (reservation_row : Supabase.ReservationRow) : Effect unit :=
  if negb flags.(feature_escrow_onchain_lock) then (Ok tt, db, []) else
  let reservation_id := or_str reservation_row.(Supabase.reservation_id) "" in
  if negb (truthy reservation_id) then (Ok tt, db, []) else
  let escrow_state := lower (opt_or reservation_row.(Supabase.escrow_state) "none") in
  if negb (escrow_state =? "locked")%string then
    (Ok tt, db, [(Monitor.INFO, "Escrow release skipped: reservation not locked (reservation_id=%s, escrow_state=%s)")])
  else
  let registry := get_chain_registry settings in
  match
    (chain_key0 <-
       match reservation_row.(Supabase.chain_key) with
       | Some k => if truthy k then Ok k
                   else (active <- get_active_chain settings ;; Ok active.(key))
       | None => active <- get_active_chain settings ;; Ok active.(key)
       end ;;
     fallback <- get_active_chain settings ;;
     Ok match dict_get (lower chain_key0) registry with
        | Some c => c
        | None => fallback
        end)
  with
  | Raise e => (Raise e, db, [])
  | Ok chain =>
  if negb chain.(Chains.enabled)
     || negb (truthy chain.(rpc_url))
     || negb (truthy chain.(Chains.escrow_contract_address))
     || negb (truthy chain.(signer_private_key)) then
    (Ok tt, db, [(Monitor.WARNING, "Escrow release skipped: chain not fully configured (reservation_id=%s, chain=%s)")])
  else
  match release_reservation_escrow_onchain settings w3 chain reservation_id
          reservation_row.(Supabase.onchain_booking_id) with
  | Raise e =>
      if is_RuntimeError e then (Ok tt, db, [(Monitor.ERROR, "Escrow release failed (reservation_id=%s, chain=%s)")])
      else (Raise e, db, [])
  | Ok settlement =>
      let '(written, db') :=
        ShadowWrite.write_reservation_escrow_shadow_metadata settings db
          reservation_id chain.(key) chain.(Chains.chain_id)
          chain.(Chains.escrow_contract_address)
          settlement.(tx_hash) settlement.(onchain_booking_id)
          settlement.(event_index) "released" in
      match written with
      | Raise e =>
          if is_RuntimeError e then (Ok tt, db', [(Monitor.ERROR, "Escrow release failed (reservation_id=%s, chain=%s)")])
          else (Raise e, db', [])
      | Ok _ => (Ok tt, db', [(Monitor.INFO, "Escrow release applied (reservation_id=%s, chain=%s, tx_hash=%s)")])
      end
  end
  end.

(** The settlement operation a lifecycle event triggers. *)
Inductive Settlement : Type := Release | Refund.

Definition settle (op : Settlement) :=
  match op with
  | Release => release_reservation_escrow_onchain
  | Refund => refund_reservation_escrow_onchain
  end.

Definition settled_state (op : Settlement) : string :=
  match op with Release => "released" | Refund => "refunded" end.

Definition skipped_not_locked (op : Settlement) : string :=
  match op with
  | Release => "Escrow release skipped: reservation not locked (reservation_id=%s, escrow_state=%s)"
  | Refund => "Escrow refund skipped: reservation not locked (reservation_id=%s, escrow_state=%s)"
  end.

Definition skipped_not_configured (op : Settlement) : string :=
  match op with
  | Release => "Escrow release skipped: chain not fully configured (reservation_id=%s, chain=%s)"
  | Refund => "Escrow refund skipped: chain not fully configured (reservation_id=%s, chain=%s)"
  end.

Definition applied (op : Settlement) : string :=
  match op with
  | Release => "Escrow release applied (reservation_id=%s, chain=%s, tx_hash=%s)"
  | Refund => "Escrow refund applied (reservation_id=%s, chain=%s, tx_hash=%s)"
  end.

Definition failed (op : Settlement) : string :=
  match op with
  | Release => "Escrow release failed (reservation_id=%s, chain=%s)"
  | Refund => "Escrow refund failed (reservation_id=%s, chain=%s)"
  end.

(** Both helpers above as one function of the operation: they differ in
    the operation called, the state written and the log messages only. *)
Definition _maybe_settle (op : Settlement) (settings : Settings)
    (flags : FeatureFlags) (db : Supabase.Store) (w3 : Web3)
    (reservation_row : Supabase.ReservationRow) : Effect unit :=
  if negb flags.(feature_escrow_onchain_lock) then (Ok tt, db, []) else
  let reservation_id := or_str reservation_row.(Supabase.reservation_id) "" in
  if negb (truthy reservation_id) then (Ok tt, db, []) else
  let escrow_state := lower (opt_or reservation_row.(Supabase.escrow_state) "none") in
  if negb (escrow_state =? "locked")%string then
    (Ok tt, db, [(Monitor.INFO, skipped_not_locked op)])
  else
  let registry := get_chain_registry settings in
  match
    (chain_key0 <-
       match reservation_row.(Supabase.chain_key) with
       | Some k => if truthy k then Ok k
                   else (active <- get_active_chain settings ;; Ok active.(key))
       | None => active <- get_active_chain settings ;; Ok active.(key)
       end ;;
     fallback <- get_active_chain settings ;;
     Ok match dict_get (lower chain_key0) registry with
        | Some c => c
        | None => fallback
        end)
  with
  | Raise e => (Raise e, db, [])
  | Ok chain =>
  if negb chain.(Chains.enabled)
     || negb (truthy chain.(rpc_url))
     || negb (truthy chain.(Chains.escrow_contract_address))
     || negb (truthy chain.(signer_private_key)) then
    (Ok tt, db, [(Monitor.WARNING, skipped_not_configured op)])
  else
  match settle op settings w3 chain reservation_id
          reservation_row.(Supabase.onchain_booking_id) with
  | Raise e =>
      if is_RuntimeError e then (Ok tt, db, [(Monitor.ERROR, failed op)])
      else (Raise e, db, [])
  | Ok settlement =>
      let '(written, db') :=
        ShadowWrite.write_reservation_escrow_shadow_metadata settings db
          reservation_id chain.(key) chain.(Chains.chain_id)
          chain.(Chains.escrow_contract_address)
          settlement.(tx_hash) settlement.(onchain_booking_id)
          settlement.(event_index) (settled_state op) in
      match written with
      | Raise e =>
          if is_RuntimeError e then (Ok tt, db', [(Monitor.ERROR, failed op)])
          else (Raise e, db', [])
      | Ok _ => (Ok tt, db', [(Monitor.INFO, applied op)])
      end
  end
  end.

End Lifecycle.

(* ===================================================================== *)
(** ** app/api/v2/routes/escrow.py: shadow cleanup and monitor endpoints *)
(* ===================================================================== *)

Module EscrowAdmin.

Record EscrowShadowCleanupRequest : Type := {
  req_chain_key : option string;
  req_limit : Z;
  req_execute : bool
}.

(** The declared types [chain_key: Literal["sepolia", "amoy"] | None] and
    [limit: ge=1, le=500]; the framework rejects any other body. *)
Definition valid_request (payload : EscrowShadowCleanupRequest) : bool :=
  match payload.(req_chain_key) with
  | None => true
  | Some k => (k =? "sepolia")%string || (k =? "amoy")%string
  end
  && (1 <=? payload.(req_limit)) && (payload.(req_limit) <=? 500).

Record EscrowShadowCleanupItem : Type := {
  cand_reservation_id : string;
  cand_reservation_code : string;
  cand_escrow_state : string;
  cand_chain_key : option string;
  cand_chain_tx_hash : option string;
  cand_onchain_booking_id : option string;
  cand_created_at : Z
}.

(** Validation of one candidate row against [EscrowShadowCleanupItem]:
    [reservation_code] and [escrow_state] are required strings. *)
Definition cleanup_item (row : Supabase.ReservationRow)
  : result EscrowShadowCleanupItem :=
  match row.(Supabase.reservation_code), row.(Supabase.escrow_state) with
  | Some code, Some state0 =>
      Ok {| cand_reservation_id := row.(Supabase.reservation_id);
            cand_reservation_code := code;
            cand_escrow_state := state0;
            cand_chain_key := row.(Supabase.chain_key);
            cand_chain_tx_hash := row.(Supabase.chain_tx_hash);
            cand_onchain_booking_id := row.(Supabase.onchain_booking_id);
            cand_created_at := row.(Supabase.created_at) |}
  | _, _ => Raise (OtherException "ValidationError" "Input should be a valid string")
  end.

Fixpoint cleanup_items (rows : list Supabase.ReservationRow)
  : result (list EscrowShadowCleanupItem) :=
  match rows with
  | [] => Ok []
  | row :: rest =>
      item <- cleanup_item row ;;
      items0 <- cleanup_items rest ;;
      Ok (item :: items0)
  end.

Record EscrowShadowCleanupResponse : Type := {
  resp_chain_key : string;
  executed : bool;
  candidate_count : Z;
  cleaned_count : Z;
  cleaned_reservation_ids : list string;
  candidates : list EscrowShadowCleanupItem
}.

(** The loop [for row in candidates] of the executed cleanup, on the list
    [cleaned_ids] and the store. *)
Fixpoint clean_candidates (settings : Settings) (resolved_key : string)
    (rows : list Supabase.ReservationRow) (db : Supabase.Store)
    (cleaned_ids : list string) : result (list string) * Supabase.Store :=
  match rows with
  | [] => (Ok cleaned_ids, db)
  | row :: rest =>
      let reservation_id := or_str row.(Supabase.reservation_id) "" in
      let tx_hash := opt_or row.(Supabase.chain_tx_hash) "" in
      if negb (truthy reservation_id) || negb (truthy tx_hash) then
        clean_candidates settings resolved_key rest db cleaned_ids
      else
        let '(answer, db') :=
          Supabase.clear_reservation_shadow_escrow_metadata settings db
            reservation_id resolved_key tx_hash in
        match try_except answer is_RuntimeError (fun _ => Ok false) with
        | Raise e => (Raise e, db')
        | Ok cleaned =>
            clean_candidates settings resolved_key rest db'
              (if cleaned then (cleaned_ids ++ [reservation_id])%list
               else cleaned_ids)
        end
  end.

(** POST /cleanup-shadow: the response (or the exception) and the store
    the request leaves behind. *)
Definition cleanup_shadow_rows (settings : Settings) (db : Supabase.Store)
    (payload : EscrowShadowCleanupRequest)
  : result EscrowShadowCleanupResponse * Supabase.Store :=
  if negb (valid_request payload) then
    (Raise (HTTPException 422 "Unprocessable Entity"), db)
  else
  let registry := get_chain_registry settings in
  match get_active_chain settings with
  | Raise e => (Raise e, db)
  | Ok active_chain =>
  let resolved_key := lower (opt_or payload.(req_chain_key) active_chain.(key)) in
  if negb (dict_mem resolved_key registry) then
    (Raise (HTTPException 400 ("Unsupported chain_key '" ++ resolved_key ++ "'.")), db)
  else
  match try_except
          (Supabase.list_reservations_for_shadow_cleanup settings db resolved_key
             payload.(req_limit))
          is_RuntimeError
          (fun exc => Raise (HTTPException 503 (str_of_exn exc))) with
  | Raise e => (Raise e, db)
  | Ok rows =>
      let '(cleaned, db') :=
        if payload.(req_execute)
        then clean_candidates settings resolved_key rows db []
        else (Ok [], db) in
      (cleaned_ids <- cleaned ;;
       items0 <- cleanup_items rows ;;
       Ok {| resp_chain_key := resolved_key;
             executed := payload.(req_execute);
             candidate_count := Z.of_nat (List.length rows);
             cleaned_count := Z.of_nat (List.length cleaned_ids);
             cleaned_reservation_ids := cleaned_ids;
             candidates := items0 |},
       db')
  end
  end.

(** [snapshot["enabled"] = settings.feature_escrow_reconciliation_scheduler] *)
Definition with_enabled (b : bool) (st : Monitor.MonitorState) : Monitor.MonitorState :=
  {| Monitor.enabled := b;
     Monitor.running := st.(Monitor.running);
     Monitor.interval_sec := st.(Monitor.interval_sec);
     Monitor.limit := st.(Monitor.limit);
     Monitor.chain_key := st.(Monitor.chain_key);
     Monitor.last_started_at := st.(Monitor.last_started_at);
     Monitor.last_finished_at := st.(Monitor.last_finished_at);
     Monitor.last_success_at := st.(Monitor.last_success_at);
     Monitor.last_duration_ms := st.(Monitor.last_duration_ms);
     Monitor.runs_total := st.(Monitor.runs_total);
     Monitor.consecutive_failures := st.(Monitor.consecutive_failures);
     Monitor.last_error := st.(Monitor.last_error);
     Monitor.last_summary := st.(Monitor.last_summary);
     Monitor.alert_thresholds := st.(Monitor.alert_thresholds);
     Monitor.alert_active := st.(Monitor.alert_active) |}.

(** GET /reconciliation-monitor *)
Definition get_reconciliation_monitor (settings : Settings) (p : Monitor.Process)
  : Monitor.MonitorState :=
  with_enabled settings.(feature_escrow_reconciliation_scheduler)
    (Monitor.get_escrow_reconciliation_monitor_snapshot p).

(** POST /reconciliation-monitor/run *)
Definition run_reconciliation_monitor_now (settings : Settings)
    (db : Supabase.Store) (w3 : Web3) (clock : Monitor.Clock) (p : Monitor.Process)
  : result (Monitor.MonitorState * Monitor.Process) :=
  ran <- Monitor.run_escrow_reconciliation_once_now settings db w3 clock p ;;
  let '(snapshot0, p') := ran in
  Ok (with_enabled settings.(feature_escrow_reconciliation_scheduler) snapshot0, p').

End EscrowAdmin.

(* ===================================================================== *)
(** ** app/core/status.py *)
(* ===================================================================== *)

Module Status.

Definition CANONICAL_BOOKING_STATUSES : list string :=
  [ "draft"; "pending_payment"; "escrow_locked"; "for_verification";
    "confirmed"; "checked_in"; "checked_out"; "cancelled"; "no_show" ].

Definition _BOOKING_STATUS_ALIASES : list (string * string) :=
  [ ("pendingpayment", "pending_payment");
    ("pending_payment", "pending_payment");
    ("pending_payment_", "pending_payment");
    ("forverification", "for_verification");
    ("for_verification", "for_verification");
    ("forverification_", "for_verification");
    ("checkedin", "checked_in");
    ("checked_in", "checked_in");
    ("checkedout", "checked_out");
    ("checked_out", "checked_out");
    ("noshow", "no_show");
    ("no_show", "no_show") ].

(** [d.get(k, default)] *)
Fixpoint alias_get (k : string) (d : list (string * string)) (default : string)
  : string :=
  match d with
  | [] => default
  | (k', v) :: rest => if (k =? k')%string then v else alias_get k rest default
  end.

(** [re.sub(r"[<class>]+", "_", s)]: every maximal run of characters of
    the class becomes one underscore; [in_run] says the previous character
    was in the class. *)
Fixpoint sub_runs (cls : ascii -> bool) (in_run : bool) (s : string) : string :=
  match s with
  | EmptyString => EmptyString
  | String c r =>
      if cls c then
        if in_run then sub_runs cls true r
        else String "_" (sub_runs cls true r)
      else String c (sub_runs cls false r)
  end.

(** The class [[\s\-]] *)
Definition space_or_hyphen (c : ascii) : bool := is_space c || Ascii.eqb c "-".

(** The class [_] *)
Definition underscore (c : ascii) : bool := Ascii.eqb c "_".

Fixpoint lstrip_chars (cls : ascii -> bool) (s : string) : string :=
  match s with
  | EmptyString => EmptyString
  | String c r => if cls c then lstrip_chars cls r else s
  end.

Fixpoint rstrip_chars (cls : ascii -> bool) (s : string) : string :=
  match s with
  | EmptyString => EmptyString
  | String c r =>
      match rstrip_chars cls r with
      | EmptyString => if cls c then EmptyString else String c EmptyString
      | r' => String c r'
      end
  end.

(** [s.strip("_")] *)
Definition strip_underscores (s : string) : string :=
  rstrip_chars underscore (lstrip_chars underscore s).

(** [value] is [None] or a string. *)
Definition canonical_booking_status (value : option string) : string :=
  match value with
  | None => "pending_payment"
  | Some v =>
      let raw := strip v in
      if negb (truthy raw) then "pending_payment"
      else
        let token := lower raw in
        let token := sub_runs space_or_hyphen false token in
        let token := strip_underscores (sub_runs underscore false token) in
        let mapped := alias_get token _BOOKING_STATUS_ALIASES token in
        if str_in mapped CANONICAL_BOOKING_STATUSES then mapped
        else "pending_payment"
  end.

End Status.

(* ===================================================================== *)
(** ** Further notions for the statements *)
(* ===================================================================== *)

(** The four states the reader can report. *)
Definition onchain_states : list string := ["none"; "locked"; "released"; "refunded"].

(** The number of listed items with a given result. *)
Definition count_result (res : string) (l : list EscrowReconciliationItem) : Z :=
  Z.of_nat (List.length (filter (fun i => (i.(item_result) =? res)%string) l)).

(** An item's result agrees with what it shows of both sides. *)
Definition item_consistent (i : EscrowReconciliationItem) : Prop :=
  (i.(item_result) = "skipped" /\ i.(item_onchain_state) = None)
  \/ (i.(item_result) = "missing_onchain" /\ i.(item_onchain_state) = Some "none")
  \/ (i.(item_result) = "match"
      /\ i.(item_onchain_state) = Some i.(item_db_escrow_state)
      /\ In i.(item_db_escrow_state) ["locked"; "released"; "refunded"])
  \/ (i.(item_result) = "mismatch"
      /\ exists st, i.(item_onchain_state) = Some st
                    /\ In st ["locked"; "released"; "refunded"]
                    /\ st <> i.(item_db_escrow_state)).

(** The local state of the row can agree with a ledger entry. *)
Definition settled_locally (r : Supabase.ReservationRow) : bool :=
  Supabase.in_ r.(Supabase.escrow_state) ["locked"; "released"; "refunded"].

(** The reader cannot reach the ledger of the chain: its dependency is
    missing, the chain lacks an endpoint or a contract, or the endpoint does
    not answer. *)
Definition reader_unusable (w3 : Web3) (chain : ChainConfig) : Prop :=
  w3.(importable) = false
  \/ truthy chain.(rpc_url) = false
  \/ truthy chain.(Chains.escrow_contract_address) = false
  \/ w3.(is_connected) chain.(rpc_url) = false.

(** The state of the monitor between two runs. *)
Definition monitor_at_rest (st : Monitor.MonitorState) : Prop :=
  0 <= st.(Monitor.consecutive_failures) <= st.(Monitor.runs_total)
  /\ (st.(Monitor.consecutive_failures) = 0 <-> st.(Monitor.last_error) = None)
  /\ (0 < st.(Monitor.consecutive_failures) -> st.(Monitor.alert_active) = true)
  /\ (st.(Monitor.last_summary) = None <-> st.(Monitor.last_success_at) = None)
  /\ st.(Monitor.running) = false.

(** The states of the process after [n] monitor runs: the state at import
    with nothing logged, and what a run leaves, whatever store, node and
    clock it met. *)
Inductive reached (settings : Settings) : nat -> Monitor.Process -> Prop :=
| reached_init :
    reached settings 0
      {| Monitor._monitor_state := Monitor.init settings; Monitor.log := [] |}
| reached_run n p db w3 clock snapshot0 p' :
    reached settings n p ->
    Monitor.run_escrow_reconciliation_once_now settings db w3 clock p
    = Ok (snapshot0, p') ->
    reached settings (S n) p'.

(** A row of a table is either left as it was or a stale shadow row of
    the chain that was cleared. *)
Definition untouched_or_cleared (chain_key0 : string)
    (r r' : Supabase.ReservationRow) : Prop :=
  r' = r \/ (Supabase.shadow_candidate chain_key0 r = true /\ r' = Supabase.cleared r).

(** The helper a lifecycle event calls. *)
Definition lifecycle_helper (op : Lifecycle.Settlement) :=
  match op with
  | Lifecycle.Release => Lifecycle._maybe_release_escrow_on_checkin
  | Lifecycle.Refund => Lifecycle._maybe_refund_escrow_on_cancel
  end.

(** The chain a settlement helper resolves for a row: the registry entry
    of the row's chain key, else the active chain. *)
Definition chain_of_row (settings : Settings) (row : Supabase.ReservationRow)
  : result ChainConfig :=
  chain_key0 <-
    match row.(Supabase.chain_key) with
    | Some k => if truthy k then Ok k
                else (active <- get_active_chain settings ;; Ok active.(key))
    | None => active <- get_active_chain settings ;; Ok active.(key)
    end ;;
  fallback <- get_active_chain settings ;;
  Ok match dict_get (lower chain_key0) (get_chain_registry settings) with
     | Some c => c
     | None => fallback
     end.

(** The table after the rows with the given reservation ids have been
    cleared. *)
Definition clear_ids (ids : list string) (t : list Supabase.ReservationRow)
  : list Supabase.ReservationRow :=
  map (fun r => if str_in r.(Supabase.reservation_id) ids
                then Supabase.cleared r else r) t.

(** The reservation ids of a list of rows. *)
Definition ids_of (rows : list Supabase.ReservationRow) : list string :=
  map Supabase.reservation_id rows.

(** The token [canonical_booking_status] looks up in the alias table for a
    value whose stripped text is not empty. *)
Definition status_token (v : string) : string :=
  Status.strip_underscores
    (Status.sub_runs Status.underscore false
       (Status.sub_runs Status.space_or_hyphen false (lower (strip v)))).

(** The alias table without its two keys that end in an underscore. *)
Definition live_aliases : list (string * string) :=
  filter (fun entry => negb (str_in (fst entry) ["pending_payment_"; "forverification_"]))
    Status._BOOKING_STATUS_ALIASES.

(* ===================================================================== *)
(** ** Further concrete cases *)
(* ===================================================================== *)

Module Cases.

Definition shadow_mode : FeatureFlags :=
  {| feature_escrow_shadow_write := true; feature_escrow_onchain_lock := false |}.

Definition lock_mode : FeatureFlags :=
  {| feature_escrow_shadow_write := true; feature_escrow_onchain_lock := true |}.

(** A fresh reservation with no escrow activity. *)
Definition fresh (id : string) (at_ : Z) : Supabase.ReservationRow := {|
  Supabase.reservation_id := id;
  Supabase.reservation_code := Some ("HR-" ++ id);
  Supabase.escrow_state := Some "none";
  Supabase.chain_key := None;
  Supabase.chain_id := None;
  Supabase.escrow_contract_address := None;
  Supabase.chain_tx_hash := None;
  Supabase.onchain_booking_id := None;
  Supabase.escrow_event_index := None;
  Supabase.created_at := at_
|}.

(** A node that decodes hex the way it encodes it, on top of
    [Fixtures.node]: [to_bytes(hexstr)] drops the two prefix characters. *)
Definition hex_node (escrows : bytes -> result (list Z))
    (receipt_status0 : option Z) : Web3 :=
  let base := Fixtures.node escrows Fixtures.no_events receipt_status0 in
  {| importable := base.(importable);
     is_connected := base.(is_connected);
     account_from_key := base.(account_from_key);
     to_checksum_address := base.(to_checksum_address);
     keccak_text := base.(keccak_text);
     to_hex := base.(to_hex);
     to_bytes_hexstr := fun hexstr =>
       Ok (list_byte_of_string (String.substring 2 (String.length hexstr - 2) hexstr));
     get_transaction_count := base.(get_transaction_count);
     max_priority_fee := base.(max_priority_fee);
     gas_price := base.(gas_price);
     build_transaction := base.(build_transaction);
     sign_transaction := base.(sign_transaction);
     send_raw_transaction := base.(send_raw_transaction);
     wait_for_transaction_receipt := base.(wait_for_transaction_receipt);
     process_receipt := base.(process_receipt);
     escrows_call := base.(escrows_call) |}.

(** Three stale shadow rows, a genuine pending lock and a locked booking,
    all on sepolia. *)
Definition mixed_table : Supabase.Store :=
  Fixtures.table
    [ Fixtures.booking "res-a" "pending_lock" (Some "shadow-a") (Some "res-a") 100;
      Fixtures.booking "res-b" "pending_lock" (Some "0xgenuine") (Some "0xb") 200;
      Fixtures.booking "res-c" "pending_lock" (Some "shadow-c") (Some "res-c") 300;
      Fixtures.booking "res-d" "locked" (Some "0xhash") (Some "0xd") 400;
      Fixtures.booking "res-e" "pending_lock" (Some "shadow-e") (Some "res-e") 500 ].

(** A node on which the signer key is rejected as malformed. *)
Definition bad_key_node : Web3 :=
  let base := Fixtures.node Fixtures.ledger1 Fixtures.no_events (Some 1) in
  {| importable := base.(importable);
     is_connected := base.(is_connected);
     account_from_key := fun _ =>
       Raise (OtherException "ValueError" "The private key must be exactly 32 bytes long");
     to_checksum_address := base.(to_checksum_address);
     keccak_text := base.(keccak_text);
     to_hex := base.(to_hex);
     to_bytes_hexstr := base.(to_bytes_hexstr);
     get_transaction_count := base.(get_transaction_count);
     max_priority_fee := base.(max_priority_fee);
     gas_price := base.(gas_price);
     build_transaction := base.(build_transaction);
     sign_transaction := base.(sign_transaction);
     send_raw_transaction := base.(send_raw_transaction);
     wait_for_transaction_receipt := base.(wait_for_transaction_receipt);
     process_receipt := base.(process_receipt);
     escrows_call := base.(escrows_call) |}.

End Cases.

(* ===================================================================== *)
(** ** Proof automation *)
(* ===================================================================== *)

(** Replays the steps of an operation whose outcomes are among the
    hypotheses. *)
Ltac replay :=
  repeat match goal with
    | H : ?l = Ok _ |- context [?l] => rewrite H; cbn [bind]
    | H : ?l = true |- context [?l] => rewrite H
    | H : ?l = 1 |- context [?l =? 1] => rewrite H; rewrite Z.eqb_refl
    | H : ?l = Raise _ |- context [?l] =>
        rewrite H; cbn [bind try_except any_Exception]
    end.

(** Peels the successful steps off an operation that returned. *)
Ltac unwind :=
  repeat match goal with
    | |- bind ?m _ = Ok _ -> _ =>
        let E := fresh "E" in destruct m eqn:E; cbn [bind]; [|discriminate]
    | |- (if ?c then _ else _) = Ok _ -> _ =>
        let E := fresh "E" in destruct c eqn:E; [|discriminate]
    | |- (let '(_, _) := ?p in _) = Ok _ -> _ => destruct p
    end.

(* ===================================================================== *)
(** * Properties *)
(* ===================================================================== *)

(** ** Scenarios *)

Example strip_lower_example : lower (strip "  Sepolia 	") = "sepolia".
Proof. reflexivity. Qed.

Example normalize_keys_example :
  _normalize_keys " Sepolia, ,AMOY" = ["sepolia"; "amoy"].
Proof. reflexivity. Qed.

Example state_map_example :
  map state_map_get [0; 1; 2; 3; 4; -1]
  = ["none"; "locked"; "released"; "refunded"; "none"; "none"].
Proof. reflexivity. Qed.

Example short_tuple_example :
  tuple_item_or_0 [5; 6; 7] 4 = 0 /\ tuple_item_or_0 [5; 6; 7; 8; 2] 4 = 2.
Proof. split; reflexivity. Qed.

(** Registry with [sepolia] enabled and [amoy] disabled, active key
    [sepolia]: the active chain is [sepolia], and reconciling [amoy] fails
    with the "disabled" error. *)
Example amoy_disabled_scenario :
  let settings := Fixtures.configure "sepolia" "sepolia" 200 in
  get_active_chain settings = Ok Fixtures.sepolia0
  /\ Monitor._build_summary settings Fixtures.two_bookings
       (Fixtures.node Fixtures.ledger1 Fixtures.no_events (Some 1)) "amoy" 200
     = Raise (RuntimeError "Chain 'amoy' is disabled.").
Proof. split; vm_compute; reflexivity. Qed.

(** A booking locked locally and on chain is a match; the same booking
    with nothing on chain is missing on chain and raises the alert. *)
Example match_and_missing_scenario :
  let w3 := Fixtures.node Fixtures.ledger1 Fixtures.no_events (Some 1) in
  Monitor._build_summary Fixtures.settings0
    (Fixtures.table [Fixtures.booking "res-1" "locked" (Some "0xhash1") None 100])
    w3 "sepolia" 200
  = Ok {| total := 1; match_ := 1; mismatch := 0; missing_onchain := 0;
          skipped := 0; alert := false |}
  /\ Monitor._build_summary Fixtures.settings0
       (Fixtures.table [Fixtures.booking "res-9" "locked" (Some "0xhash9") None 100])
       w3 "sepolia" 200
     = Ok {| total := 1; match_ := 0; mismatch := 0; missing_onchain := 1;
             skipped := 0; alert := true |}.
Proof. split; vm_compute; reflexivity. Qed.

(** Candidate discovery keeps to rows that are [pending_lock] and carry
    the shadow prefix. *)
Example shadow_candidates_scenario :
  Supabase.list_reservations_for_shadow_cleanup Fixtures.settings0
    (Fixtures.table
       [ Fixtures.shadow_row;
         Fixtures.booking "res-b" "pending_lock" (Some "0xgenuine") None 200;
         Fixtures.settled_row ])
    "sepolia" 100
  = Ok [Fixtures.shadow_row].
Proof. vm_compute. reflexivity. Qed.

(** ** Chain registry *)

Section ChainRegistry.

Variable settings : Settings.

Lemma registry_keys :
  map fst (get_chain_registry settings) = ["sepolia"; "amoy"].
Proof. reflexivity. Qed.

Lemma registry_has_sepolia :
  exists c, dict_get "sepolia" (get_chain_registry settings) = Some c
            /\ c.(key) = "sepolia".
Proof. eexists; split; reflexivity. Qed.

Lemma dict_get_In (k : string) (d : Registry) (c : ChainConfig) :
  dict_get k d = Some c -> In c (dict_values d).
Proof.
  induction d as [|[k' v] d IH]; simpl; [discriminate|].
  destruct (k =? k')%string.
  - intros [= ->]. now left.
  - intros H. right. now apply IH.
Qed.

Lemma get_active_chain_Ok :
  exists c, get_active_chain settings = Ok c.
Proof.
  unfold get_active_chain.
  destruct (dict_get _ (get_chain_registry settings)); [eexists; reflexivity|].
  destruct registry_has_sepolia as [c [-> _]]. eexists; reflexivity.
Qed.

End ChainRegistry.

(** C5 (as amended).  [get_active_chain] always returns exactly one network
    of the registry; when the configured active key, stripped and
    lower-cased, is not a key of the registry, that network is the
    [sepolia] entry, whether or not [sepolia] is enabled. *)
Theorem get_active_chain_falls_back_to_sepolia (settings : Settings) :
  let registry := get_chain_registry settings in
  let active_key := lower (strip (or_str settings.(chain_active_key) "")) in
  (exists c, get_active_chain settings = Ok c /\ In c (dict_values registry))
  /\ (dict_mem active_key registry = false ->
      exists c, get_active_chain settings = Ok c
                /\ dict_get "sepolia" registry = Some c
                /\ c.(key) = "sepolia"
                /\ c.(Chains.enabled)
                   = str_in "sepolia" (_normalize_keys settings.(chain_allowed_keys))).
Proof.
  intros registry active_key. split.
  - unfold get_active_chain. fold registry. fold active_key.
    destruct (dict_get active_key registry) as [c|] eqn:E.
    + exists c. split; [reflexivity|]. eapply dict_get_In; eassumption.
    + destruct (registry_has_sepolia settings) as [c [Hc _]].
      fold registry in Hc. rewrite Hc.
      exists c. split; [reflexivity|]. eapply dict_get_In; eassumption.
  - intros Hmem. unfold dict_mem in Hmem.
    unfold get_active_chain. fold registry. fold active_key.
    destruct (dict_get active_key registry); [discriminate|].
    eexists. repeat split.
Qed.

Lemma get_active_chain_falls_back_to_sepolia_witness :
  exists c, get_active_chain (Fixtures.configure "mainnet" "sepolia,amoy" 200) = Ok c
            /\ c.(key) = "sepolia".
Proof.
  destruct (get_active_chain_falls_back_to_sepolia
              (Fixtures.configure "mainnet" "sepolia,amoy" 200)) as [_ H].
  destruct (H eq_refl) as [c [H1 [_ [H2 _]]]].
  exists c. split; assumption.
Defined.

(** C5 (as stated) fails: with an unknown active key and only [amoy]
    allowed, the network returned is the disabled [sepolia], while the first
    enabled network of the registry is [amoy]. *)
Lemma get_active_chain_fallback_not_first_enabled :
  let settings := Fixtures.configure "mainnet" "amoy" 200 in
  let registry := get_chain_registry settings in
  dict_mem (lower (strip (or_str settings.(chain_active_key) ""))) registry = false
  /\ exists c c',
       get_active_chain settings = Ok c
       /\ find Chains.enabled (dict_values registry) = Some c'
       /\ c.(key) = "sepolia" /\ c.(Chains.enabled) = false
       /\ c'.(key) = "amoy" /\ c <> c'.
Proof.
  cbv zeta. split; [reflexivity|].
  eexists. eexists.
  split; [reflexivity|]. split; [reflexivity|].
  repeat split. discriminate.
Qed.

(** ** The candidate page *)

Section CandidatePage.

Lemma insert_desc_length (r : Supabase.ReservationRow) (l : list Supabase.ReservationRow) :
  List.length (Supabase.insert_desc r l) = S (List.length l).
Proof.
  induction l as [|x l IH]; simpl; [reflexivity|].
  destruct (Supabase.created_at x <? Supabase.created_at r); simpl; congruence.
Qed.

Lemma order_created_at_desc_length (l : list Supabase.ReservationRow) :
  List.length (Supabase.order_created_at_desc l) = List.length l.
Proof.
  unfold Supabase.order_created_at_desc.
  induction l as [|x l IH]; simpl; [reflexivity|].
  now rewrite insert_desc_length, IH.
Qed.

Lemma range_length {A} (first last : Z) (l : list A) :
  List.length (Supabase.range first last l)
  = Nat.min (Z.to_nat (last - first + 1)) (List.length l - Z.to_nat first).
Proof.
  unfold Supabase.range. now rewrite length_firstn, length_skipn.
Qed.

(** What a successful call of the accessor returned. *)
Lemma list_reservations_for_escrow_reconciliation_Ok
    (settings : Settings) (db : Supabase.Store) (k : string) (limit0 offset0 : Z)
    (rows : list Supabase.ReservationRow) (total0 : Z) :
  Supabase.list_reservations_for_escrow_reconciliation settings db k limit0 offset0
  = Ok (rows, total0) ->
  let query := Supabase.order_created_at_desc
                 (filter (Supabase.escrow_candidate k) db.(Supabase.reservations)) in
  rows = Supabase.range offset0 (offset0 + limit0 - 1) query
  /\ total0 = Z.of_nat (List.length query).
Proof.
  unfold Supabase.list_reservations_for_escrow_reconciliation,
    Supabase.as_runtime_error, Supabase.request.
  destruct (Supabase._can_connect settings); simpl; [|discriminate].
  destruct (Supabase.outage db); simpl; [discriminate|].
  intros [= <- <-]. split; reflexivity.
Qed.

Lemma page_length (settings : Settings) (db : Supabase.Store) (k : string)
    (limit0 offset0 : Z) (rows : list Supabase.ReservationRow) (total0 : Z) :
  Supabase.list_reservations_for_escrow_reconciliation settings db k limit0 offset0
  = Ok (rows, total0) ->
  0 <= offset0 ->
  0 <= total0
  /\ Z.of_nat (List.length rows) = Z.min (Z.max 0 limit0) (Z.max 0 (total0 - offset0)).
Proof.
  intros H Hoff.
  apply list_reservations_for_escrow_reconciliation_Ok in H.
  destruct H as [-> ->]. split; [lia|].
  rewrite range_length.
  replace (offset0 + limit0 - 1 - offset0 + 1) with limit0 by lia.
  lia.
Qed.

End CandidatePage.

(** ** The reconciliation loops *)

Section Loops.

Variable w3 : Web3.
Variable chain : ChainConfig.





End Loops.

(** What a successful engine run went through. *)
Lemma _build_summary_Ok (settings : Settings) (db : Supabase.Store) (w3 : Web3)
    (k : string) (limit0 : Z) (s : EscrowReconciliationSummary) :
  Monitor._build_summary settings db w3 k limit0 = Ok s ->
  exists chain rows total0 s1,
    dict_get k (get_chain_registry settings) = Some chain
    /\ chain.(Chains.enabled) = true
    /\ Supabase.list_reservations_for_escrow_reconciliation settings db k limit0 0
       = Ok (rows, total0)
    /\ Monitor.for_rows w3 chain rows (new_summary total0) = Ok s1
    /\ s = set_alert (0 <? s1.(mismatch) + s1.(missing_onchain)) s1.
Proof.
  unfold Monitor._build_summary.
  destruct (dict_get k (get_chain_registry settings)) as [chain|]; [|discriminate].
  destruct (Chains.enabled chain) eqn:En; [|discriminate].
  destruct (Supabase.list_reservations_for_escrow_reconciliation settings db k limit0 0)
    as [[rows total0]|e]; simpl; [|discriminate].
  destruct (Monitor.for_rows w3 chain rows (new_summary total0)) as [s1|e] eqn:E;
    simpl; [|discriminate].
  intros [= <-]. exists chain, rows, total0, s1. repeat split; assumption.
Qed.

(** What a successful listing request went through. *)
Lemma get_escrow_reconciliation_Ok (settings : Settings) (db : Supabase.Store)
    (w3 : Web3) (ck : option string) (limit0 offset0 : Z)
    (r : EscrowReconciliationResponse) :
  EscrowRoutes.get_escrow_reconciliation settings db w3 ck limit0 offset0 = Ok r ->
  exists active k chain rows total0 items0 s1,
    EscrowRoutes.valid_query limit0 offset0 = true
    /\ get_active_chain settings = Ok active
    /\ k = lower (opt_or ck active.(key))
    /\ dict_get k (get_chain_registry settings) = Some chain
    /\ chain.(Chains.enabled) = true
    /\ Supabase.list_reservations_for_escrow_reconciliation settings db k limit0 offset0
       = Ok (rows, total0)
    /\ EscrowRoutes.for_rows w3 chain rows ([], new_summary total0) = Ok (items0, s1)
    /\ r.(items) = items0
    /\ r.(count) = total0
    /\ r.(summary) = set_alert (0 <? s1.(mismatch) + s1.(missing_onchain)) s1.
Proof.
  unfold EscrowRoutes.get_escrow_reconciliation.
  destruct (EscrowRoutes.valid_query limit0 offset0) eqn:V; [|discriminate].
  destruct (get_active_chain settings) as [active|e]; cbn [bind]; [|discriminate].
  destruct (dict_get (lower (opt_or ck (key active))) (get_chain_registry settings))
    as [chain|] eqn:D; [|discriminate].
  destruct (Chains.enabled chain) eqn:En; [|discriminate].
  destruct (Supabase.list_reservations_for_escrow_reconciliation settings db
              (lower (opt_or ck (key active))) limit0 offset0)
    as [[rows total0]|e] eqn:L; simpl.
  - destruct (EscrowRoutes.for_rows w3 chain rows ([], new_summary total0))
      as [[items0 s1]|e] eqn:E; simpl; [|discriminate].
    intros [= <-].
    exists active, (lower (opt_or ck (key active))), chain, rows, total0, items0, s1.
    repeat split; try assumption; reflexivity.
  - destruct (is_RuntimeError e); discriminate.
Qed.

(** ** Summary arithmetic *)




(** C2.  Every summary the engine or the operator listing returns has
    [alert] equal to [mismatch + missingOnchain > 0]; in particular a
    summary whose only non-zero discrepancy count is [skipped] has
    [alert = false]. *)
Theorem summary_alert_iff_mismatch_or_missing
    (settings : Settings) (db : Supabase.Store) (w3 : Web3) :
  (forall k limit0 s,
      Monitor._build_summary settings db w3 k limit0 = Ok s ->
      s.(alert) = (0 <? s.(mismatch) + s.(missing_onchain))
      /\ (s.(mismatch) = 0 -> s.(missing_onchain) = 0 -> s.(alert) = false))
  /\ (forall ck limit0 offset0 r,
      EscrowRoutes.get_escrow_reconciliation settings db w3 ck limit0 offset0 = Ok r ->
      r.(summary).(alert) = (0 <? r.(summary).(mismatch) + r.(summary).(missing_onchain))
      /\ (r.(summary).(mismatch) = 0 -> r.(summary).(missing_onchain) = 0 ->
          r.(summary).(alert) = false)).
Proof.
  split.
  - intros k limit0 s H.
    apply _build_summary_Ok in H.
    destruct H as (chain & rows & total0 & s1 & _ & _ & _ & _ & ->).
    simpl. split; [reflexivity|]. intros -> ->. reflexivity.
  - intros ck limit0 offset0 r H.
    apply get_escrow_reconciliation_Ok in H.
    destruct H as (active & k & chain & rows & total0 & items0 & s1
                   & _ & _ & _ & _ & _ & _ & _ & _ & _ & ->).
    simpl. split; [reflexivity|]. intros -> ->. reflexivity.
Qed.

Lemma summary_alert_iff_mismatch_or_missing_witness :
  exists s,
    Monitor._build_summary Fixtures.settings0 Fixtures.two_bookings
      (Fixtures.offline (Fixtures.node Fixtures.ledger1 Fixtures.no_events (Some 1)))
      "sepolia" 200 = Ok s
    /\ s.(skipped) = 2 /\ s.(alert) = false.
Proof.
  eexists. split; [vm_compute; reflexivity|]. split; [reflexivity|].
  refine (proj2 (proj1 (summary_alert_iff_mismatch_or_missing Fixtures.settings0
                          Fixtures.two_bookings
                          (Fixtures.offline
                             (Fixtures.node Fixtures.ledger1 Fixtures.no_events (Some 1))))
                   "sepolia" 200 _ _) _ _);
    vm_compute; reflexivity.
Defined.

(** ** The monitor *)

Lemma _resolve_chain_key_Ok (settings : Settings) :
  exists k, Monitor._resolve_chain_key settings = Ok k.
Proof.
  unfold Monitor._resolve_chain_key.
  destruct (truthy _); [eexists; reflexivity|].
  destruct (get_active_chain_Ok settings) as [c ->].
  eexists; reflexivity.
Qed.

(** The two ways a run ends. *)
Lemma run_once_outcome
    (settings : Settings) (db : Supabase.Store) (w3 : Web3)
    (clock : Monitor.Clock) (p : Monitor.Process) :
  exists k snapshot0 p',
    Monitor._resolve_chain_key settings = Ok k
    /\ Monitor.run_escrow_reconciliation_once_now settings db w3 clock p
       = Ok (snapshot0, p')
    /\ snapshot0 = p'.(Monitor._monitor_state)
    /\ let st1 := Monitor.begin_run clock.(Monitor.started_at) k
                    p.(Monitor._monitor_state) in
       match Monitor._build_summary settings db w3 k
               settings.(escrow_reconciliation_limit) with
       | Ok s =>
           p'.(Monitor._monitor_state)
           = Monitor.complete_success clock.(Monitor.finished_at)
               clock.(Monitor.elapsed_ms) s st1
       | Raise e =>
           p'.(Monitor._monitor_state)
           = Monitor.complete_failure clock.(Monitor.finished_at)
               clock.(Monitor.elapsed_ms) (str_of_exn e) st1
       end.
Proof.
  destruct (_resolve_chain_key_Ok settings) as [k Hk].
  exists k. unfold Monitor.run_escrow_reconciliation_once_now.
  rewrite Hk. cbn [bind].
  destruct (Monitor._build_summary settings db w3 k (escrow_reconciliation_limit settings))
    as [s|e]; cbn [bind try_except any_Exception Monitor.snapshot];
    do 2 eexists; repeat split.
Qed.

(** C3.  Every monitor run completes, and the snapshot it returns has
    [running = false] and the thresholds it started with.  When the engine
    returned a summary, the run records it and [alert_active] is true
    exactly when one of the three counts of the summary reaches its
    threshold, so that thresholds (1, 1, 1) and a summary with
    [mismatch = 0], [missing_onchain = 0], [skipped = 2] give
    [alert_active = true] while the summary's own [alert] is false.  When the
    engine raised, the run adds one to [consecutive_failures], records the
    error message and sets [alert_active] to true whatever the thresholds. *)
Theorem monitor_alert_active_after_run
    (settings : Settings) (db : Supabase.Store) (w3 : Web3)
    (clock : Monitor.Clock) (p : Monitor.Process) :
  let st := p.(Monitor._monitor_state) in
  let thresholds := st.(Monitor.alert_thresholds) in
  exists k snapshot0 p',
    Monitor._resolve_chain_key settings = Ok k
    /\ Monitor.run_escrow_reconciliation_once_now settings db w3 clock p
       = Ok (snapshot0, p')
    /\ snapshot0 = p'.(Monitor._monitor_state)
    /\ snapshot0.(Monitor.running) = false
    /\ snapshot0.(Monitor.alert_thresholds) = thresholds
    /\ (forall s,
          Monitor._build_summary settings db w3 k settings.(escrow_reconciliation_limit)
          = Ok s ->
          snapshot0.(Monitor.last_summary) = Some s
          /\ snapshot0.(Monitor.consecutive_failures) = 0
          /\ snapshot0.(Monitor.last_error) = None
          /\ (snapshot0.(Monitor.alert_active) = true
              <-> (thresholds.(Monitor.th_mismatch) <= s.(mismatch)
                   \/ thresholds.(Monitor.th_missing_onchain) <= s.(missing_onchain)
                   \/ thresholds.(Monitor.th_skipped) <= s.(skipped)))
          /\ (thresholds = {| Monitor.th_mismatch := 1; Monitor.th_missing_onchain := 1;
                              Monitor.th_skipped := 1 |} ->
              s.(mismatch) = 0 -> s.(missing_onchain) = 0 -> s.(skipped) = 2 ->
              s.(alert) = false /\ snapshot0.(Monitor.alert_active) = true))
    /\ (forall e,
          Monitor._build_summary settings db w3 k settings.(escrow_reconciliation_limit)
          = Raise e ->
          snapshot0.(Monitor.consecutive_failures)
          = st.(Monitor.consecutive_failures) + 1
          /\ snapshot0.(Monitor.last_error) = Some (str_of_exn e)
          /\ snapshot0.(Monitor.last_summary) = st.(Monitor.last_summary)
          /\ snapshot0.(Monitor.alert_active) = true).
Proof.
  intros st thresholds.
  destruct (run_once_outcome settings db w3 clock p)
    as (k & snapshot0 & p' & Hk & Hrun & Hsnap & Hout).
  exists k, snapshot0, p'. cbv zeta in Hout.
  split; [exact Hk|]. split; [exact Hrun|]. split; [exact Hsnap|].
  destruct (Monitor._build_summary settings db w3 k (escrow_reconciliation_limit settings))
    as [s0|e0] eqn:B; rewrite Hsnap, Hout.
  - split; [reflexivity|]. split; [reflexivity|]. split.
    + intros s [= <-].
      assert (Hiff : (Monitor.complete_success (Monitor.finished_at clock)
                        (Monitor.elapsed_ms clock) s0
                        (Monitor.begin_run (Monitor.started_at clock) k
                           (Monitor._monitor_state p))).(Monitor.alert_active) = true
                     <-> (thresholds.(Monitor.th_mismatch) <= s0.(mismatch)
                          \/ thresholds.(Monitor.th_missing_onchain) <= s0.(missing_onchain)
                          \/ thresholds.(Monitor.th_skipped) <= s0.(skipped))).
      { cbn. rewrite !orb_true_iff, !Z.leb_le. tauto. }
      split; [reflexivity|]. split; [reflexivity|]. split; [reflexivity|].
      split; [exact Hiff|].
      intros Hth Hm Hmo Hsk. split.
      * apply _build_summary_Ok in B.
        destruct B as (chain & rows & total0 & s1 & _ & _ & _ & _ & ->).
        cbn in Hm, Hmo |- *. rewrite Hm, Hmo. reflexivity.
      * apply Hiff. rewrite Hth, Hsk. cbn. right. right. lia.
    + intros e. discriminate.
  - split; [reflexivity|]. split; [reflexivity|]. split.
    + intros s. discriminate.
    + intros e [= <-]. repeat split.
Qed.

Lemma monitor_alert_active_after_run_witness :
  let w3 := Fixtures.offline (Fixtures.node Fixtures.ledger1 Fixtures.no_events (Some 1)) in
  exists snapshot0 p' s,
    Monitor.run_escrow_reconciliation_once_now Fixtures.settings0 Fixtures.two_bookings
      w3 Fixtures.clock0 (Fixtures.process0 Fixtures.settings0) = Ok (snapshot0, p')
    /\ snapshot0.(Monitor.last_summary) = Some s
    /\ s.(skipped) = 2
    /\ s.(alert) = false
    /\ snapshot0.(Monitor.alert_active) = true.
Proof.
  intros w3.
  destruct (monitor_alert_active_after_run Fixtures.settings0 Fixtures.two_bookings
              w3 Fixtures.clock0 (Fixtures.process0 Fixtures.settings0))
    as (k & snapshot0 & p' & Hk & Hrun & _ & _ & _ & Hok & _).
  vm_compute in Hk. injection Hk as <-.
  destruct (Hok {| total := 2; match_ := 0; mismatch := 0; missing_onchain := 0;
                   skipped := 2; alert := false |} eq_refl)
    as (Hsum & _ & _ & _ & Hscenario).
  destruct (Hscenario eq_refl eq_refl eq_refl eq_refl) as [Ha Hactive].
  exists snapshot0, p', {| total := 2; match_ := 0; mismatch := 0; missing_onchain := 0;
                           skipped := 2; alert := false |}.
  split; [exact Hrun|]. split; [exact Hsum|]. split; [reflexivity|].
  split; [exact Ha|exact Hactive].
Defined.

(** C6.  [run_escrow_reconciliation_once_now] never raises: whatever the
    engine does, the call returns the snapshot of the monitor state, which
    is the state [complete_success] leaves when the engine returned a
    summary and the state [complete_failure] leaves, with the exception's
    message, when the engine raised. *)
Theorem run_once_always_returns_snapshot
    (settings : Settings) (db : Supabase.Store) (w3 : Web3)
    (clock : Monitor.Clock) (p : Monitor.Process) :
  exists k snapshot0 p',
    Monitor._resolve_chain_key settings = Ok k
    /\ Monitor.run_escrow_reconciliation_once_now settings db w3 clock p
       = Ok (snapshot0, p')
    /\ snapshot0 = p'.(Monitor._monitor_state)
    /\ let st1 := Monitor.begin_run clock.(Monitor.started_at) k
                    p.(Monitor._monitor_state) in
       match Monitor._build_summary settings db w3 k
               settings.(escrow_reconciliation_limit) with
       | Ok s =>
           p'.(Monitor._monitor_state)
           = Monitor.complete_success clock.(Monitor.finished_at)
               clock.(Monitor.elapsed_ms) s st1
       | Raise e =>
           p'.(Monitor._monitor_state)
           = Monitor.complete_failure clock.(Monitor.finished_at)
               clock.(Monitor.elapsed_ms) (str_of_exn e) st1
       end.
Proof. apply run_once_outcome. Qed.

(** ** Two runs over the same rows and ledger *)

Lemma same_view_same_state (w3a w3b : Web3) (chain : ChainConfig)
    (row : Supabase.ReservationRow) :
  same_ledger_view w3a w3b chain ->
  Monitor.read_state w3a chain row = Monitor.read_state w3b chain row.
Proof.
  intros (Himp & Hconn & Haddr & Hkeccak & Hbytes & Hcall).
  unfold Monitor.read_state, read_escrow_record_onchain.
  rewrite Himp, Hconn, Haddr.
  destruct (importable w3b); [|reflexivity].
  destruct (truthy (rpc_url chain)); [|reflexivity].
  destruct (truthy (Chains.escrow_contract_address chain)); [|reflexivity].
  destruct (is_connected w3b (rpc_url chain)); [|reflexivity].
  destruct (to_checksum_address w3b (Chains.escrow_contract_address chain))
    as [contract_address|e]; [|reflexivity].
  cbn [bind]. unfold _resolve_booking_id_bytes.
  destruct (Supabase.onchain_booking_id row) as [supplied|].
  - destruct (truthy supplied && startswith supplied "0x").
    + rewrite Hbytes.
      destruct (to_bytes_hexstr w3b supplied) as [b32|e]; [|reflexivity].
      cbn [bind]. rewrite Hcall.
      destruct (escrows_call w3b (rpc_url chain) contract_address b32); reflexivity.
    + cbn [bind]. rewrite Hkeccak, Hcall.
      destruct (escrows_call w3b (rpc_url chain) contract_address _); reflexivity.
  - cbn [bind]. rewrite Hkeccak, Hcall.
    destruct (escrows_call w3b (rpc_url chain) contract_address _); reflexivity.
Qed.

Lemma engine_loop_same_view (w3a w3b : Web3) (chain : ChainConfig)
    (rows : list Supabase.ReservationRow) :
  same_ledger_view w3a w3b chain ->
  forall s, Monitor.for_rows w3a chain rows s = Monitor.for_rows w3b chain rows s.
Proof.
  intros Hview. induction rows as [|row rows IH]; intros s; [reflexivity|].
  cbn [Monitor.for_rows]. unfold Monitor.reconcile_row.
  rewrite (same_view_same_state w3a w3b chain row Hview).
  destruct (Monitor.read_state w3b chain row) as [[onchain_state|]|e]; cbn [bind];
    [|apply IH|reflexivity].
  destruct (onchain_state =? "none")%string;
    [|destruct (_ =? onchain_state)%string]; cbn [bind]; apply IH.
Qed.

(** One iteration either raises, whatever the summary, or adds one to a
    counter that depends on the row only. *)
Lemma engine_row_shape (w3 : Web3) (chain : ChainConfig)
    (row : Supabase.ReservationRow) :
  (exists e, forall s, Monitor.reconcile_row w3 chain row s = Raise e)
  \/ (exists f, (forall s, Monitor.reconcile_row w3 chain row s = Ok (f s))
                /\ In f [incr_match; incr_mismatch; incr_missing_onchain; incr_skipped]).
Proof.
  unfold Monitor.reconcile_row.
  destruct (Monitor.read_state w3 chain row) as [[onchain_state|]|e]; cbn [bind].
  - right. destruct (onchain_state =? "none")%string;
      [|destruct (_ =? onchain_state)%string]; eexists; (split; [reflexivity|]);
      cbn; tauto.
  - right. eexists. split; [reflexivity|]. cbn; tauto.
  - left. exists e. reflexivity.
Qed.

Lemma incr_commute (f g : EscrowReconciliationSummary -> EscrowReconciliationSummary) :
  In f [incr_match; incr_mismatch; incr_missing_onchain; incr_skipped] ->
  In g [incr_match; incr_mismatch; incr_missing_onchain; incr_skipped] ->
  forall s, f (g s) = g (f s).
Proof.
  cbn. intros Hf Hg s.
  destruct Hf as [<-|[<-|[<-|[<-|[]]]]]; destruct Hg as [<-|[<-|[<-|[<-|[]]]]];
    reflexivity.
Qed.

(** The engine's loop counts: the order of the rows decides neither whether
    it returns nor what it returns. *)
Lemma engine_loop_perm (w3 : Web3) (chain : ChainConfig)
    (rows1 rows2 : list Supabase.ReservationRow) :
  Permutation rows1 rows2 ->
  forall s s', Monitor.for_rows w3 chain rows1 s = Ok s'
               <-> Monitor.for_rows w3 chain rows2 s = Ok s'.
Proof.
  induction 1 as [|x l l' _ IH|x y l|l l' l'' _ IH1 _ IH2]; intros s s'.
  - tauto.
  - cbn [Monitor.for_rows].
    destruct (Monitor.reconcile_row w3 chain x s); cbn [bind]; [apply IH|tauto].
  - cbn [Monitor.for_rows].
    destruct (engine_row_shape w3 chain x) as [[ex Hx]|(f & Hx & Hf)];
      destruct (engine_row_shape w3 chain y) as [[ey Hy]|(g & Hy & Hg)];
      rewrite ?Hx, ?Hy; cbn [bind]; rewrite ?Hx, ?Hy; cbn [bind];
      try (split; discriminate); try tauto.
    rewrite (incr_commute f g Hf Hg). tauto.
  - rewrite IH1. apply IH2.
Qed.

(** C9.  The summary is a function of what a run observes.  Two runs with
    the same chain key and limit whose nodes give the same view of the
    ledger (the same availability of the library and of the endpoint, the
    same conversions and the same ledger entries) end alike on the same
    table, with the same summary or the same exception; when the store
    hands the two runs the same rows, in whatever order, and the same count,
    one run returns a summary exactly when the other returns the same
    summary; and two monitor runs in a row, the second started from the
    state the first left, record the same [last_summary] and the same
    [alert_active]. *)
Theorem reconcile_twice_identical_summary
    (settings : Settings) (w3a w3b : Web3) (k : string) (limit0 : Z)
    (chain : ChainConfig) :
  dict_get k (get_chain_registry settings) = Some chain ->
  same_ledger_view w3a w3b chain ->
  (forall db,
      Monitor._build_summary settings db w3a k limit0
      = Monitor._build_summary settings db w3b k limit0)
  /\ (forall db1 db2 rows1 rows2 total0,
        Supabase.list_reservations_for_escrow_reconciliation settings db1 k limit0 0
        = Ok (rows1, total0) ->
        Supabase.list_reservations_for_escrow_reconciliation settings db2 k limit0 0
        = Ok (rows2, total0) ->
        Permutation rows1 rows2 ->
        forall s, Monitor._build_summary settings db1 w3a k limit0 = Ok s
                  <-> Monitor._build_summary settings db2 w3b k limit0 = Ok s)
  /\ (Monitor._resolve_chain_key settings = Ok k ->
      limit0 = settings.(escrow_reconciliation_limit) ->
      forall db clock1 clock2 p0 p1 p2 snapshot1 snapshot2,
        Monitor.run_escrow_reconciliation_once_now settings db w3a clock1 p0
        = Ok (snapshot1, p1) ->
        Monitor.run_escrow_reconciliation_once_now settings db w3b clock2 p1
        = Ok (snapshot2, p2) ->
        snapshot2.(Monitor.last_summary) = snapshot1.(Monitor.last_summary)
        /\ snapshot2.(Monitor.alert_active) = snapshot1.(Monitor.alert_active)).
Proof.
  intros D Hview.
  assert (Hsame : forall db,
            Monitor._build_summary settings db w3a k limit0
            = Monitor._build_summary settings db w3b k limit0).
  { intros db. unfold Monitor._build_summary. rewrite D.
    destruct (Chains.enabled chain); [|reflexivity].
    destruct (Supabase.list_reservations_for_escrow_reconciliation settings db k limit0 0)
      as [[rows total0]|e]; cbn [bind]; [|reflexivity].
    rewrite (engine_loop_same_view w3a w3b chain rows Hview). reflexivity. }
  split; [exact Hsame|]. split.
  - intros db1 db2 rows1 rows2 total0 H1 H2 Hperm s.
    unfold Monitor._build_summary. rewrite D, H1, H2.
    destruct (Chains.enabled chain); [|tauto].
    cbn [bind].
    rewrite (engine_loop_same_view w3a w3b chain rows1 Hview).
    pose proof (engine_loop_perm w3b chain rows1 rows2 Hperm (new_summary total0)) as P.
    destruct (Monitor.for_rows w3b chain rows1 (new_summary total0)) as [s1|e1] eqn:E1;
      destruct (Monitor.for_rows w3b chain rows2 (new_summary total0)) as [s2|e2] eqn:E2;
      cbn [bind].
    + assert (Hs : s1 = s2).
      { pose proof (proj1 (P s1) eq_refl) as Q. now injection Q. }
      subst s2. tauto.
    + pose proof (proj1 (P s1) eq_refl). discriminate.
    + pose proof (proj2 (P s2) eq_refl). discriminate.
    + split; discriminate.
  - intros Hk -> db clock1 clock2 p0 p1 p2 snapshot1 snapshot2 H1 H2.
    destruct (run_once_outcome settings db w3a clock1 p0)
      as (k1 & s1 & q1 & Hk1 & R1 & E1 & O1).
    destruct (run_once_outcome settings db w3b clock2 p1)
      as (k2 & s2 & q2 & Hk2 & R2 & E2 & O2).
    rewrite Hk in Hk1, Hk2. injection Hk1 as <-. injection Hk2 as <-.
    rewrite H1 in R1. injection R1 as <- <-.
    rewrite H2 in R2. injection R2 as <- <-.
    cbv zeta in O1, O2. rewrite <- Hsame in O2.
    destruct (Monitor._build_summary settings db w3a k (escrow_reconciliation_limit settings));
      rewrite E2, O2, E1, O1; split; reflexivity.
Qed.

Lemma reconcile_twice_identical_summary_witness :
  let w3a := Fixtures.node Fixtures.ledger1 Fixtures.no_events (Some 1) in
  let w3b := Fixtures.node Fixtures.ledger1 Fixtures.decode_raises (Some 0) in
  exists s,
    Monitor._build_summary Fixtures.settings0 Fixtures.tied_bookings w3a "sepolia" 200
    = Ok s
    /\ Monitor._build_summary Fixtures.settings0 Fixtures.tied_bookings_swapped w3b
         "sepolia" 200 = Ok s
    /\ s.(match_) = 1 /\ s.(missing_onchain) = 1.
Proof.
  intros w3a w3b.
  assert (Hview : same_ledger_view w3a w3b Fixtures.sepolia0)
    by (repeat split; reflexivity).
  exists {| total := 2; match_ := 1; mismatch := 0; missing_onchain := 1;
            skipped := 0; alert := true |}.
  assert (H1 : Monitor._build_summary Fixtures.settings0 Fixtures.tied_bookings w3a
                 "sepolia" 200
               = Ok {| total := 2; match_ := 1; mismatch := 0; missing_onchain := 1;
                       skipped := 0; alert := true |})
    by (vm_compute; reflexivity).
  split; [exact H1|]. split; [|split; reflexivity].
  refine (proj1 (proj1 (proj2 (reconcile_twice_identical_summary Fixtures.settings0
                                 w3a w3b "sepolia" 200 Fixtures.sepolia0 eq_refl Hview))
                   Fixtures.tied_bookings Fixtures.tied_bookings_swapped
                   (rev (Supabase.reservations Fixtures.tied_bookings))
                   (Supabase.reservations Fixtures.tied_bookings)
                   2 eq_refl eq_refl _ _) H1).
  apply perm_swap.
Defined.

(** The same table and the same ledger entries, with the endpoint
    answering during the first run and not during the second: the first
    summary has a match and a missing escrow and raises [alert], the second
    has two skipped rows and does not. *)
Lemma reconcile_differs_when_endpoint_is_down :
  let up := Fixtures.node Fixtures.ledger1 Fixtures.no_events (Some 1) in
  let down := Fixtures.offline up in
  (forall rpc address id,
      down.(escrows_call) rpc address id = up.(escrows_call) rpc address id)
  /\ Monitor._build_summary Fixtures.settings0 Fixtures.two_bookings up "sepolia" 200
     = Ok {| total := 2; match_ := 1; mismatch := 0; missing_onchain := 1;
             skipped := 0; alert := true |}
  /\ Monitor._build_summary Fixtures.settings0 Fixtures.two_bookings down "sepolia" 200
     = Ok {| total := 2; match_ := 0; mismatch := 0; missing_onchain := 0;
             skipped := 2; alert := false |}.
Proof.
  split; [reflexivity|]. split; vm_compute; reflexivity.
Qed.

(** ** Reader failures inside a batch *)

Section ReaderFailures.

Variable w3 : Web3.
Variable chain : ChainConfig.

(** The engine's loop body, by the outcome of the reader call. *)
Lemma engine_row_by_reader (row : Supabase.ReservationRow)
    (s : EscrowReconciliationSummary) :
  Monitor.reconcile_row w3 chain row s
  = match reader_call w3 chain row with
    | Ok onchain =>
        if (onchain.(state) =? "none")%string then Ok (incr_missing_onchain s)
        else if (opt_or row.(Supabase.escrow_state) "none" =? onchain.(state))%string
             then Ok (incr_match s)
             else Ok (incr_mismatch s)
    | Raise e => if is_RuntimeError e then Ok (incr_skipped s) else Raise e
    end.
Proof.
  unfold Monitor.reconcile_row, Monitor.read_state, reader_call.
  destruct (read_escrow_record_onchain w3 chain _ _) as [onchain|e]; simpl;
    [reflexivity|].
  destruct (is_RuntimeError e); reflexivity.
Qed.

(** The listing's loop body, by the outcome of the reader call. *)
Lemma listing_row_by_reader (row : Supabase.ReservationRow)
    (items0 : list EscrowReconciliationItem) (s : EscrowReconciliationSummary) :
  match reader_call w3 chain row with
  | Ok onchain =>
      exists item s',
        EscrowRoutes.reconcile_row w3 chain row (items0, s)
        = Ok ((items0 ++ [item])%list, s')
        /\ s'.(skipped) = s.(skipped)
        /\ item.(item_onchain_state) = Some onchain.(state)
  | Raise e =>
      if is_RuntimeError e then
        exists item,
          EscrowRoutes.reconcile_row w3 chain row (items0, s)
          = Ok ((items0 ++ [item])%list, incr_skipped s)
          /\ item.(item_result) = "skipped"
          /\ item.(item_reason) = Some (str_of_exn e)
      else EscrowRoutes.reconcile_row w3 chain row (items0, s) = Raise e
  end.
Proof.
  unfold EscrowRoutes.reconcile_row, EscrowRoutes.read_onchain, reader_call.
  destruct (read_escrow_record_onchain w3 chain _ _) as [onchain|e]; simpl.
  - destruct (state onchain =? "none")%string;
      [|destruct (_ =? state onchain)%string];
      cbn; do 2 eexists; repeat split.
  - destruct (is_RuntimeError e); simpl; [|reflexivity].
    eexists; repeat split.
Qed.

Lemma engine_batch_survives (rows : list Supabase.ReservationRow) :
  only_runtime_errors w3 chain rows ->
  forall s, exists s',
    Monitor.for_rows w3 chain rows s = Ok s'
    /\ s'.(skipped)
       = s.(skipped)
         + Z.of_nat (List.length (filter (reader_runtime_error w3 chain) rows))
    /\ classified s' = classified s + Z.of_nat (List.length rows).
Proof.
  unfold only_runtime_errors.
  induction rows as [|row rows IH]; intros Hall s.
  - exists s. simpl. repeat split; lia.
  - assert (Hrest : forall r e, In r rows -> reader_call w3 chain r = Raise e ->
                                is_RuntimeError e = true)
      by (intros r e Hin; apply Hall; now right).
    cbn [Monitor.for_rows filter]. rewrite engine_row_by_reader.
    unfold reader_runtime_error at 1.
    destruct (reader_call w3 chain row) as [onchain|e] eqn:R.
    + destruct (state onchain =? "none")%string;
        [|destruct (_ =? state onchain)%string]; cbn [bind];
        match goal with
        | |- context [Monitor.for_rows w3 chain rows ?s1] =>
            destruct (IH Hrest s1) as (s' & -> & Hs & Hc)
        end;
        exists s'; unfold classified in *; simpl in *; repeat split; lia.
    + rewrite (Hall row e (or_introl eq_refl) R). cbn [bind].
      destruct (IH Hrest (incr_skipped s)) as (s' & -> & Hs & Hc).
      exists s'. unfold classified in *. simpl in *. repeat split; lia.
Qed.

Lemma listing_batch_survives (rows : list Supabase.ReservationRow) :
  only_runtime_errors w3 chain rows ->
  forall items0 s, exists items1 s',
    EscrowRoutes.for_rows w3 chain rows (items0, s) = Ok (items1, s')
    /\ s'.(skipped)
       = s.(skipped)
         + Z.of_nat (List.length (filter (reader_runtime_error w3 chain) rows))
    /\ List.length items1 = (List.length items0 + List.length rows)%nat.
Proof.
  unfold only_runtime_errors.
  induction rows as [|row rows IH]; intros Hall items0 s.
  - exists items0, s. simpl. repeat split; lia.
  - assert (Hrest : forall r e, In r rows -> reader_call w3 chain r = Raise e ->
                                is_RuntimeError e = true)
      by (intros r e Hin; apply Hall; now right).
    cbn [EscrowRoutes.for_rows filter].
    pose proof (listing_row_by_reader row items0 s) as Hrow.
    unfold reader_runtime_error at 1.
    destruct (reader_call w3 chain row) as [onchain|e] eqn:R.
    + destruct Hrow as (item & s1 & -> & Hsk & _). cbn [bind].
      destruct (IH Hrest (items0 ++ [item])%list s1) as (items1 & s' & -> & Hs & Hl).
      exists items1, s'. rewrite length_app in Hl. simpl in *.
      repeat split; lia.
    + rewrite (Hall row e (or_introl eq_refl) R) in *.
      destruct Hrow as (item & -> & _). cbn [bind].
      destruct (IH Hrest (items0 ++ [item])%list (incr_skipped s))
        as (items1 & s' & -> & Hs & Hl).
      exists items1, s'. rewrite length_app in Hl. simpl in *.
      repeat split; lia.
Qed.

End ReaderFailures.

(** C4 (as amended).  When the Record Reader raises a [RuntimeError] (the
    uniform error kind: missing dependency or configuration, unreachable
    RPC) on one booking, that booking is classified as skipped and the loop
    goes on with the next booking, in the engine and in the operator
    listing; a batch in which every reader failure is a [RuntimeError] is
    never aborted and classifies every fetched booking. *)
Theorem runtime_error_on_one_booking_is_skipped (w3 : Web3) (chain : ChainConfig) :
  (forall row rest s m,
      reader_call w3 chain row = Raise (RuntimeError m) ->
      Monitor.for_rows w3 chain (row :: rest) s
      = Monitor.for_rows w3 chain rest (incr_skipped s))
  /\ (forall row rest items0 s m,
      reader_call w3 chain row = Raise (RuntimeError m) ->
      exists item,
        item.(item_result) = "skipped"
        /\ item.(item_reason) = Some m
        /\ EscrowRoutes.for_rows w3 chain (row :: rest) (items0, s)
           = EscrowRoutes.for_rows w3 chain rest
               ((items0 ++ [item])%list, incr_skipped s))
  /\ (forall rows s,
      only_runtime_errors w3 chain rows ->
      exists s',
        Monitor.for_rows w3 chain rows s = Ok s'
        /\ s'.(skipped)
           = s.(skipped)
             + Z.of_nat (List.length (filter (reader_runtime_error w3 chain) rows))
        /\ classified s' = classified s + Z.of_nat (List.length rows))
  /\ (forall rows items0 s,
      only_runtime_errors w3 chain rows ->
      exists items1 s',
        EscrowRoutes.for_rows w3 chain rows (items0, s) = Ok (items1, s')
        /\ s'.(skipped)
           = s.(skipped)
             + Z.of_nat (List.length (filter (reader_runtime_error w3 chain) rows))
        /\ List.length items1 = (List.length items0 + List.length rows)%nat).
Proof.
  split; [|split; [|split]].
  - intros row rest s m R. cbn [Monitor.for_rows].
    rewrite engine_row_by_reader, R. reflexivity.
  - intros row rest items0 s m R. cbn [EscrowRoutes.for_rows].
    pose proof (listing_row_by_reader w3 chain row items0 s) as Hrow.
    rewrite R in Hrow. cbn [is_RuntimeError str_of_exn] in Hrow.
    destruct Hrow as (item & -> & Hres & Hreason).
    exists item. repeat split; assumption.
  - intros rows s Hall. now apply engine_batch_survives.
  - intros rows items0 s Hall. now apply listing_batch_survives.
Qed.

Lemma runtime_error_on_one_booking_is_skipped_witness :
  let w3 := Fixtures.offline (Fixtures.node Fixtures.ledger1 Fixtures.no_events (Some 1)) in
  exists s',
    Monitor.for_rows w3 Fixtures.sepolia0
      (Supabase.reservations Fixtures.two_bookings) (new_summary 2) = Ok s'
    /\ s'.(skipped) = 2
    /\ classified s' = 2.
Proof.
  intros w3.
  destruct (proj1 (proj2 (proj2 (runtime_error_on_one_booking_is_skipped
                                   w3 Fixtures.sepolia0)))
              (Supabase.reservations Fixtures.two_bookings) (new_summary 2))
    as (s' & Hrun & Hskipped & Hclassified).
  - intros row e [<-|[<-|[]]]; vm_compute; intros [= <-]; reflexivity.
  - exists s'. split; [exact Hrun|]. split; [exact Hskipped|exact Hclassified].
Defined.

(** C4 (as stated) fails: the read for booking [res-2] times out in the
    transport layer, which is not a [RuntimeError]; the engine and the
    listing both end with that exception instead of a summary, and booking
    [res-1], whose read would have succeeded, is never classified. *)
Lemma reader_timeout_aborts_batch :
  let w3 := Fixtures.node Fixtures.ledger_timeout Fixtures.no_events (Some 1) in
  let timeout := OtherException "ReadTimeout" "HTTPSConnectionPool: Read timed out." in
  reader_call w3 Fixtures.sepolia0
    (Fixtures.booking "res-2" "locked" (Some "0xhash2") None 200) = Raise timeout
  /\ is_Ok (reader_call w3 Fixtures.sepolia0
              (Fixtures.booking "res-1" "locked" (Some "0xhash1") None 100)) = true
  /\ dict_get "sepolia" (get_chain_registry Fixtures.settings0) = Some Fixtures.sepolia0
  /\ Monitor._build_summary Fixtures.settings0 Fixtures.two_bookings w3 "sepolia" 200
     = Raise timeout
  /\ EscrowRoutes.get_escrow_reconciliation Fixtures.settings0 Fixtures.two_bookings
       w3 (Some "sepolia") 20 0
     = Raise timeout.
Proof.
  cbv zeta. repeat split; vm_compute; reflexivity.
Qed.

(** ** Settlement client *)

Section EventDecoding.

Variable w3 : Web3.

Lemma decode_event_index_fallback (event : string) (receipt : Receipt) (e : exn) :
  decode_body w3 event receipt = Raise e ->
  decode_event_index w3 event receipt = Ok 0.
Proof. unfold decode_event_index. intros ->. reflexivity. Qed.

Lemma decode_event_index_total (event : string) (receipt : Receipt) :
  exists i, decode_event_index w3 event receipt = Ok i.
Proof.
  unfold decode_event_index.
  destruct (decode_body w3 event receipt); simpl; eexists; reflexivity.
Qed.

End EventDecoding.

(** C7.  For [lock], [release] and [refund]: when the transaction was sent
    and its receipt has success status, and decoding the emitted event logs
    raises any exception (from [process_receipt] or from reading
    [logIndex]), the operation raises nothing and returns the hex
    transaction hash, the resolved on-chain booking identifier and event
    index 0. *)
Theorem settlement_survives_event_decoding_failure
    (settings : Settings) (w3 : Web3) (chain : ChainConfig)
    (reservation_id : string) (account contract_address : string)
    (tx_hash_bytes : bytes) (receipt : Receipt) (e : exn) :
  signer_ready w3 chain account contract_address ->
  receipt_status receipt = 1 ->
  (forall recipient,
      w3.(to_checksum_address) account = Ok recipient ->
      submitted settings w3 chain account contract_address
        (CallLock (w3.(keccak_text) reservation_id) recipient)
        (Some settings.(escrow_lock_amount_wei)) 280000 tx_hash_bytes receipt ->
      decode_body w3 "EscrowLocked" receipt = Raise e ->
      lock_reservation_escrow_onchain settings w3 chain reservation_id
      = Ok {| lock_tx_hash := w3.(to_hex) tx_hash_bytes;
              lock_onchain_booking_id := w3.(to_hex) (w3.(keccak_text) reservation_id);
              lock_event_index := 0 |})
  /\ (forall supplied booking_id_bytes32 booking_id_hex,
      _resolve_booking_id_bytes w3 reservation_id supplied
      = Ok (booking_id_bytes32, booking_id_hex) ->
      submitted settings w3 chain account contract_address
        (CallRelease booking_id_bytes32) None 220000 tx_hash_bytes receipt ->
      decode_body w3 "EscrowReleased" receipt = Raise e ->
      release_reservation_escrow_onchain settings w3 chain reservation_id supplied
      = Ok {| tx_hash := w3.(to_hex) tx_hash_bytes;
              onchain_booking_id := booking_id_hex;
              event_index := 0 |})
  /\ (forall supplied booking_id_bytes32 booking_id_hex,
      _resolve_booking_id_bytes w3 reservation_id supplied
      = Ok (booking_id_bytes32, booking_id_hex) ->
      submitted settings w3 chain account contract_address
        (CallRefund booking_id_bytes32) None 220000 tx_hash_bytes receipt ->
      decode_body w3 "EscrowRefunded" receipt = Raise e ->
      refund_reservation_escrow_onchain settings w3 chain reservation_id supplied
      = Ok {| tx_hash := w3.(to_hex) tx_hash_bytes;
              onchain_booking_id := booking_id_hex;
              event_index := 0 |}).
Proof.
  intros (Himp & Hrpc & Haddr & Hkey & Hconn & Hacc & Hcontract) Hstatus.
  split; [|split].
  - intros recipient Hrecipient
      (nonce & fee & base & tx & signed & Hn & Hf & Hb & Htx & Hs & Hsend & Hwait) Hdecode.
    apply decode_event_index_fallback in Hdecode.
    unfold lock_reservation_escrow_onchain. replay. reflexivity.
  - intros supplied b32 bhex Hresolve
      (nonce & fee & base & tx & signed & Hn & Hf & Hb & Htx & Hs & Hsend & Hwait) Hdecode.
    apply decode_event_index_fallback in Hdecode.
    unfold release_reservation_escrow_onchain. replay. reflexivity.
  - intros supplied b32 bhex Hresolve
      (nonce & fee & base & tx & signed & Hn & Hf & Hb & Htx & Hs & Hsend & Hwait) Hdecode.
    apply decode_event_index_fallback in Hdecode.
    unfold refund_reservation_escrow_onchain. replay. reflexivity.
Qed.

Lemma settlement_survives_event_decoding_failure_witness :
  let w3 := Fixtures.node Fixtures.ledger1 Fixtures.decode_raises (Some 1) in
  lock_reservation_escrow_onchain Fixtures.settings0 w3 Fixtures.sepolia0 "res-1"
  = Ok {| lock_tx_hash := "0xtxhash";
          lock_onchain_booking_id := "0xkeccak:res-1";
          lock_event_index := 0 |}
  /\ release_reservation_escrow_onchain Fixtures.settings0 w3 Fixtures.sepolia0
       "res-1" (Some "0xABCD")
     = Ok {| tx_hash := "0xtxhash";
             onchain_booking_id := "0xabcd";
             event_index := 0 |}.
Proof.
  intros w3.
  destruct (settlement_survives_event_decoding_failure Fixtures.settings0 w3
              Fixtures.sepolia0 "res-1" "0xSigner"
              "0x1111111111111111111111111111111111111111"
              (list_byte_of_string "txhash")
              {| status := Some 1;
                 transactionHash := list_byte_of_string "txhash";
                 logs := [] |}
              (OtherException "MismatchedABI"
                 "The event signature did not match the provided ABI"))
    as (Hlock & Hrelease & _).
  - unfold signer_ready. repeat split; reflexivity.
  - reflexivity.
  - split.
    + apply (Hlock "0xSigner"); [reflexivity| |reflexivity].
      unfold submitted. repeat eexists.
    + apply (Hrelease (Some "0xABCD") (list_byte_of_string "0xABCD") "0xabcd");
        [reflexivity| |reflexivity].
      unfold submitted. repeat eexists.
Defined.

(** ** Booking identifier resolution *)

Section BookingIdResolution.

Variable settings : Settings.
Variable w3 : Web3.
Variable chain : ChainConfig.
Variable reservation_id : string.

Lemma startswith_0x_truthy (s : string) :
  startswith s "0x" = true -> truthy s = true.
Proof. destruct s; [discriminate|reflexivity]. Qed.

Lemma resolve_without_prefix (supplied : string) :
  startswith supplied "0x" = false ->
  _resolve_booking_id_bytes w3 reservation_id (Some supplied)
  = _resolve_booking_id_bytes w3 reservation_id None.
Proof.
  intros H. unfold _resolve_booking_id_bytes. rewrite H, andb_false_r. reflexivity.
Qed.

Lemma resolve_reports (supplied : option string) (b : bytes) (h : string) :
  _resolve_booking_id_bytes w3 reservation_id supplied = Ok (b, h) ->
  h = expected_booking_id_hex w3 reservation_id supplied.
Proof.
  unfold _resolve_booking_id_bytes, expected_booking_id_hex.
  destruct supplied as [s|]; [|now intros [= _ <-]].
  destruct (startswith s "0x") eqn:P.
  - rewrite (startswith_0x_truthy s P). simpl.
    destruct (to_bytes_hexstr w3 s); simpl; [|discriminate]. now intros [= _ <-].
  - rewrite andb_false_r. now intros [= _ <-].
Qed.

End BookingIdResolution.

(** C10.  In release, refund and read, a supplied on-chain booking
    identifier is used (decoded as given and reported lower-cased) exactly
    when it starts with ["0x"]; one that lacks the prefix changes nothing:
    the operation behaves as if none had been supplied and derives the
    identifier as the keccak hash of the reservation id.  Lock takes no
    identifier and always reports the hash. *)
Theorem supplied_booking_id_used_only_with_0x_prefix
    (settings : Settings) (w3 : Web3) (chain : ChainConfig) (reservation_id : string) :
  let hashed := w3.(keccak_text) reservation_id in
  (forall supplied,
      startswith supplied "0x" = true ->
      _resolve_booking_id_bytes w3 reservation_id (Some supplied)
      = (booking_id_bytes32 <- w3.(to_bytes_hexstr) supplied ;;
         Ok (booking_id_bytes32, lower supplied)))
  /\ _resolve_booking_id_bytes w3 reservation_id None = Ok (hashed, w3.(to_hex) hashed)
  /\ (forall supplied,
      startswith supplied "0x" = false ->
      _resolve_booking_id_bytes w3 reservation_id (Some supplied)
      = Ok (hashed, w3.(to_hex) hashed)
      /\ release_reservation_escrow_onchain settings w3 chain reservation_id (Some supplied)
         = release_reservation_escrow_onchain settings w3 chain reservation_id None
      /\ refund_reservation_escrow_onchain settings w3 chain reservation_id (Some supplied)
         = refund_reservation_escrow_onchain settings w3 chain reservation_id None
      /\ read_escrow_record_onchain w3 chain reservation_id (Some supplied)
         = read_escrow_record_onchain w3 chain reservation_id None)
  /\ (forall supplied res,
      release_reservation_escrow_onchain settings w3 chain reservation_id supplied = Ok res ->
      res.(onchain_booking_id) = expected_booking_id_hex w3 reservation_id supplied)
  /\ (forall supplied res,
      refund_reservation_escrow_onchain settings w3 chain reservation_id supplied = Ok res ->
      res.(onchain_booking_id) = expected_booking_id_hex w3 reservation_id supplied)
  /\ (forall supplied record,
      read_escrow_record_onchain w3 chain reservation_id supplied = Ok record ->
      record.(booking_id) = expected_booking_id_hex w3 reservation_id supplied)
  /\ (forall res,
      lock_reservation_escrow_onchain settings w3 chain reservation_id = Ok res ->
      res.(lock_onchain_booking_id) = w3.(to_hex) hashed).
Proof.
  intros hashed. repeat apply conj.
  - intros supplied P. unfold _resolve_booking_id_bytes.
    rewrite P, (startswith_0x_truthy supplied P). reflexivity.
  - reflexivity.
  - intros supplied P. repeat apply conj.
    + rewrite resolve_without_prefix by assumption. reflexivity.
    + unfold release_reservation_escrow_onchain.
      rewrite resolve_without_prefix by assumption. reflexivity.
    + unfold refund_reservation_escrow_onchain.
      rewrite resolve_without_prefix by assumption. reflexivity.
    + unfold read_escrow_record_onchain.
      rewrite resolve_without_prefix by assumption. reflexivity.
  - intros supplied res. unfold release_reservation_escrow_onchain. unwind.
    intros [= <-]. simpl. eapply resolve_reports; eassumption.
  - intros supplied res. unfold refund_reservation_escrow_onchain. unwind.
    intros [= <-]. simpl. eapply resolve_reports; eassumption.
  - intros supplied record. unfold read_escrow_record_onchain. unwind.
    intros [= <-]. simpl. eapply resolve_reports; eassumption.
  - intros res. unfold lock_reservation_escrow_onchain. unwind.
    intros [= <-]. reflexivity.
Qed.

Lemma supplied_booking_id_used_only_with_0x_prefix_witness :
  let w3 := Fixtures.node Fixtures.ledger1 Fixtures.no_events (Some 1) in
  _resolve_booking_id_bytes w3 "res-1" (Some "0xABCD")
  = Ok (list_byte_of_string "0xABCD", "0xabcd")
  /\ read_escrow_record_onchain w3 Fixtures.sepolia0 "res-1" (Some "0XABCD")
     = read_escrow_record_onchain w3 Fixtures.sepolia0 "res-1" None
  /\ (forall res,
       release_reservation_escrow_onchain Fixtures.settings0 w3 Fixtures.sepolia0
         "res-1" (Some "abcd") = Ok res ->
       res.(onchain_booking_id) = "0xkeccak:res-1").
Proof.
  intros w3.
  destruct (supplied_booking_id_used_only_with_0x_prefix Fixtures.settings0 w3
              Fixtures.sepolia0 "res-1")
    as (Hprefix & _ & Hignored & Hrelease & _).
  split; [exact (Hprefix "0xABCD" eq_refl)|].
  split; [exact (proj2 (proj2 (proj2 (Hignored "0XABCD" eq_refl))))|].
  intros res Hres. exact (Hrelease (Some "abcd") res Hres).
Defined.

(** ** Shadow cleanup *)

Lemma eq__Some (col : option string) (v : string) :
  Supabase.eq_ col v = true <-> col = Some v.
Proof.
  destruct col as [s|]; simpl; [|split; discriminate].
  rewrite String.eqb_eq. split; [now intros ->|now intros [= ->]].
Qed.

Lemma is_none_None {A} (x : option A) : Supabase.is_none x = true <-> x = None.
Proof. destruct x; simpl; split; congruence. Qed.

Lemma shadow_cleared_iff (r : Supabase.ReservationRow) :
  Supabase.shadow_cleared r = true <-> read_back_cleared r.
Proof.
  unfold Supabase.shadow_cleared, read_back_cleared.
  rewrite !andb_true_iff, String.eqb_eq, !is_none_None. tauto.
Qed.

Lemma firstn_1_filter {A} (f : A -> bool) (l : list A) :
  firstn 1 (filter f l) = match find f l with Some x => [x] | None => [] end.
Proof.
  induction l as [|x l IH]; simpl; [reflexivity|].
  destruct (f x); [reflexivity|exact IH].
Qed.

Section ShadowCleanup.

Variable reservation_id0 chain_key0 expected_tx_hash : string.

Let guard := Supabase.clear_guard reservation_id0 chain_key0 expected_tx_hash.
Let has_id := fun r : Supabase.ReservationRow =>
  (r.(Supabase.reservation_id) =? reservation_id0)%string.

Lemma clear_guard_iff (r : Supabase.ReservationRow) :
  guard r = true <-> guard_matches reservation_id0 chain_key0 expected_tx_hash r.
Proof.
  unfold guard, Supabase.clear_guard, guard_matches.
  rewrite !andb_true_iff, String.eqb_eq, !eq__Some. tauto.
Qed.

Lemma update_where_Forall2 (table : list Supabase.ReservationRow) :
  Forall2 (fun r r' =>
             (guard_matches reservation_id0 chain_key0 expected_tx_hash r
              /\ r' = Supabase.cleared r)
             \/ (~ guard_matches reservation_id0 chain_key0 expected_tx_hash r
                 /\ r' = r))
    table (Supabase.update_where guard Supabase.cleared table).
Proof.
  induction table as [|r table IH]; simpl; constructor; [|exact IH].
  destruct (guard r) eqn:G.
  - left. split; [now apply clear_guard_iff|reflexivity].
  - right. split; [|reflexivity].
    intros Hm. apply clear_guard_iff in Hm. congruence.
Qed.

Lemma find_update_where (table : list Supabase.ReservationRow) :
  find has_id (Supabase.update_where guard Supabase.cleared table)
  = option_map (fun r => if guard r then Supabase.cleared r else r)
      (find has_id table).
Proof.
  induction table as [|r table IH]; simpl; [reflexivity|].
  assert (E : has_id (if guard r then Supabase.cleared r else r) = has_id r)
    by (destruct (guard r); reflexivity).
  rewrite E. destruct (has_id r); [reflexivity|exact IH].
Qed.

(** The call on a reachable, configured store. *)
Lemma clear_on_reachable_store (settings : Settings) (db : Supabase.Store) :
  Supabase._can_connect settings = true ->
  db.(Supabase.outage) = None ->
  Supabase.clear_reservation_shadow_escrow_metadata settings db
    reservation_id0 chain_key0 expected_tx_hash
  = (Ok match option_map (fun r => if guard r then Supabase.cleared r else r)
                (row_of reservation_id0 db) with
        | Some row => Supabase.shadow_cleared row
        | None => false
        end,
     {| Supabase.reservations :=
          Supabase.update_where guard Supabase.cleared db.(Supabase.reservations);
        Supabase.outage := None |}).
Proof.
  intros Hc Ho.
  unfold Supabase.clear_reservation_shadow_escrow_metadata, Supabase.request,
    Supabase.as_runtime_error.
  rewrite Hc, Ho. cbn [bind try_except Supabase.reservations Supabase.outage].
  rewrite firstn_1_filter. fold guard. fold has_id.
  rewrite find_update_where. unfold row_of. fold has_id.
  destruct (find has_id (Supabase.reservations db)); reflexivity.
Qed.

End ShadowCleanup.

(** C8 (as amended).  On a reachable store, [clearShadow] resets the escrow
    fields to the none state for exactly the rows that match the
    reservation, the chain key, the [pending_lock] state and the expected
    transaction hash, and leaves every other row as it is; its boolean is
    true exactly when the row read back after the write has state [none]
    (in any letter case) and no chain key, transaction hash or on-chain
    booking identifier; in particular it is false, and the row is
    untouched, when the record carries a different, non-null transaction
    hash at the time of the clear attempt. *)
Theorem clear_shadow_guarded_and_reports_read_back
    (settings : Settings) (db : Supabase.Store)
    (reservation_id0 chain_key0 expected_tx_hash : string) :
  Supabase._can_connect settings = true ->
  db.(Supabase.outage) = None ->
  let call := Supabase.clear_reservation_shadow_escrow_metadata settings db
                reservation_id0 chain_key0 expected_tx_hash in
  Forall2 (fun r r' =>
             (guard_matches reservation_id0 chain_key0 expected_tx_hash r
              /\ r' = Supabase.cleared r)
             \/ (~ guard_matches reservation_id0 chain_key0 expected_tx_hash r
                 /\ r' = r))
    db.(Supabase.reservations) (snd call).(Supabase.reservations)
  /\ (exists b,
        fst call = Ok b
        /\ (b = true <->
            exists row, row_of reservation_id0 (snd call) = Some row
                        /\ read_back_cleared row))
  /\ (forall row h,
        row_of reservation_id0 db = Some row ->
        row.(Supabase.chain_tx_hash) = Some h ->
        h <> expected_tx_hash ->
        fst call = Ok false /\ row_of reservation_id0 (snd call) = Some row).
Proof.
  intros Hc Ho call. subst call.
  rewrite (clear_on_reachable_store _ _ _ settings db Hc Ho).
  cbn [fst snd Supabase.reservations].
  assert (Hback :
    row_of reservation_id0
      {| Supabase.reservations :=
           Supabase.update_where
             (Supabase.clear_guard reservation_id0 chain_key0 expected_tx_hash)
             Supabase.cleared (Supabase.reservations db);
         Supabase.outage := None |}
    = option_map
        (fun r => if Supabase.clear_guard reservation_id0 chain_key0 expected_tx_hash r
                  then Supabase.cleared r else r)
        (row_of reservation_id0 db))
    by (unfold row_of; cbn [Supabase.reservations]; apply find_update_where).
  rewrite Hback.
  split; [apply update_where_Forall2|]. split.
  - eexists. split; [reflexivity|].
    destruct (option_map _ (row_of reservation_id0 db)) as [row|].
    + rewrite shadow_cleared_iff. split.
      * intros H. exists row. split; [reflexivity|exact H].
      * intros (row' & [= <-] & H). exact H.
    + split; [discriminate|]. intros (row' & [=] & _).
  - intros row h Hrow Htx Hne. rewrite Hrow. cbn [option_map].
    assert (G : Supabase.clear_guard reservation_id0 chain_key0 expected_tx_hash row
                = false).
    { destruct (Supabase.clear_guard _ _ _ row) eqn:G; [|reflexivity].
      apply clear_guard_iff in G. destruct G as (_ & _ & _ & G).
      rewrite Htx in G. injection G as ->. contradiction. }
    rewrite G. split; [|reflexivity].
    unfold Supabase.shadow_cleared. rewrite Htx. simpl.
    rewrite andb_false_r. reflexivity.
Qed.

Lemma clear_shadow_guarded_and_reports_read_back_witness :
  let db := Fixtures.table [Fixtures.settled_row] in
  let call := Supabase.clear_reservation_shadow_escrow_metadata Fixtures.settings0 db
                "res-a" "sepolia" "shadow-a" in
  fst call = Ok false /\ row_of "res-a" (snd call) = Some Fixtures.settled_row.
Proof.
  intros db call.
  destruct (clear_shadow_guarded_and_reports_read_back Fixtures.settings0 db
              "res-a" "sepolia" "shadow-a" eq_refl eq_refl)
    as (_ & _ & Hchanged).
  apply (Hchanged Fixtures.settled_row "0xrealhash"); [reflexivity|reflexivity|].
  discriminate.
Defined.

(** C8 (as stated) fails twice.  A row discovered as a stale shadow and
    then cleared by another cleanup process has had its transaction hash
    changed (to null) by the time of the clear attempt, yet the call
    returns true; and a row whose chain id and contract address are still
    set is reported as cleared, because the read-back only looks at the
    state, the chain key, the hash and the booking identifier. *)
Lemma clear_shadow_true_after_concurrent_change :
  let at_discovery := Fixtures.table [Fixtures.shadow_row] in
  let at_clear := Fixtures.table [Supabase.cleared Fixtures.shadow_row] in
  let leftover := Fixtures.table [Fixtures.half_cleared_row] in
  Supabase.list_reservations_for_shadow_cleanup Fixtures.settings0 at_discovery
    "sepolia" 100 = Ok [Fixtures.shadow_row]
  /\ row_of "res-a" at_clear = Some (Supabase.cleared Fixtures.shadow_row)
  /\ (Supabase.cleared Fixtures.shadow_row).(Supabase.chain_tx_hash)
     <> Fixtures.shadow_row.(Supabase.chain_tx_hash)
  /\ fst (Supabase.clear_reservation_shadow_escrow_metadata Fixtures.settings0
            at_clear "res-a" "sepolia" "shadow-a") = Ok true
  /\ fst (Supabase.clear_reservation_shadow_escrow_metadata Fixtures.settings0
            leftover "res-a" "sepolia" "shadow-a") = Ok true
  /\ row_of "res-a"
       (snd (Supabase.clear_reservation_shadow_escrow_metadata Fixtures.settings0
               leftover "res-a" "sepolia" "shadow-a"))
     = Some Fixtures.half_cleared_row
  /\ Fixtures.half_cleared_row.(Supabase.chain_id) = Some 11155111.
Proof.
  cbv zeta. repeat split; try (vm_compute; reflexivity). discriminate.
Qed.

(* ===================================================================== *)
(** * Further properties of the code *)
(* ===================================================================== *)

(** ** Record reader *)

Lemma state_map_get_range (i : Z) : In (state_map_get i) onchain_states.
Proof.
  unfold state_map_get, onchain_states.
  destruct (i =? 0); [now left|].
  destruct (i =? 1); [right; now left|].
  destruct (i =? 2); [do 2 right; now left|].
  destruct (i =? 3); [do 3 right; now left|now left].
Qed.

Lemma reader_states_aux (w3 : Web3) (chain : ChainConfig) (reservation_id : string)
    (supplied : option string) (record : OnchainEscrowRecord) :
  read_escrow_record_onchain w3 chain reservation_id supplied = Ok record ->
  In record.(state) onchain_states.
Proof.
  unfold read_escrow_record_onchain. unwind.
  intros [= <-]. apply state_map_get_range.
Qed.

(** X1.  Whatever tuple the contract call returns, the record read has one
    of the states none, locked, released and refunded; and an exception of
    the reader is either one of its own [RuntimeError]s or the exception
    raised by the address check, the hex decoding or the contract call. *)
Theorem reader_states_and_failures
    (w3 : Web3) (chain : ChainConfig) (reservation_id : string)
    (supplied : option string) :
  (forall record,
      read_escrow_record_onchain w3 chain reservation_id supplied = Ok record ->
      In record.(state) onchain_states)
  /\ (forall e,
      read_escrow_record_onchain w3 chain reservation_id supplied = Raise e ->
      is_RuntimeError e = true
      \/ w3.(to_checksum_address) chain.(Chains.escrow_contract_address) = Raise e
      \/ (exists s, supplied = Some s /\ w3.(to_bytes_hexstr) s = Raise e)
      \/ (exists address id, w3.(escrows_call) chain.(rpc_url) address id = Raise e)).
Proof.
  split.
  - intros record. apply reader_states_aux.
  - intros e. unfold read_escrow_record_onchain.
    destruct (importable w3); [|intros [= <-]; now left].
    destruct (truthy (rpc_url chain)); [|intros [= <-]; now left].
    destruct (truthy (Chains.escrow_contract_address chain)); [|intros [= <-]; now left].
    destruct (is_connected w3 (rpc_url chain)); [|intros [= <-]; now left].
    destruct (to_checksum_address w3 _) as [address|e0] eqn:A; cbn [bind];
      [|intros [= <-]; right; now left].
    destruct (_resolve_booking_id_bytes w3 reservation_id supplied)
      as [[b h]|e0] eqn:R; cbn [bind].
    + destruct (escrows_call w3 (rpc_url chain) address b) as [row|e0] eqn:C;
        cbn [bind]; [discriminate|].
      intros [= <-]. do 3 right. now exists address, b.
    + intros [= <-]. do 2 right. left.
      unfold _resolve_booking_id_bytes in R.
      destruct supplied as [s|]; [|discriminate].
      destruct (truthy s && startswith s "0x"); [|discriminate].
      exists s. split; [reflexivity|].
      destruct (to_bytes_hexstr w3 s); [discriminate|]. cbn [bind] in R. congruence.
Qed.

Lemma reader_states_and_failures_witness :
  let w3 := Fixtures.node Fixtures.ledger1 Fixtures.no_events (Some 1) in
  exists record,
    read_escrow_record_onchain w3 Fixtures.sepolia0 "res-1" None = Ok record
    /\ In record.(state) onchain_states.
Proof.
  intros w3. eexists. split.
  - vm_compute. reflexivity.
  - refine (proj1 (reader_states_and_failures w3 Fixtures.sepolia0 "res-1" None) _ _).
    vm_compute. reflexivity.
Defined.

(** ** Operator listing *)

Section ListingItems.

Variable w3 : Web3.
Variable chain : ChainConfig.

Lemma three_of_four (st : string) :
  In st onchain_states -> (st =? "none")%string = false ->
  In st ["locked"; "released"; "refunded"].
Proof.
  intros [<-|H] Hn; [discriminate|exact H].
Qed.

Lemma read_onchain_state (row : Supabase.ReservationRow) (onchain : OnchainEscrowRecord) :
  EscrowRoutes.read_onchain w3 chain row = Ok (inl onchain) ->
  In onchain.(state) onchain_states.
Proof.
  unfold EscrowRoutes.read_onchain.
  destruct (read_escrow_record_onchain w3 chain _ _) as [rec|e] eqn:R; simpl.
  - intros [= <-]. eapply reader_states_aux; eassumption.
  - destruct (is_RuntimeError e); discriminate.
Qed.

(** One pass of the listing loop appends one consistent item and moves the
    counter of its result. *)
Lemma listing_row_item (row : Supabase.ReservationRow)
    (items0 : list EscrowReconciliationItem) (s : EscrowReconciliationSummary)
    (items1 : list EscrowReconciliationItem) (s1 : EscrowReconciliationSummary) :
  EscrowRoutes.reconcile_row w3 chain row (items0, s) = Ok (items1, s1) ->
  exists item,
    items1 = (items0 ++ [item])%list
    /\ item_consistent item
    /\ s1.(match_) = s.(match_) + count_result "match" [item]
    /\ s1.(mismatch) = s.(mismatch) + count_result "mismatch" [item]
    /\ s1.(missing_onchain) = s.(missing_onchain) + count_result "missing_onchain" [item]
    /\ s1.(skipped) = s.(skipped) + count_result "skipped" [item].
Proof.
  unfold EscrowRoutes.reconcile_row.
  destruct (EscrowRoutes.read_onchain w3 chain row) as [[onchain|msg]|e] eqn:R;
    cbn [bind]; [| |discriminate].
  - pose proof (read_onchain_state row onchain R) as Hst.
    destruct (state onchain =? "none")%string eqn:N.
    + cbn. intros [= <- <-]. eexists. split; [reflexivity|].
      apply String.eqb_eq in N. unfold item_consistent, count_result. cbn.
      rewrite N. repeat split; try lia. right. left. split; reflexivity.
    + destruct (_ =? state onchain)%string eqn:M.
      * cbn. intros [= <- <-]. eexists. split; [reflexivity|].
        apply String.eqb_eq in M. unfold item_consistent, count_result. cbn.
        repeat split; try lia. do 2 right. left.
        rewrite M. repeat split. now apply three_of_four.
      * cbn. intros [= <- <-]. eexists. split; [reflexivity|].
        unfold item_consistent, count_result. cbn.
        repeat split; try lia. do 3 right. split; [reflexivity|].
        exists (state onchain). repeat split; [now apply three_of_four|].
        intros E. rewrite E, String.eqb_refl in M. discriminate.
  - cbn. intros [= <- <-]. eexists. split; [reflexivity|].
    unfold item_consistent, count_result. cbn.
    repeat split; try lia. left. split; reflexivity.
Qed.

Lemma count_result_app (res : string) (l1 l2 : list EscrowReconciliationItem) :
  count_result res (l1 ++ l2) = count_result res l1 + count_result res l2.
Proof.
  unfold count_result. rewrite filter_app, length_app. lia.
Qed.

Lemma listing_loop_items (rows : list Supabase.ReservationRow) :
  forall items0 s items1 s1,
    EscrowRoutes.for_rows w3 chain rows (items0, s) = Ok (items1, s1) ->
    exists new,
      items1 = (items0 ++ new)%list
      /\ Forall item_consistent new
      /\ s1.(match_) = s.(match_) + count_result "match" new
      /\ s1.(mismatch) = s.(mismatch) + count_result "mismatch" new
      /\ s1.(missing_onchain) = s.(missing_onchain) + count_result "missing_onchain" new
      /\ s1.(skipped) = s.(skipped) + count_result "skipped" new.
Proof.
  induction rows as [|row rows IH]; intros items0 s items1 s1; cbn [EscrowRoutes.for_rows].
  - intros [= <- <-]. exists []. rewrite app_nil_r.
    unfold count_result. simpl. repeat split; try lia. constructor.
  - destruct (EscrowRoutes.reconcile_row w3 chain row (items0, s))
      as [[items' s']|e] eqn:E; cbn [bind]; [|discriminate].
    intros H. apply listing_row_item in E.
    destruct E as (item & -> & Hitem & Hm & Hx & Hn & Hk).
    apply IH in H. destruct H as (new & -> & Hnew & Hm' & Hx' & Hn' & Hk').
    exists (item :: new). rewrite <- app_assoc. split; [reflexivity|].
    split; [now constructor|].
    change (item :: new) with ([item] ++ new)%list.
    rewrite !count_result_app. repeat split; lia.
Qed.

End ListingItems.

(** X2.  In a listing response every item is consistent with its result
    (skipped: no on-chain state shown; missing_onchain: on-chain state none;
    match: on-chain state equal to the local one and one of locked,
    released, refunded; mismatch: an on-chain state among these three that
    differs from the local one), and each counter of the summary is the
    number of listed items with that result. *)
Theorem listing_items_explain_summary
    (settings : Settings) (db : Supabase.Store) (w3 : Web3)
    (ck : option string) (limit0 offset0 : Z) (r : EscrowReconciliationResponse) :
  EscrowRoutes.get_escrow_reconciliation settings db w3 ck limit0 offset0 = Ok r ->
  Forall item_consistent r.(items)
  /\ r.(summary).(match_) = count_result "match" r.(items)
  /\ r.(summary).(mismatch) = count_result "mismatch" r.(items)
  /\ r.(summary).(missing_onchain) = count_result "missing_onchain" r.(items)
  /\ r.(summary).(skipped) = count_result "skipped" r.(items).
Proof.
  intros H. apply get_escrow_reconciliation_Ok in H.
  destruct H as (active & k & chain & rows & total0 & items0 & s1
                 & _ & _ & _ & _ & _ & _ & Hloop & Hi & _ & Hs).
  apply listing_loop_items in Hloop.
  destruct Hloop as (new & Hnew & Hall & Hm & Hx & Hn & Hk).
  simpl in Hnew. subst items0. rewrite Hi, Hs. simpl in *.
  repeat split; try assumption; lia.
Qed.

Lemma listing_items_explain_summary_witness :
  exists r,
    EscrowRoutes.get_escrow_reconciliation Fixtures.settings0 Fixtures.two_bookings
      (Fixtures.node Fixtures.ledger1 Fixtures.no_events (Some 1)) None 20 0 = Ok r
    /\ Forall item_consistent r.(items)
    /\ r.(summary).(match_) = count_result "match" r.(items).
Proof.
  eexists. split.
  - vm_compute. reflexivity.
  - refine (let H := listing_items_explain_summary Fixtures.settings0
                       Fixtures.two_bookings
                       (Fixtures.node Fixtures.ledger1 Fixtures.no_events (Some 1))
                       None 20 0 _ _ in
            conj (proj1 H) (proj1 (proj2 H))).
    vm_compute. reflexivity.
Defined.



(** ** Engine and listing side by side *)

Lemma registry_key_cases (settings : Settings) (k : string) (c : ChainConfig) :
  dict_get k (get_chain_registry settings) = Some c ->
  (k = "sepolia" \/ k = "amoy") /\ c.(key) = k.
Proof.
  unfold get_chain_registry. cbn [dict_get].
  destruct (k =? "sepolia")%string eqn:E1.
  - apply String.eqb_eq in E1. intros [= <-]. split; [now left|now subst].
  - destruct (k =? "amoy")%string eqn:E2; [|discriminate].
    apply String.eqb_eq in E2. intros [= <-]. split; [now right|now subst].
Qed.

Lemma registry_key_lower (settings : Settings) (k : string) (c : ChainConfig) :
  dict_get k (get_chain_registry settings) = Some c ->
  lower (opt_or (Some k) "") = k /\ forall d, lower (opt_or (Some k) d) = k.
Proof.
  intros H. apply registry_key_cases in H. destruct H as [[-> | ->] _];
    split; try reflexivity; intros d; reflexivity.
Qed.

Section SideBySide.

Variable w3 : Web3.
Variable chain : ChainConfig.

Lemma listing_row_as_engine (row : Supabase.ReservationRow)
    (items0 : list EscrowReconciliationItem) (s : EscrowReconciliationSummary) :
  Monitor.reconcile_row w3 chain row s
  = match EscrowRoutes.reconcile_row w3 chain row (items0, s) with
    | Ok acc => Ok (snd acc)
    | Raise e => Raise e
    end.
Proof.
  unfold Monitor.reconcile_row, Monitor.read_state,
    EscrowRoutes.reconcile_row, EscrowRoutes.read_onchain.
  destruct (read_escrow_record_onchain w3 chain _ _) as [onchain|e]; simpl.
  - destruct (state onchain =? "none")%string; [reflexivity|].
    destruct (_ =? state onchain)%string; reflexivity.
  - destruct (is_RuntimeError e); reflexivity.
Qed.

Lemma listing_loop_as_engine (rows : list Supabase.ReservationRow) :
  forall items0 s,
    Monitor.for_rows w3 chain rows s
    = match EscrowRoutes.for_rows w3 chain rows (items0, s) with
      | Ok acc => Ok (snd acc)
      | Raise e => Raise e
      end.
Proof.
  induction rows as [|row rows IH]; intros items0 s; [reflexivity|].
  cbn [Monitor.for_rows EscrowRoutes.for_rows].
  rewrite (listing_row_as_engine row items0 s).
  destruct (EscrowRoutes.reconcile_row w3 chain row (items0, s)) as [[items1 s1]|e];
    cbn [bind snd]; [apply IH|reflexivity].
Qed.

End SideBySide.

(** X4.  The engine and the operator listing classify alike: for a chain
    key of the registry and a page within the listing's bounds, the engine
    returns a summary exactly when the listing of the first page of that
    chain returns a response, and the two summaries are equal. *)
Theorem engine_and_listing_agree
    (settings : Settings) (db : Supabase.Store) (w3 : Web3)
    (k : string) (limit0 : Z) :
  EscrowRoutes.valid_query limit0 0 = true ->
  dict_mem k (get_chain_registry settings) = true ->
  (forall s,
      Monitor._build_summary settings db w3 k limit0 = Ok s ->
      exists r,
        EscrowRoutes.get_escrow_reconciliation settings db w3 (Some k) limit0 0 = Ok r
        /\ r.(summary) = s)
  /\ (forall r,
      EscrowRoutes.get_escrow_reconciliation settings db w3 (Some k) limit0 0 = Ok r ->
      Monitor._build_summary settings db w3 k limit0 = Ok r.(summary)).
Proof.
  intros V Hmem. unfold dict_mem in Hmem.
  destruct (dict_get k (get_chain_registry settings)) as [chain|] eqn:D; [|discriminate].
  destruct (registry_key_lower settings k chain D) as [_ Hlow].
  destruct (get_active_chain_Ok settings) as [active Hactive].
  assert (Hlisting :
    EscrowRoutes.get_escrow_reconciliation settings db w3 (Some k) limit0 0
    = (check chain.(Chains.enabled) else_raise
         HTTPException 400 ("Chain '" ++ k ++ "' is disabled.") ;;
       page <- try_except
                 (Supabase.list_reservations_for_escrow_reconciliation settings db k limit0 0)
                 is_RuntimeError
                 (fun exc => Raise (HTTPException 503 (str_of_exn exc))) ;;
       let '(rows, total0) := page in
       acc <- EscrowRoutes.for_rows w3 chain rows ([], new_summary total0) ;;
       let '(items0, summary0) := acc in
       Ok {| items := items0; count := total0; resp_limit := limit0; resp_offset := 0;
             has_more := 0 + Z.of_nat (List.length items0) <? total0;
             summary :=
               {| total := summary0.(total); match_ := summary0.(match_);
                  mismatch := summary0.(mismatch);
                  missing_onchain := summary0.(missing_onchain);
                  skipped := summary0.(skipped);
                  alert := 0 <? summary0.(mismatch) + summary0.(missing_onchain) |} |})).
  { unfold EscrowRoutes.get_escrow_reconciliation.
    rewrite V, Hactive. cbn [bind]. rewrite (Hlow (key active)), D. reflexivity. }
  rewrite Hlisting. unfold Monitor._build_summary. rewrite D.
  destruct (Chains.enabled chain); [|split; intros ?; discriminate].
  destruct (Supabase.list_reservations_for_escrow_reconciliation settings db k limit0 0)
    as [[rows total0]|e]; cbn [bind try_except].
  - rewrite (listing_loop_as_engine w3 chain rows [] (new_summary total0)).
    destruct (EscrowRoutes.for_rows w3 chain rows ([], new_summary total0))
      as [[items0 s1]|e]; cbn [bind snd].
    + split.
      * intros s [= <-]. eexists. split; [reflexivity|]. reflexivity.
      * intros r [= <-]. reflexivity.
    + split; intros ?; discriminate.
  - split; [intros ?; discriminate|].
    destruct (is_RuntimeError e); intros ?; discriminate.
Qed.

Lemma engine_and_listing_agree_witness :
  let w3 := Fixtures.node Fixtures.ledger1 Fixtures.no_events (Some 1) in
  exists r,
    EscrowRoutes.get_escrow_reconciliation Fixtures.settings0 Fixtures.two_bookings
      w3 (Some "sepolia") 200 0 = Ok r
    /\ Monitor._build_summary Fixtures.settings0 Fixtures.two_bookings w3 "sepolia" 200
       = Ok r.(summary).
Proof.
  intros w3. eexists. split; [vm_compute; reflexivity|].
  refine (proj2 (engine_and_listing_agree Fixtures.settings0 Fixtures.two_bookings
                   w3 "sepolia" 200 eq_refl eq_refl) _ _).
  vm_compute. reflexivity.
Defined.

(** ** Rows that cannot match *)

Lemma insert_desc_In (r x : Supabase.ReservationRow) (l : list Supabase.ReservationRow) :
  In x (Supabase.insert_desc r l) <-> x = r \/ In x l.
Proof.
  induction l as [|y l IH]; simpl.
  - split; [intros [<-|[]]; now left|intros [->|[]]; now left].
  - destruct (Supabase.created_at y <? Supabase.created_at r); simpl.
    + split; [intros [<-|H]; [now left|now right]|intros [->|H]; [now left|now right]].
    + rewrite IH. split.
      * intros [<-|[->|H]]; [right; now left|now left|right; now right].
      * intros [->|[<-|H]]; [right; now left|now left|right; now right].
Qed.

Lemma order_created_at_desc_In (x : Supabase.ReservationRow)
    (l : list Supabase.ReservationRow) :
  In x (Supabase.order_created_at_desc l) <-> In x l.
Proof.
  unfold Supabase.order_created_at_desc.
  induction l as [|y l IH]; simpl; [tauto|].
  rewrite insert_desc_In, IH. split; intros [H|H]; auto.
Qed.

Lemma range_In {A} (first last : Z) (x : A) (l : list A) :
  In x (Supabase.range first last l) -> In x l.
Proof.
  unfold Supabase.range. intros H.
  rewrite <- (firstn_skipn (Z.to_nat first) l). apply in_or_app. right.
  rewrite <- (firstn_skipn (Z.to_nat (last - first + 1)) (skipn (Z.to_nat first) l)).
  apply in_or_app. now left.
Qed.

(** The rows of a fetched page are candidates of the table. *)
Lemma page_rows_are_candidates (settings : Settings) (db : Supabase.Store)
    (k : string) (limit0 offset0 : Z) (rows : list Supabase.ReservationRow) (total0 : Z) :
  Supabase.list_reservations_for_escrow_reconciliation settings db k limit0 offset0
  = Ok (rows, total0) ->
  forall r, In r rows ->
    In r db.(Supabase.reservations) /\ Supabase.escrow_candidate k r = true.
Proof.
  intros H r Hin.
  apply list_reservations_for_escrow_reconciliation_Ok in H. destruct H as [-> _].
  apply range_In in Hin.
  apply (proj1 (order_created_at_desc_In _ _)) in Hin.
  now apply (proj1 (filter_In _ _ _)) in Hin.
Qed.

Section NeverMatch.

Variable w3 : Web3.
Variable chain : ChainConfig.

Lemma settled_locally_of_state (row : Supabase.ReservationRow) (st : string) :
  In st ["locked"; "released"; "refunded"] ->
  opt_or row.(Supabase.escrow_state) "none" = st ->
  settled_locally row = true.
Proof.
  unfold settled_locally, Supabase.in_, opt_or, or_str, truthy.
  destruct (Supabase.escrow_state row) as [s|].
  - destruct (s =? "")%string eqn:E; simpl.
    + intros [<-|[<-|[<-|[]]]]; discriminate.
    + intros Hin ->. destruct Hin as [<-|[<-|[<-|[]]]]; reflexivity.
  - intros [<-|[<-|[<-|[]]]]; discriminate.
Qed.

Lemma engine_row_match (row : Supabase.ReservationRow)
    (s s' : EscrowReconciliationSummary) :
  Monitor.reconcile_row w3 chain row s = Ok s' ->
  settled_locally row = false ->
  s'.(match_) = s.(match_).
Proof.
  rewrite engine_row_by_reader. unfold reader_call.
  destruct (read_escrow_record_onchain w3 chain _ _) as [onchain|e] eqn:R.
  - destruct (state onchain =? "none")%string eqn:N; [now intros [= <-]|].
    destruct (_ =? state onchain)%string eqn:M; [|now intros [= <-]].
    intros _ Hs. exfalso.
    apply String.eqb_eq in M.
    pose proof (three_of_four _ (reader_states_aux _ _ _ _ _ R) N) as H3.
    rewrite (settled_locally_of_state row _ H3 M) in Hs. discriminate.
  - destruct (is_RuntimeError e); [now intros [= <-]|discriminate].
Qed.

Lemma engine_loop_match (rows : list Supabase.ReservationRow) :
  forall s s',
    Monitor.for_rows w3 chain rows s = Ok s' ->
    (forall r, In r rows -> settled_locally r = false) ->
    s'.(match_) = s.(match_).
Proof.
  induction rows as [|row rows IH]; intros s s'; cbn [Monitor.for_rows].
  - now intros [= <-].
  - destruct (Monitor.reconcile_row w3 chain row s) as [s1|e] eqn:E; cbn [bind];
      [|discriminate].
    intros H Hall.
    rewrite (IH _ _ H (fun r Hr => Hall r (or_intror Hr))).
    apply (engine_row_match row s s1 E). apply Hall. now left.
Qed.

End NeverMatch.

(** X5.  A booking whose local escrow state is not locked, released or
    refunded is never classified as a match: when every candidate of the
    chain is in state pending_lock or failed, the engine's summary has
    [match = 0], and its [alert] is true exactly when at least one row was
    read, that is when [skipped] is less than the number of rows
    classified. *)
Theorem unsettled_rows_never_match
    (settings : Settings) (db : Supabase.Store) (w3 : Web3)
    (k : string) (limit0 : Z) (s : EscrowReconciliationSummary) :
  Monitor._build_summary settings db w3 k limit0 = Ok s ->
  (forall r, In r db.(Supabase.reservations) ->
             Supabase.escrow_candidate k r = true -> settled_locally r = false) ->
  s.(match_) = 0
  /\ (s.(alert) = true <-> s.(skipped) < classified s).
Proof.
  intros H Hall. apply _build_summary_Ok in H.
  destruct H as (chain & rows & total0 & s1 & _ & _ & Hpage & Hloop & ->).
  assert (Hm : s1.(match_) = 0).
  { rewrite (engine_loop_match w3 chain rows _ _ Hloop); [reflexivity|].
    intros r Hr. destruct (page_rows_are_candidates _ _ _ _ _ _ _ Hpage r Hr).
    now apply Hall. }
  unfold classified. simpl. rewrite Hm. split; [reflexivity|].
  rewrite Z.ltb_lt. lia.
Qed.

Lemma unsettled_rows_never_match_witness :
  let w3 := Fixtures.node Fixtures.ledger1 Fixtures.no_events (Some 1) in
  let db := Fixtures.table
              [ Fixtures.booking "res-1" "pending_lock" (Some "0xhash1") None 100 ] in
  exists s,
    Monitor._build_summary Fixtures.settings0 db w3 "sepolia" 200 = Ok s
    /\ s.(match_) = 0 /\ s.(mismatch) = 1.
Proof.
  intros w3 db. eexists. split; [vm_compute; reflexivity|]. split; [|reflexivity].
  refine (proj1 (unsettled_rows_never_match Fixtures.settings0 db w3 "sepolia" 200 _ _ _)).
  - vm_compute. reflexivity.
  - intros r [<-|[]] _. reflexivity.
Defined.

(** ** A chain the reader cannot reach *)

Lemma reader_unusable_raises (w3 : Web3) (chain : ChainConfig) :
  reader_unusable w3 chain ->
  forall reservation_id supplied,
    exists m, read_escrow_record_onchain w3 chain reservation_id supplied
              = Raise (RuntimeError m).
Proof.
  intros H reservation_id supplied. unfold read_escrow_record_onchain.
  destruct (importable w3) eqn:E1; [|eexists; reflexivity].
  destruct (truthy (rpc_url chain)) eqn:E2; [|eexists; reflexivity].
  destruct (truthy (Chains.escrow_contract_address chain)) eqn:E3; [|eexists; reflexivity].
  destruct (is_connected w3 (rpc_url chain)) eqn:E4; [|eexists; reflexivity].
  destruct H as [H|[H|[H|H]]]; congruence.
Qed.

Lemma engine_loop_all_skipped (w3 : Web3) (chain : ChainConfig)
    (rows : list Supabase.ReservationRow) :
  reader_unusable w3 chain ->
  forall s,
    Monitor.for_rows w3 chain rows s
    = Ok {| total := s.(total); match_ := s.(match_); mismatch := s.(mismatch);
            missing_onchain := s.(missing_onchain);
            skipped := s.(skipped) + Z.of_nat (List.length rows);
            alert := s.(alert) |}.
Proof.
  intros H. induction rows as [|row rows IH]; intros s.
  - cbn. destruct s. cbn. now rewrite Z.add_0_r.
  - cbn [Monitor.for_rows]. rewrite engine_row_by_reader. unfold reader_call.
    destruct (reader_unusable_raises w3 chain H
                (or_str (Supabase.reservation_id row) "")
                (Supabase.onchain_booking_id row)) as [m ->].
    cbn [is_RuntimeError bind]. rewrite IH. cbn.
    do 2 f_equal. lia.
Qed.

(** X6.  When the reader cannot reach the ledger of an enabled chain (the
    web3 dependency is missing, the chain has no RPC URL or no contract
    address, or the endpoint does not answer) and the store answers,
    reconciliation does not fail: the engine returns a summary in which
    every fetched row is skipped, nothing is matched, mismatched or missing,
    and [alert] is false.  A monitor run of that chain then completes as a
    success, with no error recorded, and raises [alert_active] only through
    its thresholds. *)
Theorem unreachable_ledger_skips_every_row
    (settings : Settings) (db : Supabase.Store) (w3 : Web3)
    (k : string) (limit0 : Z) (chain : ChainConfig) :
  dict_get k (get_chain_registry settings) = Some chain ->
  chain.(Chains.enabled) = true ->
  Supabase._can_connect settings = true ->
  db.(Supabase.outage) = None ->
  reader_unusable w3 chain ->
  exists s,
    Monitor._build_summary settings db w3 k limit0 = Ok s
    /\ s.(skipped) = Z.min (Z.max 0 limit0) s.(total)
    /\ s.(match_) = 0 /\ s.(mismatch) = 0 /\ s.(missing_onchain) = 0
    /\ s.(alert) = false
    /\ (Monitor._resolve_chain_key settings = Ok k ->
        limit0 = settings.(escrow_reconciliation_limit) ->
        forall clock p, exists snapshot0 p',
          Monitor.run_escrow_reconciliation_once_now settings db w3 clock p
          = Ok (snapshot0, p')
          /\ snapshot0.(Monitor.last_summary) = Some s
          /\ snapshot0.(Monitor.last_error) = None
          /\ snapshot0.(Monitor.consecutive_failures) = 0
          /\ (snapshot0.(Monitor.alert_active) = true
              <-> (let th := p.(Monitor._monitor_state).(Monitor.alert_thresholds) in
                   th.(Monitor.th_mismatch) <= 0
                   \/ th.(Monitor.th_missing_onchain) <= 0
                   \/ th.(Monitor.th_skipped) <= s.(skipped)))).
Proof.
  intros D En Hc Ho Hun.
  assert (Hpage : Supabase.list_reservations_for_escrow_reconciliation settings db k limit0 0
                  = Ok (Supabase.range 0 (0 + limit0 - 1)
                          (Supabase.order_created_at_desc
                             (filter (Supabase.escrow_candidate k) (Supabase.reservations db))),
                        Z.of_nat (List.length
                          (Supabase.order_created_at_desc
                             (filter (Supabase.escrow_candidate k)
                                (Supabase.reservations db)))))).
  { unfold Supabase.list_reservations_for_escrow_reconciliation,
      Supabase.as_runtime_error, Supabase.request.
    rewrite Hc, Ho. reflexivity. }
  pose proof (page_length settings db k limit0 0 _ _ Hpage (Z.le_refl 0)) as [Htot Hlen].
  assert (Hbuild : Monitor._build_summary settings db w3 k limit0
                   = Ok {| total := Z.of_nat (List.length
                             (Supabase.order_created_at_desc
                                (filter (Supabase.escrow_candidate k)
                                   (Supabase.reservations db))));
                           match_ := 0; mismatch := 0; missing_onchain := 0;
                           skipped := 0 + Z.of_nat (List.length
                             (Supabase.range 0 (0 + limit0 - 1)
                                (Supabase.order_created_at_desc
                                   (filter (Supabase.escrow_candidate k)
                                      (Supabase.reservations db)))));
                           alert := false |}).
  { unfold Monitor._build_summary. rewrite D, En, Hpage. cbn [bind].
    rewrite (engine_loop_all_skipped w3 chain _ Hun). reflexivity. }
  eexists. split; [exact Hbuild|]. cbn [skipped total match_ mismatch missing_onchain alert].
  split; [lia|]. do 4 (split; [reflexivity|]).
  intros Hk -> clock p.
  destruct (run_once_outcome settings db w3 clock p)
    as (k' & snapshot0 & p' & Hk' & Hrun & Hsnap & Hout).
  rewrite Hk in Hk'. injection Hk' as <-.
  cbv zeta in Hout. rewrite Hbuild in Hout.
  exists snapshot0, p'. split; [exact Hrun|].
  rewrite Hsnap, Hout. cbn.
  split; [reflexivity|]. split; [reflexivity|]. split; [reflexivity|].
  rewrite !orb_true_iff, !Z.leb_le. tauto.
Qed.

Lemma unreachable_ledger_skips_every_row_witness :
  let w3 := Fixtures.offline (Fixtures.node Fixtures.ledger1 Fixtures.no_events (Some 1)) in
  exists s,
    Monitor._build_summary Fixtures.settings0 Fixtures.two_bookings w3 "sepolia" 200 = Ok s
    /\ s.(skipped) = 2 /\ s.(alert) = false.
Proof.
  intros w3.
  destruct (unreachable_ledger_skips_every_row Fixtures.settings0 Fixtures.two_bookings
              w3 "sepolia" 200 Fixtures.sepolia0 eq_refl eq_refl eq_refl eq_refl
              (or_intror (or_intror (or_intror eq_refl))))
    as (s & Hbuild & Hs & _ & _ & _ & Ha & _).
  exists s. split; [exact Hbuild|]. split; [|exact Ha].
  rewrite Hs. vm_compute in Hbuild. injection Hbuild as <-. reflexivity.
Defined.

(** ** The monitor over many runs *)

Lemma init_at_rest (settings : Settings) : monitor_at_rest (Monitor.init settings).
Proof.
  unfold monitor_at_rest. cbn. repeat split; intros; try lia; try reflexivity; discriminate.
Qed.

Lemma run_once_keeps_at_rest
    (settings : Settings) (db : Supabase.Store) (w3 : Web3)
    (clock : Monitor.Clock) (p : Monitor.Process) :
  monitor_at_rest p.(Monitor._monitor_state) ->
  exists snapshot0 p',
    Monitor.run_escrow_reconciliation_once_now settings db w3 clock p
    = Ok (snapshot0, p')
    /\ monitor_at_rest p'.(Monitor._monitor_state)
    /\ p'.(Monitor._monitor_state).(Monitor.runs_total)
       = p.(Monitor._monitor_state).(Monitor.runs_total) + 1
    /\ p'.(Monitor._monitor_state).(Monitor.alert_thresholds)
       = p.(Monitor._monitor_state).(Monitor.alert_thresholds)
    /\ List.length p'.(Monitor.log) = S (List.length p.(Monitor.log)).
Proof.
  intros (Hf & He & Ha & Hs & Hr).
  destruct (run_once_outcome settings db w3 clock p)
    as (k & snapshot0 & p' & _ & Hrun & _ & Hout).
  exists snapshot0, p'. split; [exact Hrun|].
  assert (Hlog : List.length p'.(Monitor.log) = S (List.length p.(Monitor.log))).
  { unfold Monitor.run_escrow_reconciliation_once_now in Hrun.
    destruct (Monitor._resolve_chain_key settings); cbn [bind] in Hrun; [|discriminate].
    destruct (Monitor._build_summary settings db w3 a _);
      cbn [bind try_except any_Exception] in Hrun;
      injection Hrun as _ <-; cbn; rewrite length_app; simpl; lia. }
  cbv zeta in Hout.
  destruct (Monitor._build_summary settings db w3 k _) as [s|e];
    rewrite Hout; unfold monitor_at_rest; cbn;
    (split; [|split; [reflexivity|split; [reflexivity|exact Hlog]]]).
  - repeat split; intros; try lia; try reflexivity; discriminate.
  - repeat split; intros; try lia; try reflexivity; try discriminate;
      try (now apply Hs).
Qed.

(** X7.  Every monitor run returns, and after any number of runs from the
    initial monitor state, whatever store, node and clock each run met:
    [runs_total] is the number of runs and one log record was written per
    run; the thresholds are the configured ones; [running] is false;
    [0 <= consecutive_failures <= runs_total];
    [consecutive_failures = 0] exactly when [last_error] is empty;
    [alert_active] is true whenever [consecutive_failures] is positive; and
    [last_summary] is empty exactly when [last_success_at] is. *)
Theorem monitor_runs_keep_invariants
    (settings : Settings) (n : nat) (p : Monitor.Process) :
  reached settings n p ->
  monitor_at_rest p.(Monitor._monitor_state)
  /\ p.(Monitor._monitor_state).(Monitor.runs_total) = Z.of_nat n
  /\ p.(Monitor._monitor_state).(Monitor.alert_thresholds)
     = (Monitor.init settings).(Monitor.alert_thresholds)
  /\ List.length p.(Monitor.log) = n
  /\ (forall db w3 clock, exists snapshot0 p',
        Monitor.run_escrow_reconciliation_once_now settings db w3 clock p
        = Ok (snapshot0, p')
        /\ reached settings (S n) p').
Proof.
  intros Hreached.
  assert (Hinv : monitor_at_rest p.(Monitor._monitor_state)
                 /\ p.(Monitor._monitor_state).(Monitor.runs_total) = Z.of_nat n
                 /\ p.(Monitor._monitor_state).(Monitor.alert_thresholds)
                    = (Monitor.init settings).(Monitor.alert_thresholds)
                 /\ List.length p.(Monitor.log) = n).
  { induction Hreached as [|n p db w3 clock snapshot0 p' _ IH Hrun].
    - split; [apply init_at_rest|]. repeat split.
    - destruct IH as (Hrest & Hruns & Hth & Hlog).
      destruct (run_once_keeps_at_rest settings db w3 clock p Hrest)
        as (snapshot1 & p1 & Hrun1 & Hrest1 & Hruns1 & Hth1 & Hlog1).
      rewrite Hrun in Hrun1. injection Hrun1 as _ <-.
      split; [exact Hrest1|]. split; [lia|]. split; [congruence|lia]. }
  destruct Hinv as (Hrest & Hruns & Hth & Hlog).
  split; [exact Hrest|]. split; [exact Hruns|]. split; [exact Hth|].
  split; [exact Hlog|].
  intros db w3 clock.
  destruct (run_once_keeps_at_rest settings db w3 clock p Hrest)
    as (snapshot0 & p' & Hrun & _).
  exists snapshot0, p'. split; [exact Hrun|].
  exact (reached_run settings n p db w3 clock snapshot0 p' Hreached Hrun).
Qed.

Lemma monitor_runs_keep_invariants_witness :
  let p2 := Fixtures.run_again (Fixtures.run_again (Fixtures.process0 Fixtures.settings0)) in
  reached Fixtures.settings0 2 p2
  /\ p2.(Monitor._monitor_state).(Monitor.runs_total) = 2
  /\ List.length p2.(Monitor.log) = 2%nat.
Proof.
  intros p2.
  assert (Hreached : reached Fixtures.settings0 2 p2).
  { refine (reached_run Fixtures.settings0 1
              (Fixtures.run_again (Fixtures.process0 Fixtures.settings0))
              Fixtures.two_bookings
              (Fixtures.node Fixtures.ledger1 Fixtures.no_events (Some 1))
              Fixtures.clock0 p2.(Monitor._monitor_state) p2 _ _);
      [|vm_compute; reflexivity].
    refine (reached_run Fixtures.settings0 0 (Fixtures.process0 Fixtures.settings0)
              Fixtures.two_bookings
              (Fixtures.node Fixtures.ledger1 Fixtures.no_events (Some 1))
              Fixtures.clock0
              (Fixtures.run_again (Fixtures.process0 Fixtures.settings0)).(Monitor._monitor_state)
              _ (reached_init Fixtures.settings0) _).
    vm_compute; reflexivity. }
  split; [exact Hreached|].
  destruct (monitor_runs_keep_invariants Fixtures.settings0 2 p2 Hreached)
    as (_ & Hruns & _ & Hlog & _).
  split; [exact Hruns|exact Hlog].
Defined.

Lemma get_active_chain_entry (settings : Settings) (c : ChainConfig) :
  get_active_chain settings = Ok c ->
  dict_get c.(key) (get_chain_registry settings) = Some c.
Proof.
  unfold get_active_chain.
  destruct (dict_get _ (get_chain_registry settings)) as [c0|] eqn:D.
  - intros [= <-]. destruct (registry_key_cases settings _ _ D) as [_ ->]. exact D.
  - destruct (registry_has_sepolia settings) as [c0 [D0 K0]]. rewrite D0.
    intros [= <-]. now rewrite K0.
Qed.

(** X8.  When no reconciliation chain key is configured and the active
    chain is disabled (its key is not in the allow-list), every monitor run
    fails: the snapshot returned has [last_error] "Chain '<key>' is
    disabled.", [alert_active] true and one more consecutive failure, and
    the last summary is left as it was. *)
Theorem disabled_active_chain_fails_every_run
    (settings : Settings) (c : ChainConfig) (db : Supabase.Store) (w3 : Web3)
    (clock : Monitor.Clock) (p : Monitor.Process) :
  truthy (lower (strip (or_str settings.(escrow_reconciliation_chain_key) ""))) = false ->
  get_active_chain settings = Ok c ->
  c.(Chains.enabled) = false ->
  exists snapshot0 p',
    Monitor.run_escrow_reconciliation_once_now settings db w3 clock p
    = Ok (snapshot0, p')
    /\ snapshot0.(Monitor.last_error) = Some ("Chain '" ++ c.(key) ++ "' is disabled.")
    /\ snapshot0.(Monitor.alert_active) = true
    /\ snapshot0.(Monitor.consecutive_failures)
       = p.(Monitor._monitor_state).(Monitor.consecutive_failures) + 1
    /\ snapshot0.(Monitor.last_summary) = p.(Monitor._monitor_state).(Monitor.last_summary).
Proof.
  intros Hkey Hactive Hdis.
  unfold Monitor.run_escrow_reconciliation_once_now, Monitor._resolve_chain_key.
  rewrite Hkey, Hactive. cbn [bind].
  unfold Monitor._build_summary.
  rewrite (get_active_chain_entry settings c Hactive), Hdis.
  cbn [bind try_except any_Exception].
  do 2 eexists. split; [reflexivity|]. cbn. repeat split.
Qed.

Lemma disabled_active_chain_fails_every_run_witness :
  let settings := Fixtures.configure "amoy" "sepolia" 200 in
  exists snapshot0 p',
    Monitor.run_escrow_reconciliation_once_now settings Fixtures.two_bookings
      (Fixtures.node Fixtures.ledger1 Fixtures.no_events (Some 1)) Fixtures.clock0
      (Fixtures.process0 settings) = Ok (snapshot0, p')
    /\ snapshot0.(Monitor.last_error) = Some "Chain 'amoy' is disabled."
    /\ snapshot0.(Monitor.alert_active) = true.
Proof.
  intros settings.
  destruct (get_active_chain settings) as [c|e] eqn:A; [|vm_compute in A; discriminate].
  destruct (disabled_active_chain_fails_every_run settings c Fixtures.two_bookings
              (Fixtures.node Fixtures.ledger1 Fixtures.no_events (Some 1))
              Fixtures.clock0 (Fixtures.process0 settings) eq_refl A)
    as (snapshot0 & p' & Hrun & Herr & Halert & _).
  - vm_compute in A. injection A as <-. reflexivity.
  - exists snapshot0, p'. split; [exact Hrun|]. split; [|exact Halert].
    rewrite Herr. vm_compute in A. injection A as <-. reflexivity.
Defined.

(** ** Failures the settlement client detects itself *)

Lemma receipt_status_not_1 (receipt : Receipt) :
  receipt.(status) <> Some 1 -> receipt_status receipt <> 1.
Proof.
  unfold receipt_status, or_int. destruct (status receipt) as [z|]; [|discriminate].
  intros H. destruct (z =? 0) eqn:E; [discriminate|].
  intros ->. now apply H.
Qed.

(** X9.  Configuration and connectivity are checked in a fixed order and
    reported as [RuntimeError]s whatever the node would answer: a missing
    RPC URL first, then a missing contract address, then (for lock, release
    and refund only; the reader needs no signer) a missing signer key, then
    an endpoint that does not answer.  A transaction whose receipt carries
    a status other than 1 (0, another number, or [None]) makes lock, release
    and refund raise the "reverted" [RuntimeError], even when the event logs
    would decode. *)
Theorem settlement_own_failures_are_runtime_errors
    (settings : Settings) (w3 : Web3) (chain : ChainConfig)
    (reservation_id : string) (supplied : option string) :
  w3.(importable) = true ->
  let lock := lock_reservation_escrow_onchain settings w3 chain reservation_id in
  let release := release_reservation_escrow_onchain settings w3 chain reservation_id supplied in
  let refund := refund_reservation_escrow_onchain settings w3 chain reservation_id supplied in
  let read := read_escrow_record_onchain w3 chain reservation_id supplied in
  let no_rpc := RuntimeError "Active chain RPC URL is not configured." in
  let no_contract := RuntimeError "Active chain contract address is not configured." in
  let no_signer := RuntimeError "Active chain signer private key is not configured." in
  let no_answer := RuntimeError ("Unable to connect to " ++ chain.(key) ++ " RPC.") in
  (truthy chain.(rpc_url) = false ->
     lock = Raise no_rpc /\ release = Raise no_rpc /\ refund = Raise no_rpc
     /\ read = Raise no_rpc)
  /\ (truthy chain.(rpc_url) = true ->
      truthy chain.(Chains.escrow_contract_address) = false ->
      lock = Raise no_contract /\ release = Raise no_contract
      /\ refund = Raise no_contract /\ read = Raise no_contract)
  /\ (truthy chain.(rpc_url) = true ->
      truthy chain.(Chains.escrow_contract_address) = true ->
      truthy chain.(signer_private_key) = false ->
      lock = Raise no_signer /\ release = Raise no_signer /\ refund = Raise no_signer)
  /\ (truthy chain.(rpc_url) = true ->
      truthy chain.(Chains.escrow_contract_address) = true ->
      w3.(is_connected) chain.(rpc_url) = false ->
      read = Raise no_answer
      /\ (truthy chain.(signer_private_key) = true ->
          lock = Raise no_answer /\ release = Raise no_answer /\ refund = Raise no_answer))
  /\ (forall account contract_address tx_hash_bytes receipt,
      signer_ready w3 chain account contract_address ->
      receipt.(status) <> Some 1 ->
      (forall recipient,
          w3.(to_checksum_address) account = Ok recipient ->
          submitted settings w3 chain account contract_address
            (CallLock (w3.(keccak_text) reservation_id) recipient)
            (Some settings.(escrow_lock_amount_wei)) 280000 tx_hash_bytes receipt ->
          lock = Raise (RuntimeError "On-chain escrow lock transaction reverted."))
      /\ (forall booking_id_bytes32 booking_id_hex,
          _resolve_booking_id_bytes w3 reservation_id supplied
          = Ok (booking_id_bytes32, booking_id_hex) ->
          (submitted settings w3 chain account contract_address
             (CallRelease booking_id_bytes32) None 220000 tx_hash_bytes receipt ->
           release = Raise (RuntimeError "On-chain escrow release transaction reverted."))
          /\ (submitted settings w3 chain account contract_address
                (CallRefund booking_id_bytes32) None 220000 tx_hash_bytes receipt ->
              refund = Raise (RuntimeError "On-chain escrow refund transaction reverted.")))).
Proof.
  intros Himp lock release refund read no_rpc no_contract no_signer no_answer.
  subst lock release refund read no_rpc no_contract no_signer no_answer.
  unfold lock_reservation_escrow_onchain, release_reservation_escrow_onchain,
    refund_reservation_escrow_onchain, read_escrow_record_onchain.
  rewrite Himp.
  split; [|split; [|split; [|split]]].
  - intros ->. repeat split.
  - intros -> ->. repeat split.
  - intros -> -> ->. repeat split.
  - intros -> -> ->. split; [reflexivity|]. intros ->. repeat split.
  - intros account contract_address tx_hash_bytes receipt
      (_ & Hrpc & Haddr & Hkey & Hconn & Hacc & Hcontract) Hstatus.
    apply receipt_status_not_1, Z.eqb_neq in Hstatus.
    split.
    + intros recipient Hrecipient
        (nonce & fee & base & tx & signed & Hn & Hf & Hb & Htx & Hs & Hsend & Hwait).
      replay. rewrite Hstatus. reflexivity.
    + intros b32 bhex Hresolve. split;
        intros (nonce & fee & base & tx & signed & Hn & Hf & Hb & Htx & Hs & Hsend & Hwait);
        replay; rewrite Hstatus; reflexivity.
Qed.

Lemma settlement_own_failures_are_runtime_errors_witness :
  let w3 := Fixtures.node Fixtures.ledger1 Fixtures.no_events (Some 0) in
  lock_reservation_escrow_onchain Fixtures.settings0 w3 Fixtures.sepolia0 "res-1"
  = Raise (RuntimeError "On-chain escrow lock transaction reverted.").
Proof.
  intros w3.
  destruct (settlement_own_failures_are_runtime_errors Fixtures.settings0 w3
              Fixtures.sepolia0 "res-1" None eq_refl)
    as (_ & _ & _ & _ & Hreverted).
  destruct (Hreverted "0xSigner" "0x1111111111111111111111111111111111111111"
              (list_byte_of_string "txhash")
              {| status := Some 0;
                 transactionHash := list_byte_of_string "txhash";
                 logs := [] |}) as [Hlock _].
  - unfold signer_ready. repeat split; reflexivity.
  - discriminate.
  - apply (Hlock "0xSigner"); [reflexivity|]. unfold submitted. repeat eexists.
Defined.

(** ** Feeding a reported identifier back *)

(** X10.  On a node whose hex encoding of the hash is lower-case,
    ["0x"]-prefixed and decodes back to the hash, the identifier that lock
    reports can be handed to release, refund and read: they then address
    the same ledger entry, and return the same result, as when no
    identifier is supplied and the hash is recomputed. *)
Theorem lock_identifier_round_trip
    (settings : Settings) (w3 : Web3) (chain : ChainConfig)
    (reservation_id : string) (locked : EscrowLockResult) :
  let hashed := w3.(keccak_text) reservation_id in
  w3.(to_bytes_hexstr) (w3.(to_hex) hashed) = Ok hashed ->
  startswith (w3.(to_hex) hashed) "0x" = true ->
  lower (w3.(to_hex) hashed) = w3.(to_hex) hashed ->
  lock_reservation_escrow_onchain settings w3 chain reservation_id = Ok locked ->
  let reported := Some locked.(lock_onchain_booking_id) in
  _resolve_booking_id_bytes w3 reservation_id reported
  = Ok (hashed, w3.(to_hex) hashed)
  /\ release_reservation_escrow_onchain settings w3 chain reservation_id reported
     = release_reservation_escrow_onchain settings w3 chain reservation_id None
  /\ refund_reservation_escrow_onchain settings w3 chain reservation_id reported
     = refund_reservation_escrow_onchain settings w3 chain reservation_id None
  /\ read_escrow_record_onchain w3 chain reservation_id reported
     = read_escrow_record_onchain w3 chain reservation_id None.
Proof.
  intros hashed Hdecode Hprefix Hlower Hlock reported.
  assert (Hid : locked.(lock_onchain_booking_id) = w3.(to_hex) hashed).
  { revert Hlock. unfold lock_reservation_escrow_onchain. unwind.
    intros [= <-]. reflexivity. }
  assert (Hres : _resolve_booking_id_bytes w3 reservation_id reported
                 = _resolve_booking_id_bytes w3 reservation_id None).
  { subst reported. rewrite Hid. unfold _resolve_booking_id_bytes.
    rewrite Hprefix, (startswith_0x_truthy _ Hprefix). cbn [andb].
    fold hashed. rewrite Hdecode. cbn [bind]. now rewrite Hlower. }
  split; [rewrite Hres; reflexivity|].
  unfold release_reservation_escrow_onchain, refund_reservation_escrow_onchain,
    read_escrow_record_onchain.
  rewrite Hres. repeat split.
Qed.

Lemma lock_identifier_round_trip_witness :
  let w3 := Cases.hex_node Fixtures.ledger1 (Some 1) in
  exists locked,
    lock_reservation_escrow_onchain Fixtures.settings0 w3 Fixtures.sepolia0 "res-1"
    = Ok locked
    /\ read_escrow_record_onchain w3 Fixtures.sepolia0 "res-1"
         (Some locked.(lock_onchain_booking_id))
       = read_escrow_record_onchain w3 Fixtures.sepolia0 "res-1" None.
Proof.
  intros w3. eexists. split; [vm_compute; reflexivity|].
  refine (proj2 (proj2 (proj2 (lock_identifier_round_trip Fixtures.settings0 w3
                                 Fixtures.sepolia0 "res-1" _ _ _ _ _))));
    vm_compute; reflexivity.
Defined.

(** ** Shadow write *)

Section TableUpdates.

Variable reservation_id0 : string.

Let has_id := ShadowWrite.has_id reservation_id0.

Lemma find_update_where_any (guard : Supabase.ReservationRow -> bool)
    (set : Supabase.ReservationRow -> Supabase.ReservationRow)
    (table : list Supabase.ReservationRow) :
  (forall r, has_id (set r) = has_id r) ->
  find has_id (Supabase.update_where guard set table)
  = option_map (fun r => if guard r then set r else r) (find has_id table).
Proof.
  intros Hset. induction table as [|r table IH]; simpl; [reflexivity|].
  assert (E : has_id (if guard r then set r else r) = has_id r)
    by (destruct (guard r); [apply Hset|reflexivity]).
  rewrite E. destruct (has_id r); [reflexivity|exact IH].
Qed.

Lemma update_where_none (guard : Supabase.ReservationRow -> bool)
    (set : Supabase.ReservationRow -> Supabase.ReservationRow)
    (table : list Supabase.ReservationRow) :
  (forall r, In r table -> guard r = false) ->
  Supabase.update_where guard set table = table.
Proof.
  induction table as [|r table IH]; intros H; simpl; [reflexivity|].
  rewrite (H r (or_introl eq_refl)), IH; [reflexivity|].
  intros r' Hr'. apply H. now right.
Qed.

Lemma find_none_all (table : list Supabase.ReservationRow) :
  find has_id table = None -> forall r, In r table -> has_id r = false.
Proof.
  intros H r Hin. destruct (has_id r) eqn:E; [|reflexivity].
  exfalso. eapply find_none in H; [|exact Hin]. congruence.
Qed.

Lemma find_some_id (table : list Supabase.ReservationRow) (r : Supabase.ReservationRow) :
  find has_id table = Some r ->
  In r table /\ r.(Supabase.reservation_id) = reservation_id0.
Proof.
  intros H. apply find_some in H. destruct H as [Hin Hid].
  split; [exact Hin|]. now apply String.eqb_eq in Hid.
Qed.

End TableUpdates.

Section ShadowWriteFacts.

Variable settings : Settings.
Variable db : Supabase.Store.
Variable reservation_id0 chain_key0 : string.
Variable chain_id0 : Z.
Variable contract_address tx_hash onchain_booking_id0 : string.
Variable escrow_event_index0 : Z.
Variable escrow_state0 : string.

Let set := ShadowWrite.assign chain_key0 chain_id0 contract_address tx_hash
             onchain_booking_id0 escrow_event_index0 escrow_state0.

(** The call on a reachable, configured store. *)
Lemma write_on_reachable_store :
  Supabase._can_connect settings = true ->
  db.(Supabase.outage) = None ->
  ShadowWrite.write_reservation_escrow_shadow_metadata settings db reservation_id0
    chain_key0 chain_id0 contract_address tx_hash onchain_booking_id0
    escrow_event_index0 escrow_state0
  = (Ok (option_map (fun r => ShadowWrite.select_escrow_columns (set r))
           (row_of reservation_id0 db)),
     {| Supabase.reservations :=
          Supabase.update_where (ShadowWrite.has_id reservation_id0) set
            db.(Supabase.reservations);
        Supabase.outage := None |}).
Proof.
  intros Hc Ho.
  unfold ShadowWrite.write_reservation_escrow_shadow_metadata, Supabase.request,
    Supabase.as_runtime_error.
  rewrite Hc, Ho. cbn [bind try_except Supabase.reservations Supabase.outage].
  rewrite firstn_1_filter. fold set.
  rewrite (find_update_where_any reservation_id0) by reflexivity.
  unfold row_of.
  change (fun r : Supabase.ReservationRow =>
            (Supabase.reservation_id r =? reservation_id0)%string)
    with (ShadowWrite.has_id reservation_id0).
  destruct (find (ShadowWrite.has_id reservation_id0) (Supabase.reservations db)) as [r|] eqn:F;
    cbn [option_map bind]; [|reflexivity].
  apply find_some in F. destruct F as [_ F]. rewrite F. reflexivity.
Qed.

(** A write only ever fails with a [RuntimeError]. *)
Lemma write_raises_runtime_error (e : exn) :
  fst (ShadowWrite.write_reservation_escrow_shadow_metadata settings db reservation_id0
         chain_key0 chain_id0 contract_address tx_hash onchain_booking_id0
         escrow_event_index0 escrow_state0) = Raise e ->
  is_RuntimeError e = true.
Proof.
  unfold ShadowWrite.write_reservation_escrow_shadow_metadata.
  destruct (Supabase.request settings db _) as [t|e0]; cbn [fst].
  - unfold Supabase.as_runtime_error.
    destruct (bind _ _) as [v|e1]; cbn; [discriminate|now intros [= <-]].
  - now intros [= <-].
Qed.

End ShadowWriteFacts.

(** X11.  On a reachable store the shadow write overwrites the escrow
    fields of the reservation unconditionally and reads them back: the
    value returned carries exactly the state, chain key, chain id, contract
    address, transaction hash, booking identifier and event index that were
    passed; rows of other reservations are left as they are; for an unknown
    reservation the call returns nothing and changes nothing; and writing
    the same values again changes nothing further. *)
Theorem shadow_write_reads_back_what_it_wrote
    (settings : Settings) (db : Supabase.Store)
    (reservation_id0 chain_key0 : string) (chain_id0 : Z)
    (contract_address tx_hash onchain_booking_id0 : string)
    (escrow_event_index0 : Z) (escrow_state0 : string) :
  Supabase._can_connect settings = true ->
  db.(Supabase.outage) = None ->
  let write := fun d =>
    ShadowWrite.write_reservation_escrow_shadow_metadata settings d reservation_id0
      chain_key0 chain_id0 contract_address tx_hash onchain_booking_id0
      escrow_event_index0 escrow_state0 in
  let written :=
    {| ShadowWrite.reservation_id := reservation_id0;
       ShadowWrite.escrow_state := Some escrow_state0;
       ShadowWrite.chain_key := Some chain_key0;
       ShadowWrite.chain_id := Some chain_id0;
       ShadowWrite.escrow_contract_address := Some contract_address;
       ShadowWrite.chain_tx_hash := Some tx_hash;
       ShadowWrite.onchain_booking_id := Some onchain_booking_id0;
       ShadowWrite.escrow_event_index := Some escrow_event_index0 |} in
  (forall r, row_of reservation_id0 db = Some r ->
     fst (write db) = Ok (Some written)
     /\ option_map ShadowWrite.select_escrow_columns (row_of reservation_id0 (snd (write db)))
        = Some written)
  /\ (row_of reservation_id0 db = None -> write db = (Ok None, db))
  /\ Forall2 (fun r r' =>
                if (r.(Supabase.reservation_id) =? reservation_id0)%string
                then ShadowWrite.select_escrow_columns r' = written
                     /\ r'.(Supabase.reservation_code) = r.(Supabase.reservation_code)
                     /\ r'.(Supabase.created_at) = r.(Supabase.created_at)
                else r' = r)
       db.(Supabase.reservations) (snd (write db)).(Supabase.reservations)
  /\ snd (write (snd (write db))) = snd (write db).
Proof.
  intros Hc Ho write written. subst write. cbv beta.
  rewrite (write_on_reachable_store settings db reservation_id0 chain_key0 chain_id0
             contract_address tx_hash onchain_booking_id0 escrow_event_index0
             escrow_state0 Hc Ho).
  cbn [fst snd].
  split; [|split; [|split]].
  - intros r Hr.
    assert (Hid : r.(Supabase.reservation_id) = reservation_id0)
      by (apply (find_some_id reservation_id0 _ r Hr)).
    rewrite Hr. cbn [option_map]. unfold row_of. cbn [Supabase.reservations].
    change (fun r0 : Supabase.ReservationRow =>
              (Supabase.reservation_id r0 =? reservation_id0)%string)
      with (ShadowWrite.has_id reservation_id0).
    rewrite (find_update_where_any reservation_id0) by reflexivity.
    unfold row_of in Hr.
    change (fun r0 : Supabase.ReservationRow =>
              (Supabase.reservation_id r0 =? reservation_id0)%string)
      with (ShadowWrite.has_id reservation_id0) in Hr.
    rewrite Hr. cbn [option_map].
    pose proof (find_some _ _ Hr) as [_ Hh]. rewrite Hh.
    unfold ShadowWrite.select_escrow_columns, ShadowWrite.assign, written. cbn.
    rewrite Hid. split; reflexivity.
  - intros Hnone. rewrite Hnone. cbn [option_map].
    rewrite update_where_none.
    + destruct db as [t o]. cbn in Ho. subst o. reflexivity.
    + apply (find_none_all reservation_id0). exact Hnone.
  - cbn [Supabase.reservations].
    induction (Supabase.reservations db) as [|r t IH]; simpl; constructor; [|exact IH].
    unfold ShadowWrite.has_id.
    destruct (Supabase.reservation_id r =? reservation_id0)%string eqn:E; [|reflexivity].
    apply String.eqb_eq in E. unfold written, ShadowWrite.select_escrow_columns.
    cbn. rewrite E. repeat split.
  - match goal with
    | |- snd (ShadowWrite.write_reservation_escrow_shadow_metadata _ ?d _ _ _ _ _ _ _ _) = _ =>
        rewrite (write_on_reachable_store settings d reservation_id0 chain_key0 chain_id0
                   contract_address tx_hash onchain_booking_id0 escrow_event_index0
                   escrow_state0 Hc eq_refl)
    end.
    cbn [snd Supabase.reservations]. f_equal.
    induction (Supabase.reservations db) as [|r t IH]; simpl; [reflexivity|].
    rewrite IH. f_equal.
    unfold ShadowWrite.has_id at 2.
    destruct (Supabase.reservation_id r =? reservation_id0)%string eqn:E.
    + unfold ShadowWrite.has_id. cbn. rewrite E. reflexivity.
    + unfold ShadowWrite.has_id. rewrite E. reflexivity.
Qed.

Lemma shadow_write_reads_back_what_it_wrote_witness :
  let db := Fixtures.table [Cases.fresh "res-n" 100; Fixtures.settled_row] in
  let call := ShadowWrite.write_reservation_escrow_shadow_metadata Fixtures.settings0 db
                "res-n" "sepolia" 11155111 "0x1111111111111111111111111111111111111111"
                "shadow-0f" "res-n" 0 "pending_lock" in
  exists columns,
    fst call = Ok (Some columns)
    /\ columns.(ShadowWrite.chain_tx_hash) = Some "shadow-0f"
    /\ row_of "res-a" (snd call) = Some Fixtures.settled_row.
Proof.
  intros db call. eexists. split.
  - exact (proj1 (proj1 (shadow_write_reads_back_what_it_wrote Fixtures.settings0 db
                           "res-n" "sepolia" 11155111
                           "0x1111111111111111111111111111111111111111"
                           "shadow-0f" "res-n" 0 "pending_lock" eq_refl eq_refl)
                    (Cases.fresh "res-n" 100) eq_refl)).
  - split; reflexivity.
Defined.

(** What [clearShadow] answers right after a shadow write. *)
Lemma write_then_clear_outcomes
    (settings : Settings) (db : Supabase.Store) (r : Supabase.ReservationRow)
    (reservation_id0 chain_key0 : string) (chain_id0 : Z)
    (contract_address tx_hash onchain_booking_id0 : string)
    (escrow_event_index0 : Z) (escrow_state0 : string) :
  Supabase._can_connect settings = true ->
  db.(Supabase.outage) = None ->
  row_of reservation_id0 db = Some r ->
  let db1 :=
    snd (ShadowWrite.write_reservation_escrow_shadow_metadata settings db
           reservation_id0 chain_key0 chain_id0 contract_address tx_hash
           onchain_booking_id0 escrow_event_index0 escrow_state0) in
  let clear := fun expected =>
    Supabase.clear_reservation_shadow_escrow_metadata settings db1
      reservation_id0 chain_key0 expected in
  (escrow_state0 = "pending_lock" ->
     fst (clear tx_hash) = Ok true
     /\ row_of reservation_id0 (snd (clear tx_hash)) = Some (Supabase.cleared r))
  /\ (forall expected,
        escrow_state0 <> "pending_lock" \/ expected <> tx_hash ->
        clear expected = (Ok false, db1)).
Proof.
  intros Hc Ho Hr db1 clear. subst clear db1.
  rewrite (write_on_reachable_store settings db reservation_id0 chain_key0 chain_id0
             contract_address tx_hash onchain_booking_id0 escrow_event_index0
             escrow_state0 Hc Ho).
  cbn [snd].
  set (set := ShadowWrite.assign chain_key0 chain_id0 contract_address tx_hash
                onchain_booking_id0 escrow_event_index0 escrow_state0).
  set (db1 := {| Supabase.reservations :=
                   Supabase.update_where (ShadowWrite.has_id reservation_id0) set
                     (Supabase.reservations db);
                 Supabase.outage := None |}).
  pose proof (find_some_id reservation_id0 _ r Hr) as [_ Hid].
  assert (Hh : ShadowWrite.has_id reservation_id0 r = true)
    by (unfold ShadowWrite.has_id; rewrite Hid; apply String.eqb_refl).
  assert (H1 : row_of reservation_id0 db1 = Some (set r)).
  { unfold row_of, db1. cbn [Supabase.reservations].
    change (fun r0 : Supabase.ReservationRow =>
              (Supabase.reservation_id r0 =? reservation_id0)%string)
      with (ShadowWrite.has_id reservation_id0).
    rewrite (find_update_where_any reservation_id0) by reflexivity.
    unfold row_of in Hr.
    change (fun r0 : Supabase.ReservationRow =>
              (Supabase.reservation_id r0 =? reservation_id0)%string)
      with (ShadowWrite.has_id reservation_id0) in Hr.
    rewrite Hr. cbn [option_map]. now rewrite Hh. }
  assert (Hg : forall expected,
    Supabase.clear_guard reservation_id0 chain_key0 expected (set r)
    = ((escrow_state0 =? "pending_lock")%string && (tx_hash =? expected)%string)%bool).
  { intros expected. unfold Supabase.clear_guard, set. cbn.
    rewrite Hid, !String.eqb_refl. reflexivity. }
  split.
  - intros ->.
    rewrite (clear_on_reachable_store reservation_id0 chain_key0 tx_hash settings db1 Hc eq_refl).
    cbn [fst snd]. rewrite H1. cbn [option_map]. rewrite Hg, !String.eqb_refl.
    cbn [andb]. split; [reflexivity|].
    unfold row_of. cbn [Supabase.reservations].
    rewrite find_update_where.
    unfold row_of in H1. rewrite H1. cbn [option_map].
    rewrite Hg, !String.eqb_refl. reflexivity.
  - intros expected Hne.
    rewrite (clear_on_reachable_store reservation_id0 chain_key0 expected settings db1 Hc eq_refl).
    rewrite H1. cbn [option_map].
    assert (Hfalse : ((escrow_state0 =? "pending_lock")%string
                      && (tx_hash =? expected)%string)%bool = false).
    { destruct Hne as [Hne|Hne].
      - apply String.eqb_neq in Hne. now rewrite Hne.
      - assert (Hne' : tx_hash <> expected) by congruence.
        apply String.eqb_neq in Hne'. rewrite Hne'. apply andb_false_r. }
    rewrite Hg, Hfalse. f_equal.
    + unfold Supabase.shadow_cleared, set. cbn. now rewrite !andb_false_r.
    + unfold db1 at 2. f_equal. apply update_where_none.
      intros r' Hin. unfold db1 in Hin. cbn [Supabase.reservations] in Hin.
      unfold Supabase.update_where in Hin. apply in_map_iff in Hin.
      destruct Hin as (r0 & <- & _).
      destruct (ShadowWrite.has_id reservation_id0 r0) eqn:E.
      * unfold Supabase.clear_guard, set. cbn.
        unfold ShadowWrite.has_id in E. rewrite E, !String.eqb_refl. cbn.
        exact Hfalse.
      * unfold Supabase.clear_guard. unfold ShadowWrite.has_id in E. now rewrite E.
Qed.


(** X12.  A shadow written as [pending_lock] is cleared by [clearShadow]
    called with the same chain key and transaction hash (the call returns
    true and the row read back is in the cleared state), while a row written
    with any other state, or asked to be cleared under any other
    transaction hash, is left exactly as written and the call returns
    false. *)
Theorem shadow_write_then_clear
    (settings : Settings) (db : Supabase.Store) (r : Supabase.ReservationRow)
    (reservation_id0 chain_key0 : string) (chain_id0 : Z)
    (contract_address tx_hash onchain_booking_id0 : string)
    (escrow_event_index0 : Z) (escrow_state0 : string) :
  Supabase._can_connect settings = true ->
  db.(Supabase.outage) = None ->
  row_of reservation_id0 db = Some r ->
  let db1 :=
    snd (ShadowWrite.write_reservation_escrow_shadow_metadata settings db
           reservation_id0 chain_key0 chain_id0 contract_address tx_hash
           onchain_booking_id0 escrow_event_index0 escrow_state0) in
  let clear := fun expected =>
    Supabase.clear_reservation_shadow_escrow_metadata settings db1
      reservation_id0 chain_key0 expected in
  (escrow_state0 = "pending_lock" ->
     fst (clear tx_hash) = Ok true
     /\ row_of reservation_id0 (snd (clear tx_hash)) = Some (Supabase.cleared r))
  /\ (forall expected,
        escrow_state0 <> "pending_lock" \/ expected <> tx_hash ->
        clear expected = (Ok false, db1)).
Proof. apply write_then_clear_outcomes. Qed.

Lemma shadow_write_then_clear_witness :
  let db := Fixtures.table [Cases.fresh "res-n" 100] in
  let db1 := snd (ShadowWrite.write_reservation_escrow_shadow_metadata Fixtures.settings0
                    db "res-n" "sepolia" 11155111
                    "0x1111111111111111111111111111111111111111"
                    "shadow-0f" "res-n" 0 "pending_lock") in
  fst (Supabase.clear_reservation_shadow_escrow_metadata Fixtures.settings0 db1
         "res-n" "sepolia" "shadow-0f") = Ok true
  /\ Supabase.clear_reservation_shadow_escrow_metadata Fixtures.settings0 db1
       "res-n" "sepolia" "shadow-other" = (Ok false, db1).
Proof.
  intros db db1.
  destruct (shadow_write_then_clear Fixtures.settings0 db (Cases.fresh "res-n" 100)
              "res-n" "sepolia" 11155111 "0x1111111111111111111111111111111111111111"
              "shadow-0f" "res-n" 0 "pending_lock" eq_refl eq_refl eq_refl)
    as [Hclear Hkeep].
  split.
  - exact (proj1 (Hclear eq_refl)).
  - apply (Hkeep "shadow-other"). right. discriminate.
Defined.

(** ** Settlement side effects of the booking lifecycle *)

Lemma release_as_settle :
  Lifecycle._maybe_release_escrow_on_checkin = Lifecycle._maybe_settle Lifecycle.Release.
Proof. reflexivity. Qed.

Lemma refund_as_settle :
  Lifecycle._maybe_refund_escrow_on_cancel = Lifecycle._maybe_settle Lifecycle.Refund.
Proof. reflexivity. Qed.

Lemma lifecycle_helper_as_settle (op : Lifecycle.Settlement) :
  lifecycle_helper op = Lifecycle._maybe_settle op.
Proof. destruct op; reflexivity. Qed.

Lemma chain_of_row_Ok (settings : Settings) (row : Supabase.ReservationRow) :
  exists chain, chain_of_row settings row = Ok chain.
Proof.
  unfold chain_of_row.
  destruct (get_active_chain_Ok settings) as [active ->].
  destruct (Supabase.chain_key row) as [k|]; [destruct (truthy k)|];
    cbn [bind]; eexists; reflexivity.
Qed.

(** X13.  The lifecycle helpers never let a [RuntimeError] out, so a
    failed configuration check, an unreachable node, a reverted transaction
    or a failing store never fails booking creation, check-in or
    cancellation.  Each of them raises only when the on-chain operation it
    calls raises an exception that is not a [RuntimeError], and then raises
    that exception; with on-chain locking switched off,
    [_maybe_apply_escrow_shadow_write] never raises at all. *)
Theorem lifecycle_helpers_raise_only_foreign_exceptions
    (settings : Settings) (flags : FeatureFlags) (db : Supabase.Store) (w3 : Web3) :
  (forall uuid4_hex reservation_id e,
      fst (fst (Lifecycle._maybe_apply_escrow_shadow_write settings flags db w3
                  uuid4_hex reservation_id)) = Raise e ->
      is_RuntimeError e = false
      /\ flags.(feature_escrow_onchain_lock) = true
      /\ exists chain,
           get_active_chain settings = Ok chain
           /\ lock_reservation_escrow_onchain settings w3 chain reservation_id = Raise e)
  /\ (forall op row e,
      fst (fst (lifecycle_helper op settings flags db w3 row)) = Raise e ->
      is_RuntimeError e = false
      /\ exists chain,
           chain_of_row settings row = Ok chain
           /\ Lifecycle.settle op settings w3 chain
                (or_str row.(Supabase.reservation_id) "")
                row.(Supabase.onchain_booking_id) = Raise e).
Proof.
  split.
  - intros uuid4_hex reservation_id e.
    unfold Lifecycle._maybe_apply_escrow_shadow_write.
    destruct (feature_escrow_shadow_write flags); cbn [negb]; [|discriminate].
    destruct (get_active_chain_Ok settings) as [c Hc]. rewrite Hc.
    destruct (Chains.enabled c); cbn [negb]; [|discriminate].
    destruct (negb (truthy (rpc_url c)) || negb (truthy (Chains.escrow_contract_address c)));
      [discriminate|].
    destruct (feature_escrow_onchain_lock flags) eqn:Hlock; cbn [andb].
    + destruct (negb (truthy (signer_private_key c))); [discriminate|].
      destruct (lock_reservation_escrow_onchain settings w3 c reservation_id)
        as [lock_result|e0] eqn:L.
      * destruct (ShadowWrite.write_reservation_escrow_shadow_metadata _ _ _ _ _ _ _ _ _ _)
          as [written db'] eqn:W.
        destruct written as [v|e1]; [discriminate|].
        pose proof (write_raises_runtime_error _ _ _ _ _ _ _ _ _ _ e1
                      (f_equal fst W)) as He1.
        rewrite He1. discriminate.
      * destruct (is_RuntimeError e0) eqn:R; [discriminate|].
        cbn [fst]. intros [= <-]. split; [exact R|]. split; [reflexivity|].
        exists c. split; [reflexivity|exact L].
    + destruct (ShadowWrite.write_reservation_escrow_shadow_metadata _ _ _ _ _ _ _ _ _ _)
        as [written db'] eqn:W.
      destruct written as [v|e1]; [discriminate|].
      pose proof (write_raises_runtime_error _ _ _ _ _ _ _ _ _ _ e1
                    (f_equal fst W)) as He1.
      rewrite He1. discriminate.
  - intros op row e. rewrite lifecycle_helper_as_settle.
    unfold Lifecycle._maybe_settle.
    destruct (feature_escrow_onchain_lock flags); cbn [negb]; [|discriminate].
    destruct (negb (truthy (or_str (Supabase.reservation_id row) ""))); [discriminate|].
    destruct (negb (lower (opt_or (Supabase.escrow_state row) "none") =? "locked")%string);
      [discriminate|].
    destruct (chain_of_row_Ok settings row) as [chain Hchain].
    fold (chain_of_row settings row). rewrite Hchain.
    destruct (negb (Chains.enabled chain) || negb (truthy (rpc_url chain))
              || negb (truthy (Chains.escrow_contract_address chain))
              || negb (truthy (signer_private_key chain))); [discriminate|].
    destruct (Lifecycle.settle op settings w3 chain _ _) as [settlement|e0] eqn:S.
    + destruct (ShadowWrite.write_reservation_escrow_shadow_metadata _ _ _ _ _ _ _ _ _ _)
        as [written db'] eqn:W.
      destruct written as [v|e1]; [discriminate|].
      pose proof (write_raises_runtime_error _ _ _ _ _ _ _ _ _ _ e1
                    (f_equal fst W)) as He1.
      rewrite He1. discriminate.
    + destruct (is_RuntimeError e0) eqn:R; [discriminate|].
      cbn [fst]. intros [= <-]. split; [exact R|].
      exists chain. split; [reflexivity|exact S].
Qed.

Lemma lifecycle_helpers_raise_only_foreign_exceptions_witness :
  let db := Fixtures.table [Cases.fresh "res-n" 100] in
  exists e,
    fst (fst (Lifecycle._maybe_apply_escrow_shadow_write Fixtures.settings0
                Cases.lock_mode db Cases.bad_key_node "0f" "res-n")) = Raise e
    /\ is_RuntimeError e = false.
Proof.
  intros db. eexists. split.
  - vm_compute. reflexivity.
  - refine (proj1 (proj1 (lifecycle_helpers_raise_only_foreign_exceptions
                            Fixtures.settings0 Cases.lock_mode db Cases.bad_key_node)
                     "0f" "res-n" _ _)).
    vm_compute. reflexivity.
Defined.

(** X14.  With shadow writing on and on-chain locking off, on an enabled
    and configured active chain and a reachable store, booking creation
    records a placeholder for an existing reservation without consulting the
    node: it returns an [EscrowRef] in state [pending] whose transaction
    hash is ["shadow-"] followed by the fresh uuid; the row then is a stale
    shadow candidate of that chain (state [pending_lock], prefixed hash, the
    reservation id itself as booking identifier); and [clearShadow] called
    with that hash returns true. *)
Theorem shadow_mode_booking_is_a_cleanable_candidate
    (settings : Settings) (flags : FeatureFlags) (db : Supabase.Store) (w3 : Web3)
    (uuid4_hex reservation_id : string) (c : ChainConfig) (r : Supabase.ReservationRow) :
  flags.(feature_escrow_shadow_write) = true ->
  flags.(feature_escrow_onchain_lock) = false ->
  get_active_chain settings = Ok c ->
  c.(Chains.enabled) = true ->
  truthy c.(rpc_url) = true ->
  truthy c.(Chains.escrow_contract_address) = true ->
  Supabase._can_connect settings = true ->
  db.(Supabase.outage) = None ->
  row_of reservation_id db = Some r ->
  let out := Lifecycle._maybe_apply_escrow_shadow_write settings flags db w3
               uuid4_hex reservation_id in
  let db' := snd (fst out) in
  fst (fst out)
  = Ok (Some {| Lifecycle.ref_chain_key := Some c.(key);
                Lifecycle.ref_chain_id := c.(Chains.chain_id);
                Lifecycle.ref_contract_address := c.(Chains.escrow_contract_address);
                Lifecycle.ref_tx_hash := "shadow-" ++ uuid4_hex;
                Lifecycle.ref_event_index := 0;
                Lifecycle.ref_state := "pending" |})
  /\ (exists row',
        row_of reservation_id db' = Some row'
        /\ Supabase.shadow_candidate c.(key) row' = true
        /\ row'.(Supabase.chain_tx_hash) = Some ("shadow-" ++ uuid4_hex)
        /\ row'.(Supabase.onchain_booking_id) = Some reservation_id)
  /\ fst (Supabase.clear_reservation_shadow_escrow_metadata settings db'
            reservation_id c.(key) ("shadow-" ++ uuid4_hex)) = Ok true
  /\ (forall w3', Lifecycle._maybe_apply_escrow_shadow_write settings flags db w3'
                    uuid4_hex reservation_id = out).
Proof.
  intros Hshadow Hlock Hactive Hen Hrpc Haddr Hc Ho Hr out db'.
  assert (Hout : forall node,
    Lifecycle._maybe_apply_escrow_shadow_write settings flags db node
      uuid4_hex reservation_id
    = (Ok (Some {| Lifecycle.ref_chain_key := Some c.(key);
                   Lifecycle.ref_chain_id := c.(Chains.chain_id);
                   Lifecycle.ref_contract_address := c.(Chains.escrow_contract_address);
                   Lifecycle.ref_tx_hash := "shadow-" ++ uuid4_hex;
                   Lifecycle.ref_event_index := 0;
                   Lifecycle.ref_state := "pending" |}),
       snd (ShadowWrite.write_reservation_escrow_shadow_metadata settings db
              reservation_id c.(key) c.(Chains.chain_id)
              c.(Chains.escrow_contract_address) ("shadow-" ++ uuid4_hex)
              reservation_id 0 "pending_lock"),
       [(Monitor.INFO,
         "Escrow shadow-write applied (reservation_id=%s, chain=%s, tx_hash=%s)")])).
  { intros node. unfold Lifecycle._maybe_apply_escrow_shadow_write.
    rewrite Hshadow, Hlock, Hactive, Hen, Hrpc, Haddr. cbn [negb orb andb].
    rewrite (write_on_reachable_store settings db reservation_id _ _ _ _ _ _ _ Hc Ho).
    rewrite Hr. reflexivity. }
  subst db' out. rewrite Hout. cbn [fst snd].
  destruct (write_then_clear_outcomes settings db r reservation_id c.(key)
              c.(Chains.chain_id) c.(Chains.escrow_contract_address)
              ("shadow-" ++ uuid4_hex) reservation_id 0 "pending_lock" Hc Ho Hr)
    as [Hclear _].
  destruct (Hclear eq_refl) as [Htrue _].
  split; [reflexivity|]. split; [|split; [exact Htrue|intros w3'; apply Hout]].
  rewrite (write_on_reachable_store settings db reservation_id _ _ _ _ _ _ _ Hc Ho).
  cbn [snd].
  eexists. split.
  - unfold row_of. cbn [Supabase.reservations].
    change (fun r0 : Supabase.ReservationRow =>
              (Supabase.reservation_id r0 =? reservation_id)%string)
      with (ShadowWrite.has_id reservation_id).
    rewrite (find_update_where_any reservation_id) by reflexivity.
    unfold row_of in Hr.
    change (fun r0 : Supabase.ReservationRow =>
              (Supabase.reservation_id r0 =? reservation_id)%string)
      with (ShadowWrite.has_id reservation_id) in Hr.
    rewrite Hr. cbn [option_map].
    pose proof (find_some _ _ Hr) as [_ Hh]. rewrite Hh. reflexivity.
  - unfold Supabase.shadow_candidate. cbn.
    rewrite String.eqb_refl. repeat split.
    destruct uuid4_hex; reflexivity.
Qed.

Lemma shadow_mode_booking_is_a_cleanable_candidate_witness :
  let db := Fixtures.table [Cases.fresh "res-n" 100] in
  let out := Lifecycle._maybe_apply_escrow_shadow_write Fixtures.settings0
               Cases.shadow_mode db Cases.bad_key_node "0f" "res-n" in
  fst (Supabase.clear_reservation_shadow_escrow_metadata Fixtures.settings0
         (snd (fst out)) "res-n" "sepolia" "shadow-0f") = Ok true.
Proof.
  intros db out.
  exact (proj1 (proj2 (proj2
    (shadow_mode_booking_is_a_cleanable_candidate Fixtures.settings0 Cases.shadow_mode
       db Cases.bad_key_node "0f" "res-n" Fixtures.sepolia0 (Cases.fresh "res-n" 100)
       eq_refl eq_refl eq_refl eq_refl eq_refl eq_refl eq_refl eq_refl eq_refl)))).
Defined.

(** X15.  Check-in release and cancellation refund act on locked rows only
    and at most once.  With on-chain locking off, or for a row whose escrow
    state is not [locked] (in any letter case), the helper returns without
    touching the store or the node.  For a locked row on an enabled,
    configured chain whose settlement succeeds on a reachable store, the
    reservation's row afterwards carries the state [released] (or
    [refunded]) with the settlement's transaction hash, booking identifier
    and event index; called again with that row, the helper does nothing,
    whatever the node. *)
Theorem settlement_helper_acts_on_locked_rows_once
    (op : Lifecycle.Settlement) (settings : Settings) (flags : FeatureFlags)
    (db : Supabase.Store) (w3 : Web3) (row : Supabase.ReservationRow) :
  let out := lifecycle_helper op settings flags db w3 row in
  (flags.(feature_escrow_onchain_lock) = false
   \/ lower (opt_or row.(Supabase.escrow_state) "none") <> "locked" ->
   fst (fst out) = Ok tt /\ snd (fst out) = db
   /\ forall w3', fst (lifecycle_helper op settings flags db w3' row) = fst out)
  /\ (forall chain settlement r,
      flags.(feature_escrow_onchain_lock) = true ->
      truthy row.(Supabase.reservation_id) = true ->
      lower (opt_or row.(Supabase.escrow_state) "none") = "locked" ->
      chain_of_row settings row = Ok chain ->
      chain.(Chains.enabled) = true ->
      truthy chain.(rpc_url) = true ->
      truthy chain.(Chains.escrow_contract_address) = true ->
      truthy chain.(signer_private_key) = true ->
      Lifecycle.settle op settings w3 chain row.(Supabase.reservation_id)
        row.(Supabase.onchain_booking_id) = Ok settlement ->
      Supabase._can_connect settings = true ->
      db.(Supabase.outage) = None ->
      row_of row.(Supabase.reservation_id) db = Some r ->
      let written :=
        ShadowWrite.assign chain.(key) chain.(Chains.chain_id)
          chain.(Chains.escrow_contract_address) settlement.(tx_hash)
          settlement.(onchain_booking_id) settlement.(event_index)
          (Lifecycle.settled_state op) r in
      fst out = (Ok tt, snd (fst out))
      /\ row_of row.(Supabase.reservation_id) (snd (fst out)) = Some written
      /\ forall w3',
           fst (lifecycle_helper op settings flags (snd (fst out)) w3' written)
           = (Ok tt, snd (fst out))).
Proof.
  intros out. subst out. rewrite lifecycle_helper_as_settle.
  split.
  - intros Hskip.
    assert (H : forall node,
      fst (Lifecycle._maybe_settle op settings flags db node row) = (Ok tt, db)).
    { intros node. unfold Lifecycle._maybe_settle.
      destruct (feature_escrow_onchain_lock flags) eqn:F; cbn [negb]; [|reflexivity].
      destruct (negb (truthy (or_str (Supabase.reservation_id row) ""))); [reflexivity|].
      destruct Hskip as [Hskip|Hskip]; [discriminate|].
      apply String.eqb_neq in Hskip. rewrite Hskip. reflexivity. }
    rewrite H. cbn [fst snd]. repeat split.
    intros w3'. apply H.
  - intros chain settlement r Hflag Hid Hstate Hchain Hen Hrpc Haddr Hkey Hsettle
      Hc Ho Hr written.
    assert (Hor : or_str (Supabase.reservation_id row) "" = Supabase.reservation_id row)
      by (unfold or_str; now rewrite Hid).
    assert (Hout :
      Lifecycle._maybe_settle op settings flags db w3 row
      = (Ok tt,
         snd (ShadowWrite.write_reservation_escrow_shadow_metadata settings db
                row.(Supabase.reservation_id) chain.(key) chain.(Chains.chain_id)
                chain.(Chains.escrow_contract_address) settlement.(tx_hash)
                settlement.(onchain_booking_id) settlement.(event_index)
                (Lifecycle.settled_state op)),
         [(Monitor.INFO, Lifecycle.applied op)])).
    { unfold Lifecycle._maybe_settle.
      rewrite Hflag, Hor, Hid, Hstate. cbn [negb].
      change (("locked" =? "locked")%string) with true. cbn [negb].
      fold (chain_of_row settings row). rewrite Hchain, Hen, Hrpc, Haddr, Hkey.
      cbn [negb orb]. rewrite Hsettle.
      rewrite (write_on_reachable_store settings db _ _ _ _ _ _ _ _ Hc Ho).
      rewrite Hr. reflexivity. }
    rewrite Hout. cbn [fst snd].
    rewrite (write_on_reachable_store settings db _ _ _ _ _ _ _ _ Hc Ho).
    cbn [snd].
    split; [reflexivity|]. split.
    + unfold row_of. cbn [Supabase.reservations].
      change (fun r0 : Supabase.ReservationRow =>
                (Supabase.reservation_id r0 =? Supabase.reservation_id row)%string)
        with (ShadowWrite.has_id (Supabase.reservation_id row)).
      rewrite (find_update_where_any (Supabase.reservation_id row)) by reflexivity.
      unfold row_of in Hr.
      change (fun r0 : Supabase.ReservationRow =>
                (Supabase.reservation_id r0 =? Supabase.reservation_id row)%string)
        with (ShadowWrite.has_id (Supabase.reservation_id row)) in Hr.
      rewrite Hr. cbn [option_map].
      pose proof (find_some _ _ Hr) as [_ Hh]. rewrite Hh. reflexivity.
    + intros w3'.
      unfold Lifecycle._maybe_settle. rewrite Hflag. cbn [negb].
      destruct (negb (truthy (or_str (Supabase.reservation_id written) "")));
        [reflexivity|].
      destruct op; reflexivity.
Qed.

Lemma settlement_helper_acts_on_locked_rows_once_witness :
  let row := Fixtures.booking "res-1" "locked" (Some "0xhash1") None 100 in
  let db := Fixtures.table [row] in
  let w3 := Fixtures.node Fixtures.ledger1 Fixtures.no_events (Some 1) in
  let out := Lifecycle._maybe_release_escrow_on_checkin Fixtures.settings0
               Cases.lock_mode db w3 row in
  exists row',
    row_of "res-1" (snd (fst out)) = Some row'
    /\ row'.(Supabase.escrow_state) = Some "released"
    /\ fst (Lifecycle._maybe_release_escrow_on_checkin Fixtures.settings0
              Cases.lock_mode (snd (fst out)) Cases.bad_key_node row')
       = (Ok tt, snd (fst out)).
Proof.
  intros row db w3 out.
  destruct (proj2 (settlement_helper_acts_on_locked_rows_once Lifecycle.Release
                     Fixtures.settings0 Cases.lock_mode db w3 row)
              Fixtures.sepolia0
              {| tx_hash := "0xtxhash"; onchain_booking_id := "0xkeccak:res-1";
                 event_index := 0 |}
              row eq_refl eq_refl eq_refl eq_refl eq_refl eq_refl eq_refl eq_refl
              eq_refl eq_refl eq_refl eq_refl)
    as (_ & Hrow & Hagain).
  eexists. split; [exact Hrow|]. split; [reflexivity|].
  exact (Hagain Cases.bad_key_node).
Defined.

(** ** Shadow cleanup endpoint *)

Section CleanupSafety.

Variable settings : Settings.
Variable k : string.

Lemma candidate_fields (r : Supabase.ReservationRow) :
  Supabase.shadow_candidate k r = true ->
  r.(Supabase.chain_key) = Some k
  /\ r.(Supabase.escrow_state) = Some "pending_lock"
  /\ exists t, r.(Supabase.chain_tx_hash) = Some t
               /\ String.prefix "shadow-" t = true
               /\ opt_or r.(Supabase.chain_tx_hash) "" = t
               /\ truthy t = true.
Proof.
  unfold Supabase.shadow_candidate. rewrite !andb_true_iff, !eq__Some.
  intros [[Hk Hs] Hp]. split; [exact Hk|]. split; [exact Hs|].
  unfold Supabase.like_prefix in Hp.
  destruct (Supabase.chain_tx_hash r) as [t|]; [|discriminate].
  exists t. split; [reflexivity|]. split; [exact Hp|].
  assert (Ht : truthy t = true) by (destruct t; [discriminate|reflexivity]).
  unfold opt_or, or_str. now rewrite Ht.
Qed.

Lemma cleared_not_candidate (r : Supabase.ReservationRow) :
  Supabase.shadow_candidate k (Supabase.cleared r) = false.
Proof. reflexivity. Qed.

Lemma clear_step_safe (reservation_id0 expected : string)
    (t0 t : list Supabase.ReservationRow) :
  String.prefix "shadow-" expected = true ->
  Forall2 (untouched_or_cleared k) t0 t ->
  Forall2 (untouched_or_cleared k) t0
    (Supabase.update_where (Supabase.clear_guard reservation_id0 k expected)
       Supabase.cleared t).
Proof.
  intros Hp H. induction H as [|r r' t0 t Hr _ IH]; simpl; constructor; [|exact IH].
  destruct (Supabase.clear_guard reservation_id0 k expected r') eqn:G; [|exact Hr].
  apply clear_guard_iff in G. destruct G as (_ & Gk & Gs & Gt).
  destruct Hr as [->|[_ ->]]; [|discriminate].
  right. split; [|reflexivity].
  unfold Supabase.shadow_candidate. rewrite Gk, Gs, Gt. cbn.
  now rewrite !String.eqb_refl, Hp.
Qed.

Lemma clear_store_cases (db : Supabase.Store) (reservation_id0 expected : string) :
  let db' := snd (Supabase.clear_reservation_shadow_escrow_metadata settings db
                    reservation_id0 k expected) in
  db'.(Supabase.outage) = db.(Supabase.outage)
  /\ (db' = db
      \/ db'.(Supabase.reservations)
         = Supabase.update_where (Supabase.clear_guard reservation_id0 k expected)
             Supabase.cleared db.(Supabase.reservations)).
Proof.
  intros db'. subst db'.
  unfold Supabase.clear_reservation_shadow_escrow_metadata, Supabase.request.
  destruct (Supabase._can_connect settings); cbn; [|split; [reflexivity|now left]].
  destruct (Supabase.outage db) eqn:O; cbn.
  - split; [first [reflexivity|exact O]|now left].
  - split; [first [reflexivity|exact O]|now right].
Qed.

Lemma clean_candidates_safe (rows : list Supabase.ReservationRow)
    (t0 : list Supabase.ReservationRow) :
  Forall (fun r => Supabase.shadow_candidate k r = true) rows ->
  forall db acc,
    Forall2 (untouched_or_cleared k) t0 db.(Supabase.reservations) ->
    let out := EscrowAdmin.clean_candidates settings k rows db acc in
    Forall2 (untouched_or_cleared k) t0 (snd out).(Supabase.reservations)
    /\ (snd out).(Supabase.outage) = db.(Supabase.outage)
    /\ exists ids, fst out = Ok (acc ++ ids)%list
                   /\ (List.length ids <= List.length rows)%nat.
Proof.
  intros Hrows. induction Hrows as [|row rows Hrow _ IH]; intros db acc H0.
  - cbn. split; [exact H0|]. split; [reflexivity|].
    exists []. rewrite app_nil_r. split; [reflexivity|cbn; lia].
  - cbn [EscrowAdmin.clean_candidates].
    destruct (negb (truthy (or_str (Supabase.reservation_id row) ""))
              || negb (truthy (opt_or (Supabase.chain_tx_hash row) ""))).
    + destruct (IH db acc H0) as (H1 & H2 & ids & H3 & H4).
      split; [exact H1|]. split; [exact H2|].
      exists ids. split; [exact H3|]. cbn [List.length]. lia.
    + destruct (candidate_fields row Hrow) as (_ & _ & t & _ & Hp & Hor & _).
      rewrite Hor.
      pose proof (clear_store_cases db (or_str (Supabase.reservation_id row) "") t)
        as Hcases.
      destruct (Supabase.clear_reservation_shadow_escrow_metadata settings db
                  (or_str (Supabase.reservation_id row) "") k t) as [answer db1] eqn:C.
      cbn [snd] in Hcases. destruct Hcases as [Hout Hstore].
      assert (H1 : Forall2 (untouched_or_cleared k) t0 db1.(Supabase.reservations)).
      { destruct Hstore as [Hst|Hst]; [now rewrite Hst|].
        rewrite Hst. now apply clear_step_safe. }
      assert (Hanswer : exists b, try_except answer is_RuntimeError (fun _ => Ok false)
                                  = Ok b).
      { assert (Hraise : forall e, answer = Raise e -> is_RuntimeError e = true).
        { intros e ->. revert C.
          unfold Supabase.clear_reservation_shadow_escrow_metadata.
          destruct (Supabase.request settings db _) as [t1|e1].
          - unfold Supabase.as_runtime_error.
            destruct (bind _ _) as [v|e2]; cbn; [discriminate|now intros [= <- _]].
          - now intros [= <- _]. }
        destruct answer as [b|e]; cbn; [now exists b|].
        rewrite (Hraise e eq_refl). now exists false. }
      destruct Hanswer as [b ->].
      destruct (IH db1 (if b then (acc ++ [or_str (Supabase.reservation_id row) ""])%list
                        else acc) H1) as (H2 & H3 & ids & H4 & H5).
      split; [exact H2|]. split; [congruence|].
      destruct b.
      * exists (or_str (Supabase.reservation_id row) "" :: ids).
        rewrite H4, <- app_assoc. split; [reflexivity|]. cbn [List.length]. lia.
      * exists ids. split; [exact H4|]. cbn [List.length]. lia.
Qed.

End CleanupSafety.

Lemma untouched_refl (k : string) (t : list Supabase.ReservationRow) :
  Forall2 (untouched_or_cleared k) t t.
Proof. induction t; constructor; [now left|assumption]. Qed.

Lemma shadow_candidates_listed (settings : Settings) (db : Supabase.Store)
    (k : string) (limit0 : Z) (rows : list Supabase.ReservationRow) :
  Supabase.list_reservations_for_shadow_cleanup settings db k limit0 = Ok rows ->
  rows = firstn (Z.to_nat limit0)
           (Supabase.order_created_at_desc
              (filter (Supabase.shadow_candidate k) db.(Supabase.reservations)))
  /\ Supabase._can_connect settings = true
  /\ db.(Supabase.outage) = None.
Proof.
  unfold Supabase.list_reservations_for_shadow_cleanup, Supabase.as_runtime_error,
    Supabase.request.
  destruct (Supabase._can_connect settings); cbn; [|discriminate].
  destruct (Supabase.outage db); cbn; [discriminate|].
  intros [= <-]. repeat split.
Qed.

Lemma firstn_In_list {A} (n : nat) (x : A) (l : list A) : In x (firstn n l) -> In x l.
Proof.
  intros H. rewrite <- (firstn_skipn n l). apply in_or_app. now left.
Qed.

(** X16.  The shadow cleanup endpoint never touches a row that is not a
    stale shadow candidate of the resolved chain: after the request, dry
    run or executed, successful or not, every row of the table is either
    exactly as before or was a [pending_lock] row of that chain with a
    ["shadow-"] transaction hash and is now cleared.  A dry run leaves the
    whole store as it is and reports no cleaned row; an executed run
    reports at most as many cleaned rows as candidates, and at most [limit]
    candidates. *)
Theorem cleanup_touches_stale_shadow_rows_only
    (settings : Settings) (db : Supabase.Store)
    (payload : EscrowAdmin.EscrowShadowCleanupRequest) (active : ChainConfig) :
  get_active_chain settings = Ok active ->
  let call := EscrowAdmin.cleanup_shadow_rows settings db payload in
  let k := lower (opt_or payload.(EscrowAdmin.req_chain_key) active.(key)) in
  Forall2 (untouched_or_cleared k) db.(Supabase.reservations)
    (snd call).(Supabase.reservations)
  /\ (payload.(EscrowAdmin.req_execute) = false -> snd call = db)
  /\ (forall resp, fst call = Ok resp ->
        resp.(EscrowAdmin.resp_chain_key) = k
        /\ resp.(EscrowAdmin.executed) = payload.(EscrowAdmin.req_execute)
        /\ 0 <= resp.(EscrowAdmin.cleaned_count)
           <= resp.(EscrowAdmin.candidate_count)
        /\ resp.(EscrowAdmin.candidate_count) <= payload.(EscrowAdmin.req_limit)
        /\ (payload.(EscrowAdmin.req_execute) = false ->
            resp.(EscrowAdmin.cleaned_reservation_ids) = [])).
Proof.
  intros Hactive call k. subst call.
  unfold EscrowAdmin.cleanup_shadow_rows. rewrite Hactive. fold k.
  destruct (EscrowAdmin.valid_request payload) eqn:V; cbn [negb];
    [|cbn; split; [apply untouched_refl|split; [reflexivity|discriminate]]].
  destruct (dict_mem k (get_chain_registry settings)); cbn [negb];
    [|cbn; split; [apply untouched_refl|split; [reflexivity|discriminate]]].
  destruct (Supabase.list_reservations_for_shadow_cleanup settings db k
              (EscrowAdmin.req_limit payload)) as [rows|e] eqn:L; cbn [try_except].
  2:{ destruct (is_RuntimeError e); cbn;
        (split; [apply untouched_refl|split; [reflexivity|discriminate]]). }
  destruct (shadow_candidates_listed _ _ _ _ _ L) as (Hrows & _ & _).
  assert (Hcand : Forall (fun r => Supabase.shadow_candidate k r = true) rows).
  { apply Forall_forall. intros r Hr. rewrite Hrows in Hr.
    apply firstn_In_list in Hr.
    apply (proj1 (order_created_at_desc_In _ _)) in Hr.
    now apply (proj1 (filter_In _ _ _)) in Hr. }
  assert (Hlen : Z.of_nat (List.length rows) <= EscrowAdmin.req_limit payload).
  { unfold EscrowAdmin.valid_request in V.
    rewrite !andb_true_iff, !Z.leb_le in V.
    rewrite Hrows, length_firstn. lia. }
  destruct (EscrowAdmin.req_execute payload) eqn:X.
  - pose proof (clean_candidates_safe settings k rows (Supabase.reservations db) Hcand
                  db [] (untouched_refl k _)) as Hsafe.
    destruct (EscrowAdmin.clean_candidates settings k rows db []) as [cleaned db'] eqn:C.
    cbn [fst snd] in Hsafe. destruct Hsafe as (H1 & _ & ids & -> & Hids).
    cbn [fst snd bind app]. split; [exact H1|]. split; [discriminate|].
    intros resp. destruct (EscrowAdmin.cleanup_items rows) as [items0|e]; cbn [bind];
      [|discriminate].
    intros [= <-]. cbn. repeat split; try lia; try discriminate.
  - cbn [fst snd bind]. split; [apply untouched_refl|]. split; [reflexivity|].
    intros resp. destruct (EscrowAdmin.cleanup_items rows) as [items0|e]; cbn [bind];
      [|discriminate].
    intros [= <-]. cbn. repeat split; lia.
Qed.

Lemma cleanup_touches_stale_shadow_rows_only_witness :
  let call := EscrowAdmin.cleanup_shadow_rows Fixtures.settings0 Cases.mixed_table
                {| EscrowAdmin.req_chain_key := Some "sepolia";
                   EscrowAdmin.req_limit := 20;
                   EscrowAdmin.req_execute := true |} in
  Forall2 (untouched_or_cleared "sepolia")
    Cases.mixed_table.(Supabase.reservations) (snd call).(Supabase.reservations)
  /\ row_of "res-b" (snd call)
     = Some (Fixtures.booking "res-b" "pending_lock" (Some "0xgenuine") (Some "0xb") 200).
Proof.
  intros call. split; [|reflexivity].
  exact (proj1 (cleanup_touches_stale_shadow_rows_only Fixtures.settings0
                  Cases.mixed_table
                  {| EscrowAdmin.req_chain_key := Some "sepolia";
                     EscrowAdmin.req_limit := 20;
                     EscrowAdmin.req_execute := true |}
                  Fixtures.sepolia0 eq_refl)).
Defined.

Section CleanupCompleteness.

Variable settings : Settings.
Variable k : string.

Hypothesis Hconnect : Supabase._can_connect settings = true.

Lemma same_id_same_row (t : list Supabase.ReservationRow) :
  NoDup (ids_of t) ->
  forall r r', In r t -> In r' t ->
    r.(Supabase.reservation_id) = r'.(Supabase.reservation_id) -> r = r'.
Proof.
  unfold ids_of. induction t as [|x t IH]; intros Hnd r r' Hr Hr' Hid; [destruct Hr|].
  cbn in Hnd. inversion Hnd as [|? ? Hnot Hnd']; subst.
  destruct Hr as [<-|Hr]; destruct Hr' as [<-|Hr'].
  - reflexivity.
  - exfalso. apply Hnot. rewrite Hid. now apply in_map.
  - exfalso. apply Hnot. rewrite <- Hid. now apply in_map.
  - now apply IH.
Qed.

Lemma row_of_unique (db : Supabase.Store) (row : Supabase.ReservationRow) :
  NoDup (ids_of db.(Supabase.reservations)) ->
  In row db.(Supabase.reservations) ->
  row_of row.(Supabase.reservation_id) db = Some row.
Proof.
  intros Hnd Hin. unfold row_of.
  destruct (find _ (Supabase.reservations db)) as [r0|] eqn:F.
  - apply find_some in F. destruct F as [Hin0 Hid0]. apply String.eqb_eq in Hid0.
    f_equal. now apply (same_id_same_row _ Hnd).
  - exfalso. eapply find_none in F; [|exact Hin]. cbn in F.
    now rewrite String.eqb_refl in F.
Qed.

Lemma ids_of_clear_ids (ids : list string) (t : list Supabase.ReservationRow) :
  ids_of (clear_ids ids t) = ids_of t.
Proof.
  unfold ids_of, clear_ids. rewrite map_map. apply map_ext.
  intros r. destruct (str_in _ ids); reflexivity.
Qed.

Lemma clear_ids_compose (id : string) (ids : list string)
    (t : list Supabase.ReservationRow) :
  clear_ids ids (clear_ids [id] t) = clear_ids (id :: ids) t.
Proof.
  unfold clear_ids. rewrite map_map. apply map_ext. intros r.
  unfold str_in. cbn [existsb].
  destruct (Supabase.reservation_id r =? id)%string; cbn [orb].
  - cbn. destruct (existsb _ ids); reflexivity.
  - reflexivity.
Qed.

Lemma str_in_In (x : string) (l : list string) : str_in x l = true <-> In x l.
Proof.
  unfold str_in. rewrite existsb_exists. split.
  - intros (y & Hy & E). apply String.eqb_eq in E. now subst.
  - intros H. exists x. split; [exact H|apply String.eqb_refl].
Qed.

(** On a table with unique ids, clearing a stale shadow row under its own
    hash clears exactly the rows with its id and reports success. *)
Lemma clear_own_candidate (db : Supabase.Store) (row : Supabase.ReservationRow)
    (t : string) :
  db.(Supabase.outage) = None ->
  NoDup (ids_of db.(Supabase.reservations)) ->
  In row db.(Supabase.reservations) ->
  Supabase.shadow_candidate k row = true ->
  row.(Supabase.chain_tx_hash) = Some t ->
  Supabase.clear_reservation_shadow_escrow_metadata settings db
    row.(Supabase.reservation_id) k t
  = (Ok true,
     {| Supabase.reservations :=
          clear_ids [row.(Supabase.reservation_id)] db.(Supabase.reservations);
        Supabase.outage := None |}).
Proof.
  intros Ho Hnd Hin Hcand Htx.
  rewrite (clear_on_reachable_store _ _ _ settings db Hconnect Ho).
  rewrite (row_of_unique db row Hnd Hin). cbn [option_map].
  destruct (candidate_fields k row Hcand) as (Hk & Hs & _).
  assert (G : Supabase.clear_guard (Supabase.reservation_id row) k t row = true).
  { apply clear_guard_iff. repeat split; assumption. }
  rewrite G. f_equal. f_equal.
  unfold Supabase.update_where, clear_ids. apply map_ext_in. intros r Hr.
  unfold str_in. cbn [existsb]. rewrite orb_false_r.
  destruct (Supabase.reservation_id r =? Supabase.reservation_id row)%string eqn:E.
  - apply String.eqb_eq in E.
    rewrite (same_id_same_row _ Hnd r row Hr Hin E). now rewrite G.
  - unfold Supabase.clear_guard. now rewrite E.
Qed.

Lemma clean_candidates_complete (rows : list Supabase.ReservationRow) :
  forall db acc,
    db.(Supabase.outage) = None ->
    NoDup (ids_of db.(Supabase.reservations)) ->
    NoDup (ids_of rows) ->
    (forall row, In row rows ->
       In row db.(Supabase.reservations)
       /\ Supabase.shadow_candidate k row = true
       /\ truthy row.(Supabase.reservation_id) = true) ->
    EscrowAdmin.clean_candidates settings k rows db acc
    = (Ok (acc ++ ids_of rows)%list,
       {| Supabase.reservations := clear_ids (ids_of rows) db.(Supabase.reservations);
          Supabase.outage := None |}).
Proof.
  induction rows as [|row rows IH]; intros db acc Ho Hnd Hrows Hall.
  - cbn. rewrite app_nil_r. f_equal. destruct db as [t o]. cbn in *. subst o.
    f_equal. unfold clear_ids, ids_of, str_in. cbn [map existsb].
    symmetry. apply map_id.
  - cbn [EscrowAdmin.clean_candidates].
    destruct (Hall row (or_introl eq_refl)) as (Hin & Hcand & Hid).
    destruct (candidate_fields k row Hcand) as (_ & _ & t & Htx & _ & Hor & Ht).
    assert (Hrid : or_str (Supabase.reservation_id row) "" = Supabase.reservation_id row)
      by (unfold or_str; now rewrite Hid).
    rewrite Hrid, Hid, Hor, Ht. cbn [negb orb].
    rewrite (clear_own_candidate db row t Ho Hnd Hin Hcand Htx).
    cbn [try_except].
    cbn in Hrows. inversion Hrows as [|? ? Hnot Hrows']; subst.
    rewrite IH.
    + cbn [Supabase.reservations]. rewrite clear_ids_compose, <- app_assoc. reflexivity.
    + reflexivity.
    + cbn [Supabase.reservations]. now rewrite ids_of_clear_ids.
    + exact Hrows'.
    + intros row' Hin'. destruct (Hall row' (or_intror Hin')) as (Hin0 & Hc0 & Hi0).
      split; [|split; assumption].
      cbn [Supabase.reservations]. unfold clear_ids. apply in_map_iff.
      exists row'. split; [|exact Hin0].
      unfold str_in. cbn [existsb]. rewrite orb_false_r.
      destruct (Supabase.reservation_id row' =? Supabase.reservation_id row)%string eqn:E;
        [|reflexivity].
      exfalso. apply Hnot. apply String.eqb_eq in E. rewrite <- E.
      now apply in_map.
Qed.

End CleanupCompleteness.

Lemma insert_desc_perm (r : Supabase.ReservationRow) (l : list Supabase.ReservationRow) :
  Permutation (Supabase.insert_desc r l) (r :: l).
Proof.
  induction l as [|x l IH]; simpl; [apply Permutation_refl|].
  destruct (Supabase.created_at x <? Supabase.created_at r); [apply Permutation_refl|].
  eapply perm_trans; [apply perm_skip; exact IH|apply perm_swap].
Qed.

Lemma order_created_at_desc_perm (l : list Supabase.ReservationRow) :
  Permutation (Supabase.order_created_at_desc l) l.
Proof.
  unfold Supabase.order_created_at_desc.
  induction l as [|x l IH]; simpl; [apply Permutation_refl|].
  eapply perm_trans; [apply insert_desc_perm|now apply perm_skip].
Qed.

Lemma NoDup_ids_filter (p : Supabase.ReservationRow -> bool)
    (t : list Supabase.ReservationRow) :
  NoDup (ids_of t) -> NoDup (ids_of (filter p t)).
Proof.
  unfold ids_of. induction t as [|x t IH]; simpl; intros H; [constructor|].
  inversion H as [|? ? Hnot Hnd]; subst.
  destruct (p x); simpl; [|now apply IH].
  constructor; [|now apply IH].
  intros Hin. apply Hnot. apply in_map_iff in Hin. destruct Hin as (y & Hy & Hin).
  apply filter_In in Hin. rewrite <- Hy. apply in_map. tauto.
Qed.

Lemma NoDup_ids_firstn (n : nat) (l : list Supabase.ReservationRow) :
  NoDup (ids_of l) -> NoDup (ids_of (firstn n l)).
Proof.
  unfold ids_of. intros H. rewrite <- (firstn_skipn n l), map_app in H.
  now apply NoDup_app_remove_r in H.
Qed.

Lemma filter_nil {A} (f : A -> bool) (l : list A) :
  (forall x, In x l -> f x = false) -> filter f l = [].
Proof.
  induction l as [|x l IH]; intros H; simpl; [reflexivity|].
  rewrite (H x (or_introl eq_refl)). apply IH. intros y Hy. apply H. now right.
Qed.

Lemma resolved_key_in_registry (settings : Settings)
    (payload : EscrowAdmin.EscrowShadowCleanupRequest) (active : ChainConfig) :
  EscrowAdmin.valid_request payload = true ->
  get_active_chain settings = Ok active ->
  dict_mem (lower (opt_or payload.(EscrowAdmin.req_chain_key) active.(key)))
    (get_chain_registry settings) = true.
Proof.
  intros V Hactive. unfold EscrowAdmin.valid_request in V.
  rewrite !andb_true_iff in V. destruct V as [[V _] _].
  destruct (EscrowAdmin.req_chain_key payload) as [ck|].
  - apply orb_true_iff in V. destruct V as [V|V]; apply String.eqb_eq in V; subst ck;
      reflexivity.
  - pose proof (get_active_chain_entry settings active Hactive) as D.
    destruct (registry_key_cases settings _ _ D) as [[E|E] _];
      cbn [opt_or]; rewrite E; reflexivity.
Qed.

(** X17.  On a reachable store whose reservation ids are unique and
    non-empty, an executed cleanup clears every candidate it discovered:
    the store afterwards is the table with exactly the discovered rows
    cleared, the response lists all discovered ids as cleaned (so
    [cleaned_count = candidate_count]), and when the chain had no more stale
    shadow rows than [limit], candidate discovery afterwards finds none. *)
Theorem executed_cleanup_clears_every_candidate
    (settings : Settings) (db : Supabase.Store)
    (payload : EscrowAdmin.EscrowShadowCleanupRequest) (active : ChainConfig) :
  Supabase._can_connect settings = true ->
  db.(Supabase.outage) = None ->
  EscrowAdmin.valid_request payload = true ->
  payload.(EscrowAdmin.req_execute) = true ->
  get_active_chain settings = Ok active ->
  NoDup (ids_of db.(Supabase.reservations)) ->
  (forall r, In r db.(Supabase.reservations) ->
             truthy r.(Supabase.reservation_id) = true) ->
  let k := lower (opt_or payload.(EscrowAdmin.req_chain_key) active.(key)) in
  let stale := filter (Supabase.shadow_candidate k) db.(Supabase.reservations) in
  let rows := firstn (Z.to_nat payload.(EscrowAdmin.req_limit))
                (Supabase.order_created_at_desc stale) in
  let call := EscrowAdmin.cleanup_shadow_rows settings db payload in
  snd call = {| Supabase.reservations := clear_ids (ids_of rows) db.(Supabase.reservations);
                Supabase.outage := None |}
  /\ (forall resp, fst call = Ok resp ->
        resp.(EscrowAdmin.cleaned_reservation_ids) = ids_of rows
        /\ resp.(EscrowAdmin.cleaned_count) = resp.(EscrowAdmin.candidate_count))
  /\ (Z.of_nat (List.length stale) <= payload.(EscrowAdmin.req_limit) ->
      forall limit', Supabase.list_reservations_for_shadow_cleanup settings (snd call)
                       k limit' = Ok []).
Proof.
  intros Hc Ho V X Hactive Hnd Hids k stale rows call.
  assert (Hlist : Supabase.list_reservations_for_shadow_cleanup settings db k
                    (EscrowAdmin.req_limit payload) = Ok rows).
  { unfold Supabase.list_reservations_for_shadow_cleanup, Supabase.as_runtime_error,
      Supabase.request. rewrite Hc, Ho. reflexivity. }
  assert (Hrows_in : forall row, In row rows ->
            In row (Supabase.reservations db)
            /\ Supabase.shadow_candidate k row = true
            /\ truthy (Supabase.reservation_id row) = true).
  { intros row Hin. unfold rows in Hin. apply firstn_In_list in Hin.
    apply (proj1 (order_created_at_desc_In _ _)) in Hin.
    apply filter_In in Hin. destruct Hin as [Hin Hcand].
    split; [exact Hin|]. split; [exact Hcand|now apply Hids]. }
  assert (Hrows_nd : NoDup (ids_of rows)).
  { unfold rows. apply NoDup_ids_firstn.
    unfold ids_of.
    eapply Permutation_NoDup;
      [apply Permutation_sym, Permutation_map, order_created_at_desc_perm|].
    now apply NoDup_ids_filter. }
  assert (Hcall : call
    = (cleaned_ids <- Ok (ids_of rows) ;;
       items0 <- EscrowAdmin.cleanup_items rows ;;
       Ok {| EscrowAdmin.resp_chain_key := k;
             EscrowAdmin.executed := true;
             EscrowAdmin.candidate_count := Z.of_nat (List.length rows);
             EscrowAdmin.cleaned_count := Z.of_nat (List.length cleaned_ids);
             EscrowAdmin.cleaned_reservation_ids := cleaned_ids;
             EscrowAdmin.candidates := items0 |},
       {| Supabase.reservations := clear_ids (ids_of rows) db.(Supabase.reservations);
          Supabase.outage := None |})).
  { unfold call, EscrowAdmin.cleanup_shadow_rows.
    assert (Hmem : dict_mem k (get_chain_registry settings) = true)
      by exact (resolved_key_in_registry settings payload active V Hactive).
    rewrite V, Hactive. cbn [negb]. fold k. rewrite Hmem. cbn [negb].
    rewrite Hlist. cbn [try_except]. rewrite X.
    rewrite (clean_candidates_complete settings k Hc rows db [] Ho Hnd Hrows_nd Hrows_in).
    reflexivity. }
  rewrite Hcall. cbn [fst snd bind].
  split; [reflexivity|]. split.
  - intros resp. destruct (EscrowAdmin.cleanup_items rows) as [items0|e]; cbn [bind];
      [|discriminate].
    intros [= <-]. cbn. split; [reflexivity|].
    unfold ids_of. now rewrite length_map.
  - intros Hfit limit'.
    assert (Hall : rows = Supabase.order_created_at_desc stale).
    { unfold rows. apply firstn_all2. rewrite order_created_at_desc_length. lia. }
    unfold Supabase.list_reservations_for_shadow_cleanup, Supabase.as_runtime_error,
      Supabase.request. rewrite Hc. cbn [Supabase.outage Supabase.reservations bind try_except].
    rewrite filter_nil; [destruct (Z.to_nat limit'); reflexivity|].
    intros r' Hin'. unfold clear_ids in Hin'. apply in_map_iff in Hin'.
    destruct Hin' as (r & <- & Hin).
    destruct (str_in (Supabase.reservation_id r) (ids_of rows)) eqn:S.
    + apply cleared_not_candidate.
    + destruct (Supabase.shadow_candidate k r) eqn:Cand; [|reflexivity].
      exfalso.
      assert (Hr : In r rows).
      { rewrite Hall. apply order_created_at_desc_In. apply filter_In. now split. }
      assert (Hs : str_in (Supabase.reservation_id r) (ids_of rows) = true)
        by (apply str_in_In; unfold ids_of; now apply in_map).
      congruence.
Qed.

Lemma executed_cleanup_clears_every_candidate_witness :
  let payload := {| EscrowAdmin.req_chain_key := Some "sepolia";
                    EscrowAdmin.req_limit := 20;
                    EscrowAdmin.req_execute := true |} in
  let call := EscrowAdmin.cleanup_shadow_rows Fixtures.settings0 Cases.mixed_table payload in
  (forall resp, fst call = Ok resp ->
     resp.(EscrowAdmin.cleaned_reservation_ids) = ["res-e"; "res-c"; "res-a"])
  /\ Supabase.list_reservations_for_shadow_cleanup Fixtures.settings0 (snd call)
       "sepolia" 20 = Ok [].
Proof.
  intros payload call.
  destruct (executed_cleanup_clears_every_candidate Fixtures.settings0 Cases.mixed_table
              payload Fixtures.sepolia0 eq_refl eq_refl eq_refl eq_refl eq_refl)
    as (_ & Hresp & Hnone).
  - cbn. repeat constructor; cbn; intuition discriminate.
  - intros r Hr. cbn in Hr. intuition (subst; reflexivity).
  - split.
    + intros resp Hok. exact (proj1 (Hresp resp Hok)).
    + apply Hnone. vm_compute. discriminate.
Defined.

Lemma rstrip_chars_no_trailing (s t : string) :
  Status.rstrip_chars Status.underscore s <> (t ++ "_")%string.
Proof.
  revert t. induction s as [|c r IH]; intros t; cbn [Status.rstrip_chars].
  - destruct t; discriminate.
  - destruct (Status.rstrip_chars Status.underscore r) as [|a r''] eqn:E.
    + destruct (Status.underscore c) eqn:U; [destruct t; discriminate|].
      destruct t as [|c' t']; cbn.
      * intros [= ->]. discriminate.
      * destruct t'; discriminate.
    + destruct t as [|c' t']; cbn; [discriminate|].
      intros [= _ H]. exact (IH t' H).
Qed.

Lemma str_in_iff (s : string) (l : list string) : str_in s l = true <-> In s l.
Proof.
  unfold str_in. rewrite existsb_exists. split.
  - intros (x & Hin & E). apply String.eqb_eq in E. now subst.
  - intros Hin. exists s. split; [exact Hin|apply String.eqb_refl].
Qed.

(** X18.  [canonical_booking_status] is a retraction onto the canonical
    statuses: whatever the stored value, the result is one of
    [CANONICAL_BOOKING_STATUSES]; every canonical status is returned
    unchanged; so normalising twice is normalising once. *)
Theorem canonical_booking_status_is_a_retraction (value : option string) :
  In (Status.canonical_booking_status value) Status.CANONICAL_BOOKING_STATUSES
  /\ (forall s, In s Status.CANONICAL_BOOKING_STATUSES ->
                Status.canonical_booking_status (Some s) = s)
  /\ Status.canonical_booking_status (Some (Status.canonical_booking_status value))
     = Status.canonical_booking_status value.
Proof.
  assert (Himage : forall v, In (Status.canonical_booking_status v)
                                Status.CANONICAL_BOOKING_STATUSES).
  { intros [v|]; [|cbn; tauto].
    unfold Status.canonical_booking_status.
    destruct (negb (truthy (strip v))); [cbn; tauto|].
    cbv zeta.
    match goal with
    | |- In (if str_in ?m ?l then _ else _) _ => destruct (str_in m l) eqn:S
    end; [now apply str_in_iff|cbn; tauto]. }
  assert (Hfixed : forall s, In s Status.CANONICAL_BOOKING_STATUSES ->
                             Status.canonical_booking_status (Some s) = s).
  { intros s Hin. cbn in Hin.
    repeat (destruct Hin as [<-|Hin]; [vm_compute; reflexivity|]).
    destruct Hin. }
  split; [apply Himage|]. split; [exact Hfixed|].
  apply Hfixed, Himage.
Qed.

Lemma alias_get_live (token : string) :
  token <> "pending_payment_" ->
  token <> "forverification_" ->
  Status.alias_get token Status._BOOKING_STATUS_ALIASES token
  = Status.alias_get token live_aliases token.
Proof.
  intros H1 H2. apply String.eqb_neq in H1, H2.
  unfold Status._BOOKING_STATUS_ALIASES, live_aliases.
  cbn [Status.alias_get filter fst negb str_in existsb String.eqb Ascii.eqb Bool.eqb orb
       Status._BOOKING_STATUS_ALIASES].
  cbn. rewrite H1, H2. reflexivity.
Qed.

(** X19.  The token [canonical_booking_status] looks up never ends in an
    underscore, so the alias entries [pending_payment_] and
    [forverification_] are never matched: for every value the function
    returns what it would return with the ten other entries alone as its
    alias table. *)
Theorem trailing_underscore_aliases_are_never_matched (value : option string) :
  Status.canonical_booking_status value
  = match value with
    | None => "pending_payment"
    | Some v =>
        if negb (truthy (strip v)) then "pending_payment"
        else
          let mapped := Status.alias_get (status_token v) live_aliases (status_token v) in
          if str_in mapped Status.CANONICAL_BOOKING_STATUSES then mapped
          else "pending_payment"
    end.
Proof.
  destruct value as [v|]; [|reflexivity].
  unfold Status.canonical_booking_status. fold (status_token v).
  destruct (negb (truthy (strip v))); [reflexivity|].
  cbv zeta.
  rewrite (alias_get_live (status_token v)
             (rstrip_chars_no_trailing _ "pending_payment")
             (rstrip_chars_no_trailing _ "forverification")).
  reflexivity.
Qed.

Lemma run_once_keeps_enabled
    (settings : Settings) (db : Supabase.Store) (w3 : Web3)
    (clock : Monitor.Clock) (p : Monitor.Process) :
  exists snapshot0 p',
    Monitor.run_escrow_reconciliation_once_now settings db w3 clock p
    = Ok (snapshot0, p')
    /\ snapshot0 = p'.(Monitor._monitor_state)
    /\ p'.(Monitor._monitor_state).(Monitor.enabled)
       = p.(Monitor._monitor_state).(Monitor.enabled).
Proof.
  destruct (run_once_outcome settings db w3 clock p)
    as (k & snapshot0 & p' & _ & Hrun & Hsnap & Hout).
  exists snapshot0, p'. split; [exact Hrun|]. split; [exact Hsnap|].
  cbv zeta in Hout.
  destruct (Monitor._build_summary settings db w3 k (escrow_reconciliation_limit settings));
    rewrite Hout; reflexivity.
Qed.

(** X20.  POST /reconciliation-monitor/run always answers, and a
    GET /reconciliation-monitor that follows it returns the same document.
    The [enabled] field of both responses is the scheduler feature flag of
    the settings; the flag kept in the monitor state is not changed by a
    run. *)
Theorem monitor_run_then_get_agree
    (settings : Settings) (db : Supabase.Store) (w3 : Web3)
    (clock : Monitor.Clock) (p : Monitor.Process) :
  exists resp p',
    EscrowAdmin.run_reconciliation_monitor_now settings db w3 clock p = Ok (resp, p')
    /\ EscrowAdmin.get_reconciliation_monitor settings p' = resp
    /\ resp.(Monitor.enabled) = settings.(feature_escrow_reconciliation_scheduler)
    /\ p'.(Monitor._monitor_state).(Monitor.enabled)
       = p.(Monitor._monitor_state).(Monitor.enabled).
Proof.
  destruct (run_once_keeps_enabled settings db w3 clock p)
    as (snapshot0 & p' & Hrun & Hsnap & Hen).
  exists (EscrowAdmin.with_enabled settings.(feature_escrow_reconciliation_scheduler)
            snapshot0), p'.
  unfold EscrowAdmin.run_reconciliation_monitor_now, EscrowAdmin.get_reconciliation_monitor,
    Monitor.get_escrow_reconciliation_monitor_snapshot, Monitor.snapshot.
  rewrite Hrun. cbn [bind]. rewrite Hsnap.
  repeat split. exact Hen.
Qed.
